(** * PortHub: username reservation and profile initialisation

    A shallow embedding of the registration form
    ([src/components/auth-form.tsx]), the federated completion page
    ([src/app/finish-profile/page.tsx]), the session provider
    ([contexts/auth-context]) and the dashboard gate
    ([src/app/dashboard/page.tsx]).

    The two external collaborators are modelled by what the client code
    observes of them:
    - Firestore is a finite map from document paths (collection, id) to
      documents; [setDoc] without [merge] replaces the document at its
      path, [getDoc] reads it.  Any awaited store call may reject; which
      ones do is decided by the environment ([faults]).
    - Firebase Auth answers a sign-up or sign-in with a user or an
      error; the answer is an input of the run ([reply]).
    - [doc] builds a document reference from path components and throws
      on an invalid one; the completion page builds its references from
      a query parameter, which is any text.

    The second part embeds the pages around the registration: the
    public portfolio page ([getPortfolioData]), the editor
    ([src/app/editor/page.tsx]: its fetch, its save and its skills
    input) and the header's logout ([src/components/header.tsx]), with
    merging writes and equality queries of the store. *)

From Stdlib Require Import String Ascii List Bool Arith Lia.
From stdpp Require Import gmap strings list fin_maps.
Import ListNotations.

Set Warnings "-register-all".

Local Open Scope string_scope.
Local Open Scope list_scope.

(** ** JavaScript strings *)

(** Strings are sequences of code units below 256.  [toLowerCase] maps
    the upper-case letters of that range (A-Z, and the Latin-1 block
    U+00C0-U+00DE except the multiplication sign U+00D7) to the code unit
    32 above and leaves every other code unit as it is. *)
Definition isUpperCase (c : ascii) : bool :=
  let n := nat_of_ascii c in
  (((65 <=? n) && (n <=? 90))
   || ((192 <=? n) && (n <=? 222) && negb (n =? 215)))%nat.

Definition lowerOf (c : ascii) : ascii := ascii_of_nat (nat_of_ascii c + 32).

Definition toLowerCaseChar (c : ascii) : ascii :=
  if isUpperCase c then lowerOf c else c.

Fixpoint toLowerCase (s : string) : string :=
  match s with
  | EmptyString => EmptyString
  | String c rest => String (toLowerCaseChar c) (toLowerCase rest)
  end.

(** The character class [[a-zA-Z0-9_]] of the username pattern. *)
Definition wordChar (c : ascii) : bool :=
  let n := nat_of_ascii c in
  (((97 <=? n) && (n <=? 122))
   || ((65 <=? n) && (n <=? 90))
   || ((48 <=? n) && (n <=? 57))
   || (n =? 95))%nat.

(** [/^[a-zA-Z0-9_]+$/.test(s)]: one or more characters, all of the
    class ([$] without the [m] flag only matches at the very end). *)
Fixpoint allWordChars (s : string) : bool :=
  match s with
  | EmptyString => true
  | String c rest => wordChar c && allWordChars rest
  end.

Definition usernamePattern (s : string) : bool :=
  match s with
  | EmptyString => false
  | _ => allWordChars s
  end.

(** JavaScript truthiness of a [string | null] value: [null] and the
    empty string are falsy. *)
Definition truthy (o : option string) : bool :=
  match o with
  | Some (String _ _) => true
  | _ => false
  end.

(** [o || dflt] on a [string | null] value. *)
Definition orElse (o : option string) (dflt : string) : string :=
  match o with
  | Some (String c r) => String c r
  | _ => dflt
  end.

(** A [string | null] interpolated in a template literal. *)
Definition interpolate (o : option string) : string :=
  match o with
  | Some s => s
  | None => "null"
  end.

(** ** Firestore documents *)

Inductive Value : Type :=
| VNull
| VStr (s : string)
| VServerTimestamp
| VTimestamp (t : nat)
| VArr (items : list Value)
| VObj (fields : list (string * Value)).

(** A document is an object literal: its fields in the order written. *)
Abbreviation Doc := (list (string * Value)).

Fixpoint doc_get (k : string) (d : Doc) : option Value :=
  match d with
  | [] => None
  | (k', v) :: rest => if String.eqb k k' then Some v else doc_get k rest
  end.

(** Assignment to a property: replaces the value of an existing key in
    place, appends a new key. *)
Fixpoint doc_set (k : string) (v : Value) (d : Doc) : Doc :=
  match d with
  | [] => [(k, v)]
  | (k', v') :: rest =>
      if String.eqb k k' then (k', v) :: rest else (k', v') :: doc_set k v rest
  end.

(** Object spread [{ ...base, ...extra }]. *)
Definition spread (base extra : Doc) : Doc :=
  fold_left (fun acc kv => doc_set (fst kv) (snd kv) acc) extra base.

Definition ofNullable (o : option string) : Value :=
  match o with
  | Some s => VStr s
  | None => VNull
  end.

(** The server replaces the [serverTimestamp()] sentinel of a written
    field by its clock. *)
Definition resolveTimestamps (now : nat) (d : Doc) : Doc :=
  map (fun kv => (fst kv,
                  match snd kv with
                  | VServerTimestamp => VTimestamp now
                  | v => v
                  end)) d.

(** A document path [doc(db, collection, id)]. *)
Abbreviation Path := (string * string)%type.

(** ** Identity provider and errors *)

Record User : Type := mkUser {
  uid : string;
  userEmail : option string;
  photoURL : option string
}.

Record Error : Type := mkError { message : string }.

(** ** Observable effects of the client code *)

Inductive Route : Type :=
| RHome
| RLogin
| RDashboard
| RFinishProfile (uidParam emailParam : string).

Inductive Variant : Type := Default | Destructive.

Inductive Event : Type :=
| EvGetDoc (p : Path)
| EvSetDoc (p : Path) (d : Doc)
| EvCreateUser (email password : string)
| EvSignIn (email password : string)
| EvSignInPopup
| EvFieldError (field msg : string)
| EvToast (variant : Variant) (title description : string)
| EvPush (r : Route)
| EvReplace (r : Route).

(** ** World state *)

(** [db] is the Firestore database, [principals] the users the identity
    provider has created, [clock] the server time.  [faults] is the
    environment's script for the store calls to come: each call takes
    the head, [Some e] makes it reject with [e], [None] lets it through;
    when the script is used up every call goes through. *)
Record State : Type := mkState {
  db : gmap Path Doc;
  principals : list User;
  clock : nat;
  faults : list (option Error)
}.

Definition withDb (s : State) (d : gmap (string * string) Doc) : State :=
  {| db := d; principals := principals s; clock := clock s;
     faults := faults s |}.

Definition withPrincipals (s : State) (ps : list User) : State :=
  {| db := db s; principals := ps; clock := clock s; faults := faults s |}.

(** The environment's decision for the next store call, and the state
    once that decision is consumed. *)
Definition nextFault (s : State) : option Error := hd None (faults s).

Definition consumed (s : State) : State :=
  {| db := db s; principals := principals s; clock := clock s;
     faults := tl (faults s) |}.

(** ** Computations: state, exceptions, emitted events *)

Inductive Outcome (A : Type) : Type :=
| Returned (a : A)
| Threw (e : Error).
Arguments Returned {A} a.
Arguments Threw {A} e.

Definition M (A : Type) : Type := State -> Outcome A * State * list Event.

Definition ret {A} (a : A) : M A := fun s => (Returned a, s, []).

Definition bind {A B} (m : M A) (k : A -> M B) : M B :=
  fun s =>
    match m s with
    | (Returned a, s1, ev1) =>
        match k a s1 with
        | (o, s2, ev2) => (o, s2, ev1 ++ ev2)
        end
    | (Threw e, s1, ev1) => (Threw e, s1, ev1)
    end.

(** [try { body } catch (error) { handler }] *)
Definition tryCatch {A} (body : M A) (handler : Error -> M A) : M A :=
  fun s =>
    match body s with
    | (Returned a, s1, ev1) => (Returned a, s1, ev1)
    | (Threw e, s1, ev1) =>
        match handler e s1 with
        | (o, s2, ev2) => (o, s2, ev1 ++ ev2)
        end
    end.

Definition emit (e : Event) : M unit := fun s => (Returned tt, s, [e]).

Notation "'let*' x ':=' m 'in' k" := (bind m (fun x => k))
  (at level 10, x name, m at level 100, k at level 200).
Notation "m ';;' k" := (bind m (fun _ => k))
  (at level 100, k at level 200, right associativity).

(** ** Firestore calls *)

(** [await getDoc(doc(db, c, id))]; the result is the snapshot's data,
    [None] when [snapshot.exists()] is false. *)
Definition getDoc (p : Path) : M (option Doc) :=
  fun s =>
    match nextFault s with
    | Some e => (Threw e, consumed s, [EvGetDoc p])
    | None => (Returned (db s !! p), consumed s, [EvGetDoc p])
    end.

(** [await setDoc(doc(db, c, id), data)] without merge options: the
    document at the path is replaced. *)
Definition setDoc (p : Path) (d : Doc) : M unit :=
  fun s =>
    match nextFault s with
    | Some e => (Threw e, consumed s, [EvSetDoc p d])
    | None =>
        (Returned tt,
         withDb (consumed s) (<[p := resolveTimestamps (clock s) d]> (db s)),
         [EvSetDoc p d])
    end.

Definition exists_ (snap : option Doc) : bool :=
  match snap with
  | Some _ => true
  | None => false
  end.

(** ** Document references *)

(** [s.split('/')] *)
Fixpoint splitSlash (s : string) : list string :=
  match s with
  | EmptyString => [EmptyString]
  | String c rest =>
      if Ascii.eqb c "/" then EmptyString :: splitSlash rest
      else
        match splitSlash rest with
        | [] => [String c EmptyString]
        | piece :: pieces => String c piece :: pieces
        end
  end.

(** [path.indexOf('//') >= 0] *)
Fixpoint hasDoubleSlash (path : string) : bool :=
  match path with
  | EmptyString => false
  | String a rest =>
      match rest with
      | EmptyString => false
      | String b _ => (Ascii.eqb a "/" && Ascii.eqb b "/") || hasDoubleSlash rest
      end
  end.

Definition isSegment (s : string) : bool :=
  match s with
  | EmptyString => false
  | String _ _ => true
  end.

(** The segments of a path component: the SDK splits it at '/' and drops
    the empty pieces, so a slash at either end is ignored. *)
Definition pathSegments (path : string) : list string :=
  List.filter isSegment (splitSlash path).

(** The document that [doc(db, collection, id)] refers to, for a
    collection name of one segment.  The SDK throws when [id] holds "//"
    and when the whole path has an odd number of segments, that is when
    [id] has an even number of them (none, or two as in "a/b").  An [id]
    of three, five, ... segments names a document of a subcollection;
    the reference is kept as the collection and the rest of the path. *)
Definition docId (id : string) : option string :=
  if hasDoubleSlash id then None
  else if Nat.odd (length (pathSegments id))
       then Some (String.concat "/" (pathSegments id))
       else None.

Definition invalidReference : Error := mkError "Invalid document reference.".

(** [doc(db, collection, id)]: no store call is made; an invalid
    reference is thrown at the caller. *)
Definition doc (collection id : string) : M Path :=
  fun s =>
    match docId id with
    | Some i => (Returned (collection, i), s, [])
    | None => (Threw invalidReference, s, [])
    end.

(** An identifier of one segment: the document is in the collection
    itself.  The identifiers the identity provider issues are of this
    kind. *)
Definition isDocumentId (id : string) : bool :=
  isSegment id && negb (existsb (Ascii.eqb "/") (list_ascii_of_string id)).

(** ** Firebase Auth calls *)

(** The provider's answer to a call is an input of the run: which
    sign-ups it accepts is its own business (it refuses, for one, an
    e-mail that already has a principal), so [reply] is the answer to
    this call in this state, and nothing here tells what it answers to a
    later call. *)
Definition createUserWithEmailAndPassword
    (reply : Error + User) (email password : string) : M User :=
  fun s =>
    match reply with
    | inl e => (Threw e, s, [EvCreateUser email password])
    | inr u =>
        (Returned u, withPrincipals s (u :: principals s),
         [EvCreateUser email password])
    end.

Definition signInWithEmailAndPassword
    (reply : Error + User) (email password : string) : M User :=
  fun s =>
    match reply with
    | inl e => (Threw e, s, [EvSignIn email password])
    | inr u => (Returned u, s, [EvSignIn email password])
    end.

(** ** Form validation (zod schemas behind react-hook-form) *)

(** Issues of the username chain [.min(3).max(20).regex(...)]: every
    check runs, in the order written. *)
Definition usernameIssues (username : string) : list string :=
  (if (String.length username <? 3)%nat
   then ["Username must be at least 3 characters."] else [])
  ++ (if (20 <? String.length username)%nat
      then ["Username must be no more than 20 characters."] else [])
  ++ (if usernamePattern username then []
      else ["Username can only contain letters, numbers, and underscores."]).

(** The resolver reports the first issue of a field as its error. *)
Definition fieldError (field : string) (issues : list string) : list Event :=
  match issues with
  | [] => []
  | msg :: _ => [EvFieldError field msg]
  end.

(** [form.handleSubmit(onSubmit)]: the handler runs only when the
    resolver reports no error; otherwise the field errors are shown. *)
Definition handleSubmit {V} (schema : V -> list Event) (onSubmit : V -> M unit)
    (values : V) : M unit :=
  match schema values with
  | [] => onSubmit values
  | errors => fun s => (Returned tt, s, errors)
  end.

(** ** src/components/auth-form.tsx *)

Module AuthForm.

Inductive Mode : Type := Login | Register.

Record FormValues : Type := mkValues {
  username : string;
  email : string;
  password : string
}.

Section Schemas.
(** zod's e-mail check is a library pattern; it is a parameter. *)
Variable isEmail : string -> bool.

Definition emailIssues (e : string) : list string :=
  if isEmail e then [] else ["Please enter a valid email."].

Definition loginSchema (values : FormValues) : list Event :=
  fieldError "email" (emailIssues (email values))
  ++ fieldError "password"
       (if (String.length (password values) <? 1)%nat
        then ["Password is required."] else []).

Definition registerSchema (values : FormValues) : list Event :=
  fieldError "username" (usernameIssues (username values))
  ++ fieldError "email" (emailIssues (email values))
  ++ fieldError "password"
       (if (String.length (password values) <? 6)%nat
        then ["Password must be at least 6 characters."] else []).

Definition formSchema (mode : Mode) : FormValues -> list Event :=
  match mode with
  | Login => loginSchema
  | Register => registerSchema
  end.
End Schemas.

Definition checkUsernameUnique (username : string) : M bool :=
  let* docSnap := getDoc ("usernames", toLowerCase username) in
  ret (negb (exists_ docSnap)).

(** The three documents written by [onSubmit] (lines 99-115). *)
Definition accountDoc (username : string) (user : User) : Doc :=
  [ ("username", VStr (toLowerCase username));
    ("email", ofNullable (userEmail user));
    ("createdAt", VServerTimestamp) ].

Definition registryDoc (user : User) : Doc := [ ("uid", VStr (uid user)) ].

Definition portfolioDoc : Doc :=
  [ ("fullName", VStr "Your Name");
    ("title", VStr "Your Title");
    ("bio", VStr "A short bio about yourself.");
    ("profilePictureUrl", VStr "");
    ("skills", VArr [VStr "React"; VStr "Next.js"; VStr "Firebase"]);
    ("projects", VArr []);
    ("theme", VStr "default") ].

(** The registry write of lines 104-106, on its own. *)
Definition claimUsername (username : string) (user : User) : M unit :=
  setDoc ("usernames", toLowerCase username) (registryDoc user).

Definition onSubmit (mode : Mode) (reply : Error + User)
    (values : FormValues) : M unit :=
  tryCatch
    (match mode with
     | Register =>
         let* isUnique := checkUsernameUnique (username values) in
         if negb isUnique
         then emit (EvFieldError "username" "This username is already taken.")
         else
           let* user :=
             createUserWithEmailAndPassword reply (email values)
               (password values) in
           setDoc ("users", uid user) (accountDoc (username values) user) ;;
           claimUsername (username values) user ;;
           setDoc ("portfolios", uid user) portfolioDoc ;;
           emit (EvPush RDashboard)
     | Login =>
         let* _ :=
           signInWithEmailAndPassword reply (email values) (password values) in
         emit (EvPush RDashboard)
     end)
    (fun error =>
       emit (EvToast Destructive "Authentication Error"
               (orElse (Some (message error)) "An unknown error occurred."))).

(** The form's submit handler, [form.handleSubmit(onSubmit)]. *)
Definition submit (isEmail : string -> bool) (mode : Mode)
    (reply : Error + User) : FormValues -> M unit :=
  handleSubmit (formSchema isEmail mode) (onSubmit mode reply).

(** [signInWithPopup] signs in an existing principal or creates one. *)
Definition signInWithPopup (reply : Error + User) : M User :=
  fun s =>
    match reply with
    | inl e => (Threw e, s, [EvSignInPopup])
    | inr u =>
        (Returned u,
         (if existsb (fun p => String.eqb (uid p) (uid u)) (principals s)
          then s else withPrincipals s (u :: principals s)),
         [EvSignInPopup])
    end.

Definition handleGoogleSignIn (reply : Error + User) : M unit :=
  tryCatch
    (let* user := signInWithPopup reply in
     let* userDoc := getDoc ("users", uid user) in
     if negb (exists_ userDoc)
     then emit (EvPush (RFinishProfile (uid user) (interpolate (userEmail user))))
     else emit (EvPush RDashboard))
    (fun error =>
       emit (EvToast Destructive "Google Sign-In Error" (message error))).

End AuthForm.

(** ** contexts/auth-context *)

Module AuthContext.

Record AuthContextType : Type := mkContext {
  user : option User;
  userData : option Doc;
  loading : bool
}.

Definition initial : AuthContextType :=
  {| user := None; userData := None; loading := true |}.

(** The [onAuthStateChanged] callback, run by the provider each time a
    session is established, restored or ended; the result is the
    provider's state once the callback has run.  When the lookup rejects,
    the callback stops before [setUserData] and [setLoading(false)]. *)
Definition onAuthStateChanged (prev : AuthContextType) (u : option User)
    (s : State) : AuthContextType * State * list Event :=
  match u with
  | Some usr =>
      match getDoc ("users", uid usr) s with
      | (Returned userDoc, s1, ev) =>
          ({| user := Some usr;
              userData :=
                match userDoc with
                | Some data => Some (spread [("uid", VStr (uid usr))] data)
                | None => None
                end;
              loading := false |}, s1, ev)
      | (Threw _, s1, ev) =>
          ({| user := Some usr; userData := userData prev; loading := true |},
           s1, ev)
      end
  | None => ({| user := None; userData := None; loading := false |}, s, [])
  end.

(** What the provider renders: its own skeleton while [loading], and
    only otherwise its children, with the context as their value. *)
Inductive Screen (A : Type) : Type :=
| Skeleton
| Children (page : A).

Arguments Skeleton {A}.
Arguments Children {A} page.

Definition AuthProvider {A} (ctx : AuthContextType)
    (children : AuthContextType -> A) : Screen A :=
  if loading ctx then Skeleton else Children (children ctx).

End AuthContext.

(** ** src/app/dashboard/page.tsx *)

Module Dashboard.
Import AuthContext.

Inductive View : Type :=
| Spinner
| Blank
| Welcome (username : option Value).

Definition DashboardPage (ctx : AuthContextType) : View * list Event :=
  if loading ctx then (Spinner, [])
  else
    match user ctx with
    | None => (Blank, [EvReplace RLogin])
    | Some usr =>
        match userData ctx with
        | None =>
            (Spinner,
             [EvReplace (RFinishProfile (uid usr) (interpolate (userEmail usr)))])
        | Some data => (Welcome (doc_get "username" data), [])
        end
    end.

End Dashboard.

(** ** src/app/finish-profile/page.tsx *)

Module FinishProfile.
Import AuthContext.

Definition profileSchema (username : string) : list Event :=
  fieldError "username" (usernameIssues username).

Definition checkUsernameUnique (username : string) : M bool :=
  let* docSnap := getDoc ("usernames", toLowerCase username) in
  ret (negb (exists_ docSnap)).

(** The three documents written by [onSubmit] (lines 87-111). *)
Definition accountDoc (username email : string) : Doc :=
  [ ("username", VStr (toLowerCase username));
    ("email", VStr email);
    ("createdAt", VServerTimestamp) ].

Definition registryDoc (uid : string) : Doc := [ ("uid", VStr uid) ].

Definition portfolioDoc (user : option User) : Doc :=
  [ ("fullName", VStr "Your Name");
    ("title", VStr "Your Title");
    ("bio", VStr "A short bio about yourself.");
    ("profilePictureUrl",
       VStr (orElse (match user with
                     | Some usr => photoURL usr
                     | None => None
                     end) ""));
    ("website", VStr "");
    ("skills",
       VArr [ VObj [("name", VStr "React")];
              VObj [("name", VStr "Next.js")];
              VObj [("name", VStr "Firebase")] ]);
    ("projects", VArr []);
    ("workExperiences", VArr []);
    ("organizationExperiences", VArr []);
    ("educations", VArr []);
    ("certifications", VArr []);
    ("courses", VArr []);
    ("testimonials", VArr []);
    ("socialMedia", VArr []);
    ("theme", VStr "default") ].

(** The registry write of lines 92-94, on its own. *)
Definition claimUsername (username uid : string) : M unit :=
  setDoc ("usernames", toLowerCase username) (registryDoc uid).

Definition missingInformation : M unit :=
  emit (EvToast Destructive "Error" "Missing user information.").

(** [uid] and [email] are the values of the URL's query parameters
    ([searchParams.get], [null] when absent); [user] is the session's
    user ([useAuth]).  [!uid || !email] holds when either is [null] or
    empty.  The parameter is any text: the references of the Account
    and of the profile are built from it by [doc], which may throw,
    inside the [try]. *)
Definition onSubmit (uid email : option string) (user : option User)
    (username : string) : M unit :=
  match uid, email with
  | Some uid, Some email =>
      if negb (truthy (Some uid)) || negb (truthy (Some email))
      then missingInformation
      else
        tryCatch
          (let* isUnique := checkUsernameUnique username in
           if negb isUnique
           then emit (EvFieldError "username" "This username is already taken.")
           else
             let* accountRef := doc "users" uid in
             setDoc accountRef (accountDoc username email) ;;
             claimUsername username uid ;;
             let* profileRef := doc "portfolios" uid in
             setDoc profileRef (portfolioDoc user) ;;
             emit (EvToast Default "Profile complete!" "Welcome to PortfolioHub.") ;;
             emit (EvPush RDashboard))
          (fun _ =>
             emit (EvToast Destructive "Error"
                     "Failed to save profile. Please try again."))
  | _, _ => missingInformation
  end.

(** The effect that guards the page. *)
Definition guard (ctx : AuthContextType) (uid email : option string)
    : list Event :=
  (if negb (loading ctx) && match user ctx with Some _ => false | None => true end
   then [EvReplace RLogin] else [])
  ++ (if negb (truthy uid) || negb (truthy email)
      then [EvReplace RHome] else []).

(** The form is rendered, and can be submitted, only once the session
    is loaded and has a user (line 125). *)
Definition submit (ctx : AuthContextType) (uid email : option string)
    (username : string) : M unit :=
  if loading ctx then ret tt
  else
    match user ctx with
    | None => ret tt
    | Some usr =>
        handleSubmit profileSchema (onSubmit uid email (Some usr)) username
    end.

End FinishProfile.

(** ** The two registration workflows, side by side *)

Inductive Workflow : Type :=
| Direct (reply : Error + User) (values : AuthForm.FormValues)
| Federated (ctx : AuthContext.AuthContextType) (uid email : option string)
    (username : string).

Definition run (isEmail : string -> bool) (w : Workflow) : M unit :=
  match w with
  | Direct reply values => AuthForm.submit isEmail AuthForm.Register reply values
  | Federated ctx uid email username =>
      FinishProfile.submit ctx uid email username
  end.

(** The candidate username of a submission. *)
Definition candidate (w : Workflow) : string :=
  match w with
  | Direct _ values => AuthForm.username values
  | Federated _ _ _ username => username
  end.

(** The account identifier a submission writes under: the identifier of
    the user the identity provider answers with, or the document that
    [doc] makes of the [uid] query parameter (none when [doc] throws). *)
Definition accountId (w : Workflow) : option string :=
  match w with
  | Direct (inr user) _ => Some (uid user)
  | Direct (inl _) _ => None
  | Federated _ (Some uid) _ _ => docId uid
  | Federated _ None _ _ => None
  end.

(** The account identifier as the submission writes it into the registry
    entry. *)
Definition registeredUid (w : Workflow) : option string :=
  match w with
  | Direct (inr user) _ => Some (uid user)
  | Direct (inl _) _ => None
  | Federated _ uid _ _ => uid
  end.

Definition registryKey (username : string) : Path :=
  ("usernames", toLowerCase username).

(** The store keys a submission may write. *)
Definition writtenKeys (w : Workflow) : list Path :=
  match accountId w with
  | Some id => [("users", id); registryKey (candidate w); ("portfolios", id)]
  | None => []
  end.

(** ** Reading a run *)

Definition resultOf {X} (r : X * State * list Event) : X := fst (fst r).
Definition outcomeOf {A} (r : Outcome A * State * list Event) : Outcome A :=
  fst (fst r).
Definition stateAfter {X} (r : X * State * list Event) : State := snd (fst r).
Definition eventsOf {X} (r : X * State * list Event) : list Event := snd r.

Definition isStoreCall (e : Event) : bool :=
  match e with
  | EvGetDoc _ | EvSetDoc _ _ => true
  | _ => false
  end.

Fixpoint storeCalls (evs : list Event) : list Event :=
  match evs with
  | [] => []
  | e :: rest => if isStoreCall e then e :: storeCalls rest else storeCalls rest
  end.

(** The paths written, in the order of the writes. *)
Fixpoint writes (evs : list Event) : list Path :=
  match evs with
  | [] => []
  | EvSetDoc p _ :: rest => p :: writes rest
  | _ :: rest => writes rest
  end.

(** The paths read, in the order of the reads. *)
Fixpoint reads (evs : list Event) : list Path :=
  match evs with
  | [] => []
  | EvGetDoc p :: rest => p :: reads rest
  | _ :: rest => reads rest
  end.

(** A run is completed when it reaches [router.push("/dashboard")]. *)
Definition completed (evs : list Event) : Prop := In (EvPush RDashboard) evs.

(** The first [n] store calls from [s] on are answered. *)
Fixpoint answered (n : nat) (s : State) : Prop :=
  match n with
  | O => True
  | S n' => nextFault s = None /\ answered n' (consumed s)
  end.

(** A username the format checks reject. *)
Definition malformed (username : string) : Prop :=
  (String.length username < 3)%nat
  \/ (20 < String.length username)%nat
  \/ exists c, In c (list_ascii_of_string username) /\ wordChar c = false.

(** Two strings that differ only in the case of their letters: the same
    length, and at each position the same character or an upper-case
    letter on one side and its lower-case form on the other. *)
Inductive caseVariant : string -> string -> Prop :=
| cv_empty : caseVariant EmptyString EmptyString
| cv_same c s t : caseVariant s t -> caseVariant (String c s) (String c t)
| cv_lower c s t :
    isUpperCase c = true ->
    caseVariant s t ->
    caseVariant (String c s) (String (lowerOf c) t)
| cv_upper c s t :
    isUpperCase c = true ->
    caseVariant s t ->
    caseVariant (String (lowerOf c) s) (String c t).

(** ** Weakest preconditions for runs *)

Definition wp {A} (m : M A) (s : State)
    (Q : Outcome A -> State -> list Event -> Prop) : Prop :=
  Q (outcomeOf (m s)) (stateAfter (m s)) (eventsOf (m s)).

(** ** Statements *)

(** *** Frame *)

(** [s'] differs from [s] at most at the keys workflow [w] may write,
    and has every document [s] has. *)
Definition framed (w : Workflow) (s s' : State) : Prop :=
  (forall p, ~ In p (writtenKeys w) -> db s' !! p = db s !! p)
  /\ (forall p, is_Some (db s !! p) -> is_Some (db s' !! p)).

(** *** Validation *)

Definition isFieldError (e : Event) : bool :=
  match e with
  | EvFieldError _ _ => true
  | _ => false
  end.

(** The form of a workflow is on screen and can be submitted. *)
Definition formShown (w : Workflow) : Prop :=
  match w with
  | Direct _ _ => True
  | Federated ctx _ _ _ =>
      AuthContext.loading ctx = false /\ AuthContext.user ctx <> None
  end.

(** What a submission rejected by the resolver looks like. *)
Definition rejectedByValidation (w : Workflow) (s : State)
    (r : Outcome unit * State * list Event) : Prop :=
  stateAfter r = s
  /\ storeCalls (eventsOf r) = []
  /\ forallb isFieldError (eventsOf r) = true
  /\ (formShown w -> exists msg, In (EvFieldError "username" msg) (eventsOf r)).

(** The fields of a submission other than its username pass their
    checks, and its form is on screen. *)
Definition otherFieldsValid (isEmail : string -> bool) (w : Workflow) : Prop :=
  match w with
  | Direct _ values =>
      isEmail (AuthForm.email values) = true
      /\ (6 <= String.length (AuthForm.password values))%nat
  | Federated ctx uid email _ =>
      AuthContext.loading ctx = false
      /\ AuthContext.user ctx <> None
      /\ truthy uid = true
      /\ truthy email = true
  end.

(** The identity provider accepts the sign-up of a submission. *)
Definition accepted (w : Workflow) : Prop :=
  match w with
  | Direct reply _ => exists usr, reply = inr usr
  | Federated _ _ _ _ => True
  end.

(** The account identifier of a submission is an identifier of one
    segment, as the identity provider issues them: in the direct
    registration it is the identifier of the user the provider answers
    with, in the federated completion it is the [uid] query parameter. *)
Definition plainIdentifier (w : Workflow) : Prop :=
  match w with
  | Direct (inr usr) _ => isDocumentId (uid usr) = true
  | Direct (inl _) _ => True
  | Federated _ uid _ _ => exists id, uid = Some id /\ isDocumentId id = true
  end.

(** *** Completed runs *)

(** The records a completed run leaves behind.  The registry entry
    holds the account identifier as the submission gave it, which is the
    identifier of the Account whenever it is an identifier of one
    segment. *)
Definition recordsWritten (w : Workflow) (s s' : State) (evs : list Event)
    : Prop :=
  exists id given account profile,
    accountId w = Some id
    /\ registeredUid w = Some given
    /\ (isDocumentId given = true -> given = id)
    /\ writes evs = [("users", id); registryKey (candidate w); ("portfolios", id)]
    /\ db s' !! ("users", id) = Some account
    /\ doc_get "username" account = Some (VStr (toLowerCase (candidate w)))
    /\ db s' !! registryKey (candidate w) = Some [("uid", VStr given)]
    /\ db s' !! ("portfolios", id) = Some profile
    /\ usernameIssues (candidate w) = []
    /\ db s !! registryKey (candidate w) = None.

(** The documents of a completed direct registration. *)
Definition directDocs (reply : Error + User) (values : AuthForm.FormValues)
    (s s' : State) : Prop :=
  exists usr,
    reply = inr usr
    /\ db s' !! ("users", uid usr)
       = Some (resolveTimestamps (clock s)
                 (AuthForm.accountDoc (AuthForm.username values) usr))
    /\ db s' !! registryKey (AuthForm.username values)
       = Some (AuthForm.registryDoc usr)
    /\ db s' !! ("portfolios", uid usr) = Some AuthForm.portfolioDoc.

(** The documents of a completed federated completion. *)
Definition federatedDocs (ctx : AuthContext.AuthContextType)
    (uid email : option string) (username : string) (s s' : State) : Prop :=
  exists given id e,
    uid = Some given /\ docId given = Some id /\ email = Some e
    /\ db s' !! ("users", id)
       = Some (resolveTimestamps (clock s) (FinishProfile.accountDoc username e))
    /\ db s' !! registryKey username = Some (FinishProfile.registryDoc given)
    /\ db s' !! ("portfolios", id)
       = Some (FinishProfile.portfolioDoc (AuthContext.user ctx)).

(** *** Taken usernames and the identity provider *)

Definition usernameTaken : Event :=
  EvFieldError "username" "This username is already taken.".

(** A sign-up call is made before the registry read of [key]. *)
Definition principalCreatedBeforeCheck (key : Path) (evs : list Event) : Prop :=
  exists pre mid post email password,
    evs = pre ++ EvCreateUser email password :: mid ++ EvGetDoc key :: post.

(** *** Comparing the two workflows *)

Definition fieldOf (k : string) (o : option Doc) : option Value :=
  match o with
  | Some d => doc_get k d
  | None => None
  end.

(** Fields on which the two seeded profiles are compared. *)
Definition commonProfileFields : list string :=
  ["fullName"; "title"; "bio"; "projects"; "theme"].

Definition agreeOn (fields : list string) (d1 d2 : Doc) : Prop :=
  Forall (fun k => doc_get k d1 = doc_get k d2 /\ doc_get k d1 <> None) fields.

(** What the direct run [rd] and the federated run [rf] have in common. *)
Definition sameRegistration (id : string)
    (rd rf : Outcome unit * State * list Event) : Prop :=
  reads (eventsOf rd) = reads (eventsOf rf)
  /\ writes (eventsOf rd) = writes (eventsOf rf)
  /\ (completed (eventsOf rd) <-> completed (eventsOf rf))
  /\ (forall p : Path,
         p <> ("portfolios", id) ->
         db (stateAfter rd) !! p = db (stateAfter rf) !! p)
  /\ (completed (eventsOf rd) ->
      exists dp fp,
        db (stateAfter rd) !! ("portfolios", id) = Some dp
        /\ db (stateAfter rf) !! ("portfolios", id) = Some fp
        /\ agreeOn commonProfileFields dp fp).

(** *** The seeded profile *)

(** The name of a skill entry, whether it is a plain string or an object
    with a [name] field. *)
Definition skillName (v : Value) : option string :=
  match v with
  | VStr s => Some s
  | VObj o =>
      match doc_get "name" o with
      | Some (VStr s) => Some s
      | _ => None
      end
  | _ => None
  end.

Definition seededDefaults (avatar : string) (profile : Doc) : Prop :=
  doc_get "fullName" profile = Some (VStr "Your Name")
  /\ doc_get "title" profile = Some (VStr "Your Title")
  /\ doc_get "bio" profile = Some (VStr "A short bio about yourself.")
  /\ doc_get "profilePictureUrl" profile = Some (VStr avatar)
  /\ (exists items,
         doc_get "skills" profile = Some (VArr items)
         /\ map skillName items = [Some "React"; Some "Next.js"; Some "Firebase"])
  /\ doc_get "projects" profile = Some (VArr [])
  /\ doc_get "theme" profile = Some (VStr "default").

Definition emptyCollections (profile : Doc) : Prop :=
  Forall (fun k => doc_get k profile = Some (VArr []))
    ["workExperiences"; "organizationExperiences"; "educations";
     "certifications"; "courses"; "testimonials"; "socialMedia"].

(** The photo of the session's user, or the empty string. *)
Definition sessionAvatar (ctx : AuthContext.AuthContextType) : string :=
  orElse (match AuthContext.user ctx with
          | Some usr => photoURL usr
          | None => None
          end) "".

(** The avatar a workflow seeds: none in the direct registration, the
    session user's photo, if any, in the federated completion. *)
Definition avatarOf (w : Workflow) : string :=
  match w with
  | Direct _ _ => ""
  | Federated ctx _ _ _ => sessionAvatar ctx
  end.

(** *** Session checks *)

(** The redirect to the completion page for a user. *)
Definition toCompletion (usr : User) : Event :=
  EvReplace (RFinishProfile (uid usr) (interpolate (userEmail usr))).







(** ** Sample data *)

Definition sampleIsEmail (e : string) : bool :=
  existsb (Ascii.eqb "@") (list_ascii_of_string e).

Definition emptyState : State :=
  {| db := ∅; principals := []; clock := 0; faults := [] |}.

(** A store where "alice" belongs to acct-0. *)
Definition aliceTaken : State :=
  {| db := {[ ("usernames", "alice") := [("uid", VStr "acct-0")] ]};
     principals := [];
     clock := 0;
     faults := [] |}.

Definition newUser : User :=
  {| uid := "acct-1"; userEmail := Some "u@example.com"; photoURL := None |}.

Definition otherUser : User :=
  {| uid := "acct-7"; userEmail := Some "w@example.com"; photoURL := None |}.

Definition newUserSession : AuthContext.AuthContextType :=
  {| AuthContext.user := Some newUser;
     AuthContext.userData := None;
     AuthContext.loading := false |}.

Definition otherSession : AuthContext.AuthContextType :=
  {| AuthContext.user := Some otherUser;
     AuthContext.userData := None;
     AuthContext.loading := false |}.

Definition newUserForm : AuthForm.FormValues :=
  AuthForm.mkValues "new_user_1" "u@example.com" "secret1".

Definition aliceForm : AuthForm.FormValues :=
  AuthForm.mkValues "Alice" "u@example.com" "secret1".

Definition shortForm : AuthForm.FormValues :=
  AuthForm.mkValues "ab" "u@example.com" "secret1".

Definition newUserRegistration : Workflow := Direct (inr newUser) newUserForm.

Definition newUserCompletion : Workflow :=
  Federated newUserSession (Some "acct-1") (Some "u@example.com") "new_user_1".

(** The completion page opened by acct-1's session with the query
    parameters of another account. *)
Definition forgedCompletion : Workflow :=
  Federated newUserSession (Some "acct-9") (Some "v@example.com") "new_user_1".

Definition aliceRegistration : Workflow := Direct (inr newUser) aliceForm.

Definition aliceLowercase : Workflow :=
  Federated otherSession (Some "acct-7") (Some "w@example.com") "alice".

Definition shortRegistration : Workflow := Direct (inr newUser) shortForm.

(** The sample submissions, run on the empty store. *)
Definition newUserRegistrationRun : Outcome unit * State * list Event :=
  run sampleIsEmail newUserRegistration emptyState.

Definition newUserCompletionRun : Outcome unit * State * list Event :=
  run sampleIsEmail newUserCompletion emptyState.

Definition forgedCompletionRun : Outcome unit * State * list Event :=
  run sampleIsEmail forgedCompletion emptyState.

(** The registration of "Alice" on the store where "alice" is taken. *)
Definition aliceTakenRun : Outcome unit * State * list Event :=
  run sampleIsEmail aliceRegistration aliceTaken.

(** * The other pages *)

(** ** Effects of the pages outside the registration workflow *)

Inductive PageEvent : Type :=
| PgGetDoc (p : Path)
| PgGetDocs (collection field value : string)
| PgSetDocMerge (p : Path) (data : Doc)
| PgToast (variant : Variant) (title : string) (description : option string)
| PgReset (values : Doc)
| PgSignOut
| PgPush (r : Route)
| PgReplace (r : Route).

Definition Pg (A : Type) : Type := State -> Outcome A * State * list PageEvent.

Definition pgRet {A} (a : A) : Pg A := fun s => (Returned a, s, []).

Definition pgBind {A B} (m : Pg A) (k : A -> Pg B) : Pg B :=
  fun s =>
    match m s with
    | (Returned a, s1, ev1) =>
        match k a s1 with
        | (o, s2, ev2) => (o, s2, ev1 ++ ev2)
        end
    | (Threw e, s1, ev1) => (Threw e, s1, ev1)
    end.

Definition pgTryCatch {A} (body : Pg A) (handler : Error -> Pg A) : Pg A :=
  fun s =>
    match body s with
    | (Returned a, s1, ev1) => (Returned a, s1, ev1)
    | (Threw e, s1, ev1) =>
        match handler e s1 with
        | (o, s2, ev2) => (o, s2, ev1 ++ ev2)
        end
    end.

Definition pgEmit (e : PageEvent) : Pg unit := fun s => (Returned tt, s, [e]).

Definition pgOutcome {A} (r : Outcome A * State * list PageEvent) : Outcome A :=
  fst (fst r).
Definition pgState {A} (r : Outcome A * State * list PageEvent) : State :=
  snd (fst r).
Definition pgEvents {A} (r : Outcome A * State * list PageEvent)
    : list PageEvent := snd r.

(** [await getDoc(doc(db, c, id))] on a page. *)
Definition pgGetDoc (p : Path) : Pg (option Doc) :=
  fun s =>
    match nextFault s with
    | Some e => (Threw e, consumed s, [PgGetDoc p])
    | None => (Returned (db s !! p), consumed s, [PgGetDoc p])
    end.

(** *** Merging writes *)

(** [setDoc(ref, data, { merge: true })] replaces the fields that [data]
    gives and keeps the others; a non-empty map given for a field that
    holds a map is merged into it field by field, any other value
    (an array, a string, an empty map) replaces what was there. *)
Fixpoint mergeValue (old : option Value) (v : Value) : Value :=
  match v with
  | VObj (f :: fs) =>
      match old with
      | Some (VObj o) =>
          VObj ((fix mergeFields (acc : Doc) (new : list (string * Value)) : Doc :=
                   match new with
                   | [] => acc
                   | (k, v') :: rest =>
                       mergeFields (doc_set k (mergeValue (doc_get k acc) v') acc) rest
                   end) o (f :: fs))
      | _ => v
      end
  | _ => v
  end.

Fixpoint mergeDoc (old new : Doc) : Doc :=
  match new with
  | [] => old
  | (k, v) :: rest => mergeDoc (doc_set k (mergeValue (doc_get k old) v) old) rest
  end.

Definition stored (o : option Doc) : Doc :=
  match o with
  | Some d => d
  | None => []
  end.

Definition pgSetDocMerge (p : Path) (data : Doc) : Pg unit :=
  fun s =>
    match nextFault s with
    | Some e => (Threw e, consumed s, [PgSetDocMerge p data])
    | None =>
        (Returned tt,
         withDb (consumed s)
           (<[p := mergeDoc (stored (db s !! p))
                     (resolveTimestamps (clock s) data)]> (db s)),
         [PgSetDocMerge p data])
    end.

(** *** Equality queries *)

Definition fieldIs (field value : string) (d : Doc) : bool :=
  match doc_get field d with
  | Some (VStr s) => String.eqb s value
  | _ => false
  end.

(** The documents of a collection, as (id, data) pairs: those whose
    reference is the collection and an identifier of one segment (a
    longer path names a document of a subcollection). *)
Definition collectionDocs (collection : string) (m : gmap Path Doc)
    : list (string * Doc) :=
  flat_map (fun kv => if String.eqb (fst (fst kv)) collection
                         && isDocumentId (snd (fst kv))
                      then [(snd (fst kv), snd kv)] else [])
           (map_to_list m).

Fixpoint insertById (x : string * Doc) (l : list (string * Doc))
    : list (string * Doc) :=
  match l with
  | [] => [x]
  | y :: rest =>
      if String.leb (fst x) (fst y) then x :: y :: rest
      else y :: insertById x rest
  end.

Definition sortById (l : list (string * Doc)) : list (string * Doc) :=
  fold_right insertById [] l.

(** The snapshot of [query(collection(db, c), where(field, "==", value))]
    for a string [value]: the matching documents in the order of their
    identifiers. *)
Definition queryDocs (collection field value : string) (m : gmap Path Doc)
    : list (string * Doc) :=
  sortById (List.filter (fun kv => fieldIs field value (snd kv))
              (collectionDocs collection m)).

Definition pgGetDocs (collection field value : string)
    : Pg (list (string * Doc)) :=
  fun s =>
    match nextFault s with
    | Some e => (Threw e, consumed s, [PgGetDocs collection field value])
    | None =>
        (Returned (queryDocs collection field value (db s)), consumed s,
         [PgGetDocs collection field value])
    end.

(** ** The public portfolio page *)

Module PortfolioPage.

Definition getPortfolioData (username : string) : Pg (option Doc) :=
  pgBind (pgGetDocs "users" "username" (toLowerCase username))
    (fun querySnapshot =>
       match querySnapshot with
       | [] => pgRet None
       | userDoc :: _ =>
           pgBind (pgGetDoc ("portfolios", fst userDoc))
             (fun portfolioSnap => pgRet portfolioSnap)
       end).

End PortfolioPage.

(** ** src/app/editor/page.tsx *)

Module Editor.

(** JavaScript's [trim]: white space and line terminators, of which the
    code units below 256 are TAB, LF, VT, FF, CR, SP and NBSP. *)
Definition isWhiteSpace (c : ascii) : bool :=
  let n := nat_of_ascii c in
  (((9 <=? n) && (n <=? 13)) || (n =? 32) || (n =? 160))%nat.

Fixpoint trimStart (s : string) : string :=
  match s with
  | EmptyString => EmptyString
  | String c rest => if isWhiteSpace c then trimStart rest else s
  end.

Fixpoint trimEnd (s : string) : string :=
  match s with
  | EmptyString => EmptyString
  | String c rest =>
      match trimEnd rest with
      | EmptyString => if isWhiteSpace c then EmptyString else String c EmptyString
      | kept => String c kept
      end
  end.

Definition trim (s : string) : string := trimEnd (trimStart s).

(** [s.split(',')] *)
Fixpoint splitComma (s : string) : list string :=
  match s with
  | EmptyString => [EmptyString]
  | String c rest =>
      if Ascii.eqb c "," then EmptyString :: splitComma rest
      else
        match splitComma rest with
        | [] => [String c EmptyString]
        | piece :: pieces => String c piece :: pieces
        end
  end.

Definition nonEmpty (s : string) : bool :=
  match s with
  | EmptyString => false
  | String _ _ => true
  end.

(** The text shown in the skills input (line 312). *)
Definition skillsInputValue (skills : list string) : string :=
  String.concat ", " skills.

(** The skills taken from the text of the input (line 313). *)
Definition skillsOnChange (text : string) : list string :=
  List.filter nonEmpty (map trim (splitComma text)).

(** The same handler in the file's second version (line 735), without
    the filter. *)
Definition skillsOnChangeUnfiltered (text : string) : list string :=
  map trim (splitComma text).

(** The page's effect (lines 136-155): the result is the form's values
    and [loadingData] once the effect and its fetch have run.  A fetch
    that rejects stops before [setLoadingData(false)]. *)
Definition fetchPortfolio (usr : User) (values : Doc) : Pg (Doc * bool) :=
  fun s =>
    match pgGetDoc ("portfolios", uid usr) s with
    | (Returned (Some data), s1, ev) => (Returned (data, false), s1, ev ++ [PgReset data])
    | (Returned None, s1, ev) => (Returned (values, false), s1, ev)
    | (Threw e, s1, ev) => (Returned (values, true), s1, ev)
    end.

Definition effect (ctx : AuthContext.AuthContextType) (values : Doc)
    (loadingData : bool) : Pg (Doc * bool) :=
  pgBind
    (if negb (AuthContext.loading ctx)
        && match AuthContext.user ctx with Some _ => false | None => true end
     then pgEmit (PgReplace RLogin) else pgRet tt)
    (fun _ =>
       if AuthContext.loading ctx then pgRet (values, loadingData)
       else
         match AuthContext.user ctx with
         | Some usr => fetchPortfolio usr values
         | None => pgRet (values, loadingData)
         end).

(** [onSubmit] (lines 187-209); [data] is the validated form data. *)
Definition onSubmit (user : option User) (data : Doc) : Pg unit :=
  match user with
  | None => pgEmit (PgToast Destructive "Not authenticated" None)
  | Some usr =>
      pgTryCatch
        (pgBind (pgSetDocMerge ("portfolios", uid usr) data)
           (fun _ =>
              pgEmit (PgToast Default "Portfolio Saved!"
                        (Some "Your changes have been successfully saved."))))
        (fun _ =>
           pgEmit (PgToast Destructive "Error" (Some "Failed to save portfolio.")))
  end.

End Editor.

(** ** src/components/header.tsx *)

Module Header.

(** [handleLogout]; [signOut] is the identity provider's answer to
    [auth.signOut()]. *)
Definition handleLogout (signOut : option Error) : Pg unit :=
  pgBind
    (fun s =>
       match signOut with
       | Some e => (Threw e, s, [PgSignOut])
       | None => (Returned tt, s, [PgSignOut])
       end)
    (fun _ => pgEmit (PgPush RHome)).

End Header.

(** ** Statements about the other pages *)

(** A skill as the skills input can hold it: not empty, without white
    space at either end, without a comma. *)
Definition noComma (s : string) : Prop :=
  ~ In ","%char (list_ascii_of_string s).

Definition cleanSkill (s : string) : Prop :=
  s <> EmptyString /\ Editor.trim s = s /\ noComma s.

(** The first document of a snapshot has the least identifier. *)
Definition headLeast (l : list (string * Doc)) : Prop :=
  match l with
  | [] => True
  | a :: rest => forall y, In y rest -> String.leb (fst a) (fst y) = true
  end.

(** Account [id] of the store carries the normalized [username]. *)
Definition accountNamed (username : string) (s : State) (id : string) : Prop :=
  exists d,
    isDocumentId id = true
    /\ db s !! ("users", id) = Some d
    /\ fieldIs "username" (toLowerCase username) d = true.

(** A value that a merging write stores as it is. *)
Definition plainValue (v : Value) : bool :=
  match v with
  | VObj (_ :: _) | VServerTimestamp => false
  | _ => true
  end.

(** *** Outcomes of a submission *)

(** An event that tells the user that the submission failed. *)
Definition isErrorEvent (e : Event) : bool :=
  match e with
  | EvFieldError _ _ | EvToast Destructive _ _ => true
  | _ => false
  end.

(** What the user is shown at the end of a submission: the navigation to
    the dashboard, after no error message; or an error under a field,
    after no write and no navigation; or an error toast, after no
    navigation. *)
Definition feedback (evs : list Event) : Prop :=
  match last evs with
  | Some (EvPush RDashboard) =>
      forallb (fun e => negb (isErrorEvent e)) evs = true
  | Some (EvFieldError _ _) => ~ completed evs /\ writes evs = []
  | Some (EvToast Destructive _ _) => ~ completed evs
  | _ => False
  end.

(** How the submission of a well-formed, free username ends, by the
    store calls that are answered: the read and the writes of the
    Account, of the registry entry and of the profile, in this order. *)
Definition validOutcome (w : Workflow) (s s' : State) (evs : list Event) : Prop :=
  (completed evs <-> answered 4 s)
  /\ (~ answered 3 s -> db s' !! registryKey (candidate w) = None)
  /\ (answered 3 s -> is_Some (db s' !! registryKey (candidate w)))
  /\ (~ answered 4 s ->
      forall id, accountId w = Some id ->
                 db s' !! ("portfolios", id) = db s !! ("portfolios", id)).

(** *** Code units *)

Definition allAscii : list ascii := List.map ascii_of_nat (seq 0 256).

(** Two code units that are equal or the two cases of one letter. *)
Definition sameLetter (a b : ascii) : bool :=
  Ascii.eqb a b
  || (isUpperCase a && Ascii.eqb b (lowerOf a))
  || (isUpperCase b && Ascii.eqb a (lowerOf b)).

(** *** More sample data *)

Definition unavailable : Error := mkError "unavailable".

(** The state [s] with a store that rejects its call number [n] (from 0)
    and answers every other call. *)
Definition storeFailingAt (n : nat) (s : State) : State :=
  {| db := db s;
     principals := principals s;
     clock := clock s;
     faults := repeat None n ++ [Some unavailable] |}.

(** An edit of the profile, as the editor's form submits it. *)
Definition sampleEdit : Doc :=
  [ ("fullName", VStr "Ada L."); ("skills", VArr [VStr "Rocq"; VStr "OCaml"]) ].

(** The store after new_user_1 has registered as acct-1. *)
Definition newUserRegistered : State := stateAfter newUserRegistrationRun.


(** * Properties *)

Example toLowerCase_Alice : toLowerCase "Alice" = "alice".
Proof. reflexivity. Qed.

Section WpRules.
Context {A B : Type}.

Lemma wp_ret (a : A) s Q : Q (Returned a) s [] -> wp (ret a) s Q.
Proof. exact (fun H => H). Qed.

Lemma wp_bind (m : M A) (k : A -> M B) s Q :
  wp m s (fun o s1 ev1 =>
            match o with
            | Returned a => wp (k a) s1 (fun o2 s2 ev2 => Q o2 s2 (ev1 ++ ev2))
            | Threw e => Q (Threw e) s1 ev1
            end) ->
  wp (bind m k) s Q.
Proof.
  unfold wp, bind, outcomeOf, stateAfter, eventsOf.
  destruct (m s) as [[[a|e] s1] ev1]; cbn [fst snd]; [|exact (fun H => H)].
  destruct (k a s1) as [[o2 s2] ev2]. exact (fun H => H).
Qed.

Lemma wp_tryCatch (body : M A) (handler : Error -> M A) s Q :
  wp body s (fun o s1 ev1 =>
               match o with
               | Returned a => Q (Returned a) s1 ev1
               | Threw e =>
                   wp (handler e) s1 (fun o2 s2 ev2 => Q o2 s2 (ev1 ++ ev2))
               end) ->
  wp (tryCatch body handler) s Q.
Proof.
  unfold wp, tryCatch, outcomeOf, stateAfter, eventsOf.
  destruct (body s) as [[[a|e] s1] ev1]; cbn [fst snd]; [exact (fun H => H)|].
  destruct (handler e s1) as [[o2 s2] ev2]. exact (fun H => H).
Qed.
End WpRules.

Lemma wp_emit e s Q : Q (Returned tt) s [e] -> wp (emit e) s Q.
Proof. exact (fun H => H). Qed.

Lemma wp_getDoc p s Q :
  match nextFault s with
  | Some e => Q (Threw e) (consumed s) [EvGetDoc p]
  | None => Q (Returned (db s !! p)) (consumed s) [EvGetDoc p]
  end ->
  wp (getDoc p) s Q.
Proof. unfold wp, getDoc. destruct (nextFault s); exact (fun H => H). Qed.

Lemma wp_setDoc p d s Q :
  match nextFault s with
  | Some e => Q (Threw e) (consumed s) [EvSetDoc p d]
  | None =>
      Q (Returned tt)
        (withDb (consumed s) (<[p := resolveTimestamps (clock s) d]> (db s)))
        [EvSetDoc p d]
  end ->
  wp (setDoc p d) s Q.
Proof. unfold wp, setDoc. destruct (nextFault s); exact (fun H => H). Qed.

Lemma wp_doc collection id s Q :
  match docId id with
  | Some i => Q (Returned (collection, i)) s []
  | None => Q (Threw invalidReference) s []
  end ->
  wp (doc collection id) s Q.
Proof. unfold wp, doc. destruct (docId id); exact (fun H => H). Qed.

Lemma wp_createUser reply email password s Q :
  match reply with
  | inl e => Q (Threw e) s [EvCreateUser email password]
  | inr u =>
      Q (Returned u) (withPrincipals s (u :: principals s))
        [EvCreateUser email password]
  end ->
  wp (createUserWithEmailAndPassword reply email password) s Q.
Proof.
  unfold wp, createUserWithEmailAndPassword. destruct reply; exact (fun H => H).
Qed.

Lemma wp_handleSubmit {V} (schema : V -> list Event) (onSubmit : V -> M unit)
    values s Q :
  match schema values with
  | [] => wp (onSubmit values) s Q
  | e :: errors => Q (Returned tt) s (e :: errors)
  end ->
  wp (handleSubmit schema onSubmit values) s Q.
Proof.
  unfold handleSubmit. destruct (schema values); exact (fun H => H).
Qed.

(** State bookkeeping. *)
Lemma db_consumed s : db (consumed s) = db s.
Proof. reflexivity. Qed.
Lemma db_withDb s d : db (withDb s d) = d.
Proof. reflexivity. Qed.
Lemma db_withPrincipals s ps : db (withPrincipals s ps) = db s.
Proof. reflexivity. Qed.
Lemma clock_consumed s : clock (consumed s) = clock s.
Proof. reflexivity. Qed.
Lemma clock_withDb s d : clock (withDb s d) = clock s.
Proof. reflexivity. Qed.
Lemma clock_withPrincipals s ps : clock (withPrincipals s ps) = clock s.
Proof. reflexivity. Qed.
Lemma principals_consumed s : principals (consumed s) = principals s.
Proof. reflexivity. Qed.
Lemma principals_withDb s d : principals (withDb s d) = principals s.
Proof. reflexivity. Qed.
Lemma principals_withPrincipals s ps : principals (withPrincipals s ps) = ps.
Proof. reflexivity. Qed.
Lemma nextFault_withDb s d : nextFault (withDb s d) = nextFault s.
Proof. reflexivity. Qed.
Lemma nextFault_withPrincipals s ps : nextFault (withPrincipals s ps) = nextFault s.
Proof. reflexivity. Qed.
Lemma consumed_withDb s d : consumed (withDb s d) = withDb (consumed s) d.
Proof. reflexivity. Qed.
Lemma consumed_withPrincipals s ps :
  consumed (withPrincipals s ps) = withPrincipals (consumed s) ps.
Proof. reflexivity. Qed.

Create Rewrite HintDb state.
#[export] Hint Rewrite db_consumed db_withDb db_withPrincipals clock_consumed
  clock_withDb clock_withPrincipals principals_consumed principals_withDb
  principals_withPrincipals nextFault_withDb nextFault_withPrincipals
  consumed_withDb consumed_withPrincipals : state.

(** One step of symbolic execution of a run. *)
Ltac wp_step :=
  lazymatch goal with
  | |- wp (bind _ _) _ _ => apply wp_bind
  | |- wp (tryCatch _ _) _ _ => apply wp_tryCatch
  | |- wp (ret _) _ _ => apply wp_ret
  | |- wp (emit _) _ _ => apply wp_emit
  | |- wp (getDoc _) _ _ => apply wp_getDoc
  | |- wp (setDoc _ _) _ _ => apply wp_setDoc
  | |- wp (doc _ _) _ _ => apply wp_doc
  | |- wp (createUserWithEmailAndPassword _ _ _) _ _ => apply wp_createUser
  | |- wp (handleSubmit _ _ _) _ _ => apply wp_handleSubmit
  | |- wp (AuthForm.checkUsernameUnique _) _ _ =>
      unfold AuthForm.checkUsernameUnique
  | |- wp (FinishProfile.checkUsernameUnique _) _ _ =>
      unfold FinishProfile.checkUsernameUnique
  | |- wp (AuthForm.claimUsername _ _) _ _ => unfold AuthForm.claimUsername
  | |- wp (FinishProfile.claimUsername _ _) _ _ =>
      unfold FinishProfile.claimUsername
  | |- wp FinishProfile.missingInformation _ _ =>
      unfold FinishProfile.missingInformation
  | |- wp (if negb (negb (exists_ ?snap)) then _ else _) _ _ =>
      lazymatch goal with
      | E : snap = _ |- _ => rewrite E
      | _ => let H := fresh "Hsnap" in destruct snap eqn:H
      end;
      cbn [exists_ negb]
  | |- match nextFault ?s with _ => _ end =>
      lazymatch goal with
      | E : nextFault s = _ |- _ => rewrite E
      | _ => let H := fresh "Hfault" in destruct (nextFault s) eqn:H
      end
  | |- match docId ?u with _ => _ end =>
      lazymatch goal with
      | E : docId u = _ |- _ => rewrite E
      | _ => let H := fresh "Hdoc" in destruct (docId u) eqn:H
      end
  | |- match ?r with inl _ => _ | inr _ => _ end => destruct r
  end;
  cbv beta iota; autorewrite with state; cbn [app].

Ltac wp_run := repeat wp_step.

(** ** Document references *)

Lemma splitSlash_plain id :
  existsb (Ascii.eqb "/") (list_ascii_of_string id) = false ->
  splitSlash id = [id] /\ hasDoubleSlash id = false.
Proof.
  induction id as [|c r IH]; [split; reflexivity|].
  cbn [list_ascii_of_string existsb]. intros H.
  apply orb_false_iff in H as [Hc Hr]. destruct (IH Hr) as [E1 E2].
  rewrite Ascii.eqb_sym in Hc. split.
  - cbn [splitSlash]. rewrite Hc, E1. reflexivity.
  - cbn [hasDoubleSlash]. destruct r as [|b r']; [reflexivity|].
    rewrite Hc, E2. reflexivity.
Qed.

(** An identifier of one segment refers to the document of that name. *)
Lemma docId_documentId id : isDocumentId id = true -> docId id = Some id.
Proof.
  unfold isDocumentId, docId, pathSegments. intros H.
  apply andb_true_iff in H as [Hne Hplain]. apply negb_true_iff in Hplain.
  destruct (splitSlash_plain id Hplain) as [-> ->].
  cbn [List.filter]. rewrite Hne. reflexivity.
Qed.

Lemma isDocumentId_truthy id : isDocumentId id = true -> truthy (Some id) = true.
Proof. destruct id; [discriminate | reflexivity]. Qed.

(** ** Frame: what a submission leaves alone *)

Lemma framed_refl w s s' : db s' = db s -> framed w s s'.
Proof. intros E. unfold framed. rewrite E. split; auto. Qed.

Lemma is_Some_insert_mono (m : gmap (string * string) Doc) k d p :
  is_Some (m !! p) -> is_Some (<[k := d]> m !! p).
Proof.
  intros H. rewrite lookup_insert. case_decide; [eexists; reflexivity | exact H].
Qed.

Ltac frame_tac :=
  first
    [ apply framed_refl; reflexivity
    | unfold framed, writtenKeys; cbn [db withDb accountId];
      try match goal with E : docId _ = _ |- _ => rewrite E end;
      split;
      [ intros p Hp; cbn in Hp;
        repeat (rewrite lookup_insert_ne by (intros E; apply Hp; auto));
        reflexivity
      | intros p Hp; repeat apply is_Some_insert_mono; exact Hp ] ].

Lemma direct_frame isEmail reply values s :
  wp (AuthForm.submit isEmail AuthForm.Register reply values) s
     (fun _ s' _ => framed (Direct reply values) s s').
Proof.
  unfold AuthForm.submit, AuthForm.onSubmit. wp_step.
  destruct (AuthForm.formSchema _ _ _); [|frame_tac].
  wp_run; frame_tac.
Qed.

Lemma federated_frame ctx uid email username s :
  wp (FinishProfile.submit ctx uid email username) s
     (fun _ s' _ => framed (Federated ctx uid email username) s s').
Proof.
  unfold FinishProfile.submit.
  destruct (AuthContext.loading ctx); [wp_run; frame_tac|].
  destruct (AuthContext.user ctx) as [usr|]; [|wp_run; frame_tac].
  wp_step. destruct (FinishProfile.profileSchema username); [|frame_tac].
  unfold FinishProfile.onSubmit.
  destruct uid as [uid|], email as [email|]; try (wp_run; frame_tac).
  destruct (negb (truthy (Some uid)) || negb (truthy (Some email)));
    wp_run; frame_tac.
Qed.

(** C10: a submission of either workflow changes at most the Account at
    its account identifier, the registry entry at its normalized username
    and the profile at its account identifier; every other document of
    every collection is as before, and no document is removed. *)
Theorem C10_workflow_frame (isEmail : string -> bool) (w : Workflow) (s : State) :
  (forall p : Path,
      ~ In p (writtenKeys w) ->
      db (stateAfter (run isEmail w s)) !! p = db s !! p)
  /\ (forall p : Path,
         is_Some (db s !! p) ->
         is_Some (db (stateAfter (run isEmail w s)) !! p)).
Proof.
  destruct w as [reply values | ctx uid email username].
  - exact (direct_frame isEmail reply values s).
  - exact (federated_frame ctx uid email username s).
Qed.

(** ** Format validation *)

Lemma allWordChars_false username c :
  In c (list_ascii_of_string username) -> wordChar c = false ->
  allWordChars username = false.
Proof.
  induction username as [|a rest IH]; cbn [list_ascii_of_string In allWordChars].
  - intros [].
  - intros [-> | Hin] Hc.
    + rewrite Hc. reflexivity.
    + rewrite (IH Hin Hc). apply andb_false_r.
Qed.

Lemma usernamePattern_false username c :
  In c (list_ascii_of_string username) -> wordChar c = false ->
  usernamePattern username = false.
Proof.
  intros Hin Hc. destruct username as [|a rest]; [reflexivity|].
  exact (allWordChars_false _ _ Hin Hc).
Qed.

Lemma usernameIssues_malformed username :
  malformed username ->
  exists msg rest, usernameIssues username = msg :: rest.
Proof.
  unfold usernameIssues.
  intros [Hshort | [Hlong | (c & Hin & Hc)]].
  - apply Nat.ltb_lt in Hshort. rewrite Hshort. cbn [app]. eauto.
  - apply Nat.ltb_lt in Hlong. rewrite Hlong.
    destruct (String.length username <? 3)%nat; cbn [app]; eauto.
  - rewrite (usernamePattern_false _ _ Hin Hc).
    destruct (String.length username <? 3)%nat;
      destruct (20 <? String.length username)%nat; cbn [app]; eauto.
Qed.

Lemma fieldError_only field issues :
  forallb isFieldError (fieldError field issues) = true.
Proof. destruct issues; reflexivity. Qed.

Lemma registerSchema_only isEmail values :
  forallb isFieldError (AuthForm.registerSchema isEmail values) = true.
Proof.
  unfold AuthForm.registerSchema.
  rewrite !forallb_app, !fieldError_only. reflexivity.
Qed.

Lemma storeCalls_fieldErrors evs :
  forallb isFieldError evs = true -> storeCalls evs = [].
Proof.
  induction evs as [|e evs IH]; [reflexivity|].
  cbn [forallb storeCalls]. intros H. apply andb_true_iff in H as [He Hevs].
  destruct e; try discriminate He. exact (IH Hevs).
Qed.

(** C9: a username shorter than 3 characters, longer than 20, or with a
    character outside [A-Za-z0-9_] is rejected by validation in both
    workflows before any store interaction: the submission performs no
    store read and no store write, and the state is as before. *)
Theorem C9_malformed_username_rejected_before_store
    (isEmail : string -> bool) (w : Workflow) (s : State) :
  malformed (candidate w) ->
  rejectedByValidation w s (run isEmail w s).
Proof.
  intros Hbad. destruct (usernameIssues_malformed _ Hbad) as (msg & rest & Hmsg).
  destruct w as [reply values | ctx uid email username]; cbn [candidate] in Hmsg.
  - pose proof (registerSchema_only isEmail values) as Honly.
    unfold run, AuthForm.submit, handleSubmit, AuthForm.formSchema.
    assert (Hin : In (EvFieldError "username" msg)
                     (AuthForm.registerSchema isEmail values)).
    { unfold AuthForm.registerSchema. rewrite Hmsg. left. reflexivity. }
    destruct (AuthForm.registerSchema isEmail values) as [|e errs] eqn:Hs;
      [destruct Hin|].
    repeat split; auto using storeCalls_fieldErrors. intros _. eauto.
  - unfold run, FinishProfile.submit.
    destruct (AuthContext.loading ctx) eqn:Hl.
    { repeat split. intros [Hc _]. congruence. }
    destruct (AuthContext.user ctx) as [usr|] eqn:Hu.
    2:{ repeat split. intros [_ Hc]. congruence. }
    unfold handleSubmit, FinishProfile.profileSchema. rewrite Hmsg.
    cbn [fieldError]. repeat split. intros _. exists msg. left. reflexivity.
Qed.

(** ** The username registry: availability check and claim *)

Lemma getDoc_answered p s :
  nextFault s = None ->
  getDoc p s = (Returned (db s !! p), consumed s, [EvGetDoc p]).
Proof. intros H. unfold getDoc. rewrite H. reflexivity. Qed.

Lemma setDoc_answered p d s :
  nextFault s = None ->
  setDoc p d s =
    (Returned tt,
     withDb (consumed s) (<[p := resolveTimestamps (clock s) d]> (db s)),
     [EvSetDoc p d]).
Proof. intros H. unfold setDoc. rewrite H. reflexivity. Qed.

Lemma setDoc_returned p d s :
  outcomeOf (setDoc p d s) = Returned tt -> nextFault s = None.
Proof.
  unfold setDoc. destruct (nextFault s); [discriminate | reflexivity].
Qed.

Lemma checkUsernameUnique_answered username s :
  nextFault s = None ->
  FinishProfile.checkUsernameUnique username s =
    (Returned (negb (exists_ (db s !! registryKey username))),
     consumed s, [EvGetDoc (registryKey username)]).
Proof.
  intros H. unfold FinishProfile.checkUsernameUnique, bind.
  rewrite (getDoc_answered _ _ H). reflexivity.
Qed.

(** Both files carry the same check and the same registry write. *)
Lemma checkUsernameUnique_same :
  AuthForm.checkUsernameUnique = FinishProfile.checkUsernameUnique.
Proof. reflexivity. Qed.

Lemma claimUsername_same username user :
  AuthForm.claimUsername username user
  = FinishProfile.claimUsername username (uid user).
Proof. reflexivity. Qed.

(** C1: once a claim of a username for account [a] has succeeded, the
    availability check of that username answers false, and a later claim
    of it for another account [b] is accepted by the store all the same
    and leaves the registry entry of the normalized username pointing at
    [b]: the claim is an unconditional overwrite. *)
Theorem C1_claim_is_unconditional_overwrite
    (username a b : string) (s : State) :
  b <> a ->
  outcomeOf (FinishProfile.claimUsername username a s) = Returned tt ->
  answered 2 (stateAfter (FinishProfile.claimUsername username a s)) ->
  let s1 := stateAfter (FinishProfile.claimUsername username a s) in
  let s2 := stateAfter (FinishProfile.checkUsernameUnique username s1) in
  let s3 := stateAfter (FinishProfile.claimUsername username b s2) in
  db s1 !! registryKey username = Some [("uid", VStr a)]
  /\ outcomeOf (FinishProfile.checkUsernameUnique username s1) = Returned false
  /\ outcomeOf (FinishProfile.claimUsername username b s2) = Returned tt
  /\ db s3 !! registryKey username = Some [("uid", VStr b)]
  /\ db s3 !! registryKey username <> Some [("uid", VStr a)]
  /\ AuthForm.checkUsernameUnique = FinishProfile.checkUsernameUnique
  /\ (forall user,
         AuthForm.claimUsername username user
         = FinishProfile.claimUsername username (uid user)).
Proof.
  intros Hne Hfirst Hans s1 s2 s3.
  pose proof (setDoc_returned _ _ _ Hfirst) as Hs.
  destruct Hans as (H1 & H2 & _). fold s1 in H1, H2.
  assert (E1 : db s1 !! registryKey username = Some [("uid", VStr a)]).
  { unfold s1, FinishProfile.claimUsername.
    rewrite (setDoc_answered _ _ _ Hs). cbn [stateAfter fst snd db withDb].
    apply lookup_insert_eq. }
  clearbody s1. subst s2 s3.
  rewrite (checkUsernameUnique_answered _ _ H1).
  unfold FinishProfile.claimUsername, stateAfter at 2 4; cbn [fst snd].
  rewrite (setDoc_answered _ _ _ H2).
  unfold stateAfter, outcomeOf; cbn [fst snd db withDb].
  rewrite E1, lookup_insert_eq. cbn [exists_ negb].
  repeat split; try reflexivity.
  cbn. intros E. apply Hne. congruence.
Qed.

(** ** Completed runs *)

Lemma fieldError_nil field issues : fieldError field issues = [] -> issues = [].
Proof. destruct issues; [reflexivity | discriminate]. Qed.

Lemma registerSchema_nil isEmail values :
  AuthForm.registerSchema isEmail values = [] ->
  usernameIssues (AuthForm.username values) = []
  /\ isEmail (AuthForm.email values) = true
  /\ (6 <= String.length (AuthForm.password values))%nat.
Proof.
  unfold AuthForm.registerSchema, AuthForm.emailIssues. intros H.
  apply app_eq_nil in H as [Hu H]. apply app_eq_nil in H as [He Hp].
  apply fieldError_nil in Hu, He, Hp. split; [exact Hu|]. split.
  - destruct (isEmail _); [reflexivity | discriminate].
  - destruct (Nat.ltb_spec (String.length (AuthForm.password values)) 6);
      [discriminate | assumption].
Qed.

Lemma not_completed_fieldErrors evs :
  forallb isFieldError evs = true -> ~ completed evs.
Proof.
  intros H Hc. unfold completed in Hc.
  rewrite forallb_forall in H. specialize (H _ Hc). discriminate H.
Qed.

Ltac not_completed :=
  let Hc := fresh "Hc" in
  intros Hc; exfalso; unfold completed in Hc; cbn [In] in Hc;
  repeat (destruct Hc as [Hc | Hc]; [discriminate Hc|]); exact Hc.

Ltac lookup_tac :=
  repeat first
    [ rewrite lookup_insert_eq
    | rewrite lookup_insert_ne by (intros [=]) ];
  reflexivity.

Lemma direct_completed isEmail reply values s :
  wp (AuthForm.submit isEmail AuthForm.Register reply values) s
     (fun _ s' evs => completed evs -> recordsWritten (Direct reply values) s s' evs).
Proof.
  unfold AuthForm.submit, AuthForm.onSubmit. wp_step.
  destruct (AuthForm.formSchema _ _ _) eqn:Hschema.
  2:{ intros Hc. exfalso. revert Hc. apply not_completed_fieldErrors.
      rewrite <- Hschema. apply registerSchema_only. }
  apply registerSchema_nil in Hschema as (Hu & _ & _).
  wp_run; try not_completed.
  intros _. eexists _, _, _, _.
  cbn [db withDb accountId registeredUid candidate writes].
  repeat split; try exact Hu; try exact Hsnap; try lookup_tac.
Qed.

Lemma federated_completed ctx uid email username s :
  wp (FinishProfile.submit ctx uid email username) s
     (fun _ s' evs =>
        completed evs ->
        recordsWritten (Federated ctx uid email username) s s' evs).
Proof.
  unfold FinishProfile.submit.
  destruct (AuthContext.loading ctx); [wp_run; not_completed|].
  destruct (AuthContext.user ctx) as [usr|]; [|wp_run; not_completed].
  wp_step. unfold FinishProfile.profileSchema.
  destruct (usernameIssues username) as [|msg rest] eqn:Hu;
    cbn [fieldError]; [|not_completed].
  unfold FinishProfile.onSubmit.
  destruct uid as [uid|], email as [email|]; try (wp_run; not_completed).
  destruct (negb (truthy (Some uid)) || negb (truthy (Some email)));
    wp_run; try not_completed.
  intros _. eexists _, _, _, _.
  cbn [db withDb accountId registeredUid candidate writes].
  split; [exact Hdoc|]. split; [reflexivity|]. split.
  { intros Hplain. rewrite (docId_documentId _ Hplain) in Hdoc. congruence. }
  repeat split; try exact Hu; try exact Hsnap; try lookup_tac.
Qed.

Lemma run_completed isEmail w s :
  wp (run isEmail w) s
     (fun _ s' evs => completed evs -> recordsWritten w s s' evs).
Proof.
  destruct w as [reply values | ctx uid email username].
  - exact (direct_completed isEmail reply values s).
  - exact (federated_completed ctx uid email username s).
Qed.

(** ** Runs on a taken username *)

Lemma wp_eq {A} (m : M A) s r :
  wp m s (fun o s' evs => (o, s', evs) = r) -> m s = r.
Proof.
  unfold wp, outcomeOf, stateAfter, eventsOf.
  destruct (m s) as [[o s'] evs]. exact (fun H => H).
Qed.

Lemma direct_onSubmit_taken reply values s :
  nextFault s = None ->
  is_Some (db s !! registryKey (AuthForm.username values)) ->
  AuthForm.onSubmit AuthForm.Register reply values s
  = (Returned tt, consumed s,
     [EvGetDoc (registryKey (AuthForm.username values)); usernameTaken]).
Proof.
  intros Hf [d Hd]. unfold registryKey in Hd. apply wp_eq.
  unfold AuthForm.onSubmit. wp_run. reflexivity.
Qed.

Lemma federated_onSubmit_taken uid email user username s :
  truthy (Some uid) = true ->
  truthy (Some email) = true ->
  nextFault s = None ->
  is_Some (db s !! registryKey username) ->
  FinishProfile.onSubmit (Some uid) (Some email) user username s
  = (Returned tt, consumed s, [EvGetDoc (registryKey username); usernameTaken]).
Proof.
  intros Hu He Hf [d Hd]. unfold registryKey in Hd. apply wp_eq.
  unfold FinishProfile.onSubmit. rewrite Hu, He. cbn [negb orb].
  wp_run. reflexivity.
Qed.

(** ** Case-insensitive usernames *)

Lemma toLowerCaseChar_upper c :
  isUpperCase c = true ->
  toLowerCaseChar c = lowerOf c
  /\ toLowerCaseChar (lowerOf c) = lowerOf c
  /\ wordChar (lowerOf c) = wordChar c.
Proof.
  destruct c as [[] [] [] [] [] [] [] []]; vm_compute;
    intros H; try discriminate H; repeat split.
Qed.

Lemma caseVariant_toLowerCase u v :
  caseVariant u v -> toLowerCase u = toLowerCase v.
Proof.
  induction 1 as [| c s t _ IH | c s t Hc _ IH | c s t Hc _ IH];
    cbn [toLowerCase]; try rewrite IH; try reflexivity;
    destruct (toLowerCaseChar_upper c Hc) as (E1 & E2 & _); congruence.
Qed.

Lemma caseVariant_length u v :
  caseVariant u v -> String.length u = String.length v.
Proof. induction 1; cbn [String.length]; congruence. Qed.

Lemma caseVariant_allWordChars u v :
  caseVariant u v -> allWordChars u = allWordChars v.
Proof.
  induction 1 as [| c s t _ IH | c s t Hc _ IH | c s t Hc _ IH];
    cbn [allWordChars]; try rewrite IH; try reflexivity;
    destruct (toLowerCaseChar_upper c Hc) as (_ & _ & W);
    rewrite W; reflexivity.
Qed.

Lemma caseVariant_usernameIssues u v :
  caseVariant u v -> usernameIssues u = usernameIssues v.
Proof.
  intros H. unfold usernameIssues, usernamePattern.
  rewrite (caseVariant_length _ _ H), (caseVariant_allWordChars _ _ H).
  destruct H; reflexivity.
Qed.

Lemma registerSchema_valid isEmail values :
  usernameIssues (AuthForm.username values) = [] ->
  isEmail (AuthForm.email values) = true ->
  (6 <= String.length (AuthForm.password values))%nat ->
  AuthForm.registerSchema isEmail values = [].
Proof.
  intros Hu He Hp. unfold AuthForm.registerSchema, AuthForm.emailIssues.
  rewrite Hu, He. apply Nat.ltb_ge in Hp. rewrite Hp. reflexivity.
Qed.

Lemma run_taken isEmail w s :
  usernameIssues (candidate w) = [] ->
  otherFieldsValid isEmail w ->
  nextFault s = None ->
  is_Some (db s !! registryKey (candidate w)) ->
  run isEmail w s
  = (Returned tt, consumed s, [EvGetDoc (registryKey (candidate w)); usernameTaken]).
Proof.
  intros Hu Hv Hf Hd. destruct w as [reply values | ctx uid email username];
    cbn [candidate otherFieldsValid run] in *.
  - destruct Hv as [He Hp].
    unfold AuthForm.submit, handleSubmit, AuthForm.formSchema.
    rewrite (registerSchema_valid _ _ Hu He Hp).
    apply direct_onSubmit_taken; assumption.
  - destruct Hv as (Hl & Husr & Huid & Hemail).
    unfold FinishProfile.submit, handleSubmit, FinishProfile.profileSchema.
    rewrite Hl, Hu. destruct (AuthContext.user ctx) as [usr|]; [|congruence].
    destruct uid as [uid|]; [|discriminate Huid].
    destruct email as [email|]; [|discriminate Hemail].
    cbn [fieldError]. apply federated_onSubmit_taken; assumption.
Qed.

(** C7: usernames that differ only in letter case are normalized to the
    same registry key by the availability check, by the registry claim
    and by the Account write of both workflows; so once a registration
    of one spelling has completed, a later submission of another
    spelling, in either workflow, is rejected as already taken, after
    the availability read and with no write. *)
Theorem C7_case_variants_share_registry_key
    (isEmail : string -> bool) (w1 w2 : Workflow) (s s2 : State) :
  caseVariant (candidate w1) (candidate w2) ->
  completed (eventsOf (run isEmail w1 s)) ->
  db s2 = db (stateAfter (run isEmail w1 s)) ->
  nextFault s2 = None ->
  otherFieldsValid isEmail w2 ->
  registryKey (candidate w1) = registryKey (candidate w2)
  /\ AuthForm.checkUsernameUnique (candidate w1)
     = AuthForm.checkUsernameUnique (candidate w2)
  /\ FinishProfile.checkUsernameUnique (candidate w1)
     = FinishProfile.checkUsernameUnique (candidate w2)
  /\ (forall user,
         AuthForm.claimUsername (candidate w1) user
         = AuthForm.claimUsername (candidate w2) user
         /\ AuthForm.accountDoc (candidate w1) user
            = AuthForm.accountDoc (candidate w2) user)
  /\ (forall uid email,
         FinishProfile.claimUsername (candidate w1) uid
         = FinishProfile.claimUsername (candidate w2) uid
         /\ FinishProfile.accountDoc (candidate w1) email
            = FinishProfile.accountDoc (candidate w2) email)
  /\ run isEmail w2 s2
     = (Returned tt, consumed s2,
        [EvGetDoc (registryKey (candidate w2));
         EvFieldError "username" "This username is already taken."])
  /\ db (stateAfter (run isEmail w2 s2)) = db s2.
Proof.
  intros Hcv Hdone Hdb Hf Hv.
  pose proof (caseVariant_toLowerCase _ _ Hcv) as Hkey.
  destruct (run_completed isEmail w1 s Hdone)
    as (id & given & account & profile & _ & _ & _ & _ & _ & _ & Hreg & _ & Hu & _).
  assert (Htaken : run isEmail w2 s2
                   = (Returned tt, consumed s2,
                      [EvGetDoc (registryKey (candidate w2)); usernameTaken])).
  { apply run_taken; try assumption.
    - rewrite <- (caseVariant_usernameIssues _ _ Hcv). exact Hu.
    - rewrite Hdb. unfold registryKey in *. rewrite <- Hkey, Hreg. eauto. }
  unfold registryKey, AuthForm.checkUsernameUnique,
    FinishProfile.checkUsernameUnique, AuthForm.claimUsername,
    FinishProfile.claimUsername, AuthForm.accountDoc, FinishProfile.accountDoc.
  rewrite Hkey. repeat split; try reflexivity.
  - exact Htaken.
  - rewrite Htaken. reflexivity.
Qed.

(** ** Order of the identity-provider call and the availability check *)

Lemma direct_reads_first reply values s :
  wp (AuthForm.onSubmit AuthForm.Register reply values) s
     (fun _ _ evs =>
        exists rest,
          evs = EvGetDoc (registryKey (AuthForm.username values)) :: rest).
Proof. unfold AuthForm.onSubmit. wp_run; eexists; reflexivity. Qed.

(** C3, as the code has it: in the direct registration workflow the
    availability check comes first, before any call to the identity
    provider; when the candidate username is unavailable the workflow
    stops with the error scoped to the username field, writes nothing to
    the store and creates no principal. *)
Theorem C3_check_precedes_principal_creation
    (isEmail : string -> bool) (reply : Error + User)
    (values : AuthForm.FormValues) (s : State) :
  AuthForm.registerSchema isEmail values = [] ->
  (exists rest,
      eventsOf (run isEmail (Direct reply values) s)
      = EvGetDoc (registryKey (AuthForm.username values)) :: rest)
  /\ (nextFault s = None ->
      is_Some (db s !! registryKey (AuthForm.username values)) ->
      eventsOf (run isEmail (Direct reply values) s)
      = [EvGetDoc (registryKey (AuthForm.username values));
         EvFieldError "username" "This username is already taken."]
      /\ writes (eventsOf (run isEmail (Direct reply values) s)) = []
      /\ db (stateAfter (run isEmail (Direct reply values) s)) = db s
      /\ principals (stateAfter (run isEmail (Direct reply values) s))
         = principals s).
Proof.
  intros Hschema.
  assert (E : run isEmail (Direct reply values) s
              = AuthForm.onSubmit AuthForm.Register reply values s).
  { cbn [run]. unfold AuthForm.submit, handleSubmit, AuthForm.formSchema.
    rewrite Hschema. reflexivity. }
  rewrite E. split.
  - exact (direct_reads_first reply values s).
  - intros Hf Hd. rewrite (direct_onSubmit_taken reply values s Hf Hd).
    repeat split.
Qed.

(** C3 as stated fails: on a taken username the run makes no sign-up
    call at all, before or after the check, and the identity provider
    holds no principal afterwards, although it would have accepted the
    sign-up. *)
Lemma C3_no_principal_on_taken_username :
  is_Some (db aliceTaken !! registryKey (candidate aliceRegistration))
  /\ AuthForm.registerSchema sampleIsEmail aliceForm = []
  /\ accepted aliceRegistration
  /\ ~ principalCreatedBeforeCheck
         (registryKey (candidate aliceRegistration)) (eventsOf aliceTakenRun)
  /\ ~ In newUser (principals (stateAfter aliceTakenRun)).
Proof.
  split; [eexists; reflexivity|]. split; [reflexivity|].
  split; [eexists; reflexivity|]. split.
  - intros (pre & mid & post & email & password & E).
    vm_compute in E.
    destruct pre as [|e1 [|e2 [|e3 pre]]]; cbn in E; discriminate E.
  - vm_compute. intros [].
Qed.

(** ** The two workflows on the same inputs *)

Ltac completed_iff :=
  unfold completed; cbn [In];
  split; intros Hc;
  first
    [ exfalso; repeat (destruct Hc as [Hc | Hc]; [discriminate Hc|]); exact Hc
    | repeat first [ left; reflexivity | right ] ].

Lemma onSubmit_sameRegistration usr email sess values s :
  userEmail usr = Some email ->
  isDocumentId (uid usr) = true ->
  truthy (Some email) = true ->
  wp (AuthForm.onSubmit AuthForm.Register (inr usr) values) s
     (fun od sd evd =>
        wp (FinishProfile.onSubmit (Some (uid usr)) (Some email) sess
              (AuthForm.username values)) s
           (fun of_ sf evf => sameRegistration (uid usr) (od, sd, evd) (of_, sf, evf))).
Proof.
  intros Hmail Hplain He.
  pose proof (docId_documentId _ Hplain) as Hdoc.
  pose proof (isDocumentId_truthy _ Hplain) as Hu.
  unfold AuthForm.onSubmit, FinishProfile.onSubmit. rewrite Hu, He.
  cbn [negb orb].
  wp_run; unfold sameRegistration, AuthForm.accountDoc, FinishProfile.accountDoc,
    AuthForm.registryDoc, FinishProfile.registryDoc;
    rewrite ?Hmail;
    cbn [eventsOf stateAfter fst snd reads writes db withDb ofNullable];
    (split; [reflexivity|]); (split; [reflexivity|]);
    (split; [completed_iff|]);
    (split;
     [ intros p Hp;
       rewrite ?(lookup_insert_ne _ ("portfolios", uid usr) p)
         by (intros E; apply Hp; symmetry; exact E);
       reflexivity
     | ]);
    try not_completed.
  intros _. eexists _, _.
  split; [apply lookup_insert_eq|]. split; [apply lookup_insert_eq|].
  unfold agreeOn, commonProfileFields.
  repeat constructor; try reflexivity; cbn; discriminate.
Qed.

(** What the two workflows do share: on the same username, e-mail and
    account identifier the federated completion runs the same
    availability check as the direct registration and, when the sign-up
    is accepted, makes the same store calls in the same order, completes
    in the same cases, and leaves the same Account and the same registry
    entry; the seeded profiles agree on full name, title, bio, projects
    and theme. *)
Lemma flows_agree_on_account_and_registry
    (usr : User) (email : string) (sess : option User)
    (values : AuthForm.FormValues) (s : State) :
  userEmail usr = Some email ->
  isDocumentId (uid usr) = true ->
  truthy (Some email) = true ->
  AuthForm.checkUsernameUnique = FinishProfile.checkUsernameUnique
  /\ AuthForm.accountDoc (AuthForm.username values) usr
     = FinishProfile.accountDoc (AuthForm.username values) email
  /\ AuthForm.registryDoc usr = FinishProfile.registryDoc (uid usr)
  /\ sameRegistration (uid usr)
       (AuthForm.onSubmit AuthForm.Register (inr usr) values s)
       (FinishProfile.onSubmit (Some (uid usr)) (Some email) sess
          (AuthForm.username values) s).
Proof.
  intros Hmail Hu He. split; [reflexivity|]. split.
  { unfold AuthForm.accountDoc, FinishProfile.accountDoc. rewrite Hmail.
    reflexivity. }
  split; [reflexivity|].
  pose proof (onSubmit_sameRegistration usr email sess values s Hmail Hu He) as H.
  unfold wp in H.
  destruct (AuthForm.onSubmit AuthForm.Register (inr usr) values s)
    as [[od sd] evd].
  destruct (FinishProfile.onSubmit (Some (uid usr)) (Some email) sess
              (AuthForm.username values) s) as [[of_ sf] evf].
  exact H.
Qed.

(** C4: on the same inputs (username, e-mail, account identifier, no
    avatar) both workflows complete, yet the profile seeded by the direct
    registration is not the default profile seeded by the federated
    completion: its skills are plain strings where the federated ones
    are [{name}] objects, and it lacks the [website] field (as it lacks
    the experience, education, certification, course, testimonial and
    social-media collections). *)
Lemma C4_seeded_profiles_differ :
  completed (eventsOf newUserRegistrationRun)
  /\ completed (eventsOf newUserCompletionRun)
  /\ db (stateAfter newUserRegistrationRun) !! ("portfolios", "acct-1")
     <> db (stateAfter newUserCompletionRun) !! ("portfolios", "acct-1")
  /\ fieldOf "skills"
       (db (stateAfter newUserRegistrationRun) !! ("portfolios", "acct-1"))
     = Some (VArr [VStr "React"; VStr "Next.js"; VStr "Firebase"])
  /\ fieldOf "skills"
       (db (stateAfter newUserCompletionRun) !! ("portfolios", "acct-1"))
     = Some (VArr [ VObj [("name", VStr "React")];
                    VObj [("name", VStr "Next.js")];
                    VObj [("name", VStr "Firebase")] ])
  /\ fieldOf "website"
       (db (stateAfter newUserRegistrationRun) !! ("portfolios", "acct-1"))
     = None
  /\ fieldOf "website"
       (db (stateAfter newUserCompletionRun) !! ("portfolios", "acct-1"))
     = Some (VStr "")
  /\ fieldOf "socialMedia"
       (db (stateAfter newUserRegistrationRun) !! ("portfolios", "acct-1"))
     = None
  /\ fieldOf "socialMedia"
       (db (stateAfter newUserCompletionRun) !! ("portfolios", "acct-1"))
     = Some (VArr []).
Proof.
  split; [vm_compute; tauto|]. split; [vm_compute; tauto|].
  split; [vm_compute; discriminate|]. repeat split.
Qed.

(** ** The documents of a completed run *)

Lemma direct_docs isEmail reply values s :
  wp (AuthForm.submit isEmail AuthForm.Register reply values) s
     (fun _ s' evs => completed evs -> directDocs reply values s s').
Proof.
  unfold AuthForm.submit, AuthForm.onSubmit. wp_step.
  destruct (AuthForm.formSchema _ _ _) eqn:Hschema.
  2:{ intros Hc. exfalso. revert Hc. apply not_completed_fieldErrors.
      rewrite <- Hschema. apply registerSchema_only. }
  wp_run; try not_completed.
  intros _. eexists. cbn [db withDb]. repeat split; lookup_tac.
Qed.

Lemma federated_docs ctx uid email username s :
  wp (FinishProfile.submit ctx uid email username) s
     (fun _ s' evs => completed evs -> federatedDocs ctx uid email username s s').
Proof.
  unfold FinishProfile.submit.
  destruct (AuthContext.loading ctx); [wp_run; not_completed|].
  destruct (AuthContext.user ctx) as [usr|] eqn:Hctx; [|wp_run; not_completed].
  wp_step. unfold FinishProfile.profileSchema.
  destruct (usernameIssues username) as [|msg rest] eqn:Hu;
    cbn [fieldError]; [|not_completed].
  unfold FinishProfile.onSubmit.
  destruct uid as [uid|], email as [email|]; try (wp_run; not_completed).
  destruct (negb (truthy (Some uid)) || negb (truthy (Some email)));
    wp_run; try not_completed.
  intros _. unfold federatedDocs. rewrite Hctx. eexists _, _, _. cbn [db withDb].
  split; [reflexivity|]. split; [exact Hdoc|]. repeat split; lookup_tac.
Qed.

(** ** The seeded profile *)

(** C5, as the code has it: the profile seeded by a completed run of
    either workflow is stored at the run's account identifier and holds
    the placeholder full name, title and bio, the avatar URL or the empty
    string, three sample skills (React, Next.js, Firebase), no project,
    and the default theme; the federated completion also seeds empty
    collections for work and organization experience, education,
    certifications, courses, testimonials and social links. *)
Theorem C5_seeded_profile_defaults
    (isEmail : string -> bool) (w : Workflow) (s : State) :
  completed (eventsOf (run isEmail w s)) ->
  exists id profile,
    accountId w = Some id
    /\ db (stateAfter (run isEmail w s)) !! ("portfolios", id) = Some profile
    /\ seededDefaults (avatarOf w) profile
    /\ match w with
       | Direct _ _ => True
       | Federated _ _ _ _ => emptyCollections profile
       end.
Proof.
  intros Hc. destruct w as [reply values | ctx uid email username].
  - destruct (direct_docs isEmail reply values s Hc) as (usr & -> & _ & _ & Hp).
    exists (uid usr), AuthForm.portfolioDoc. split; [reflexivity|].
    split; [exact Hp|]. split; [|exact I].
    unfold seededDefaults. repeat split. eexists. split; reflexivity.
  - destruct (federated_docs ctx uid email username s Hc)
      as (given & id & e & -> & Hdoc & -> & _ & _ & Hp).
    exists id, (FinishProfile.portfolioDoc (AuthContext.user ctx)).
    split; [exact Hdoc|]. split; [exact Hp|]. split.
    + unfold seededDefaults. repeat split. eexists. split; reflexivity.
    + unfold emptyCollections. repeat constructor.
Qed.

(** C5 as stated fails: the skills seeded by either workflow are not an
    empty collection, and the profile seeded by the direct registration
    has no education collection at all. *)
Lemma C5_seeded_skills_not_empty :
  completed (eventsOf newUserRegistrationRun)
  /\ completed (eventsOf newUserCompletionRun)
  /\ fieldOf "skills"
       (db (stateAfter newUserRegistrationRun) !! ("portfolios", "acct-1"))
     <> Some (VArr [])
  /\ fieldOf "skills"
       (db (stateAfter newUserCompletionRun) !! ("portfolios", "acct-1"))
     <> Some (VArr [])
  /\ fieldOf "educations"
       (db (stateAfter newUserRegistrationRun) !! ("portfolios", "acct-1"))
     = None.
Proof.
  split; [vm_compute; tauto|]. split; [vm_compute; tauto|].
  split; [vm_compute; discriminate|]. split; [vm_compute; discriminate|].
  reflexivity.
Qed.

(** ** Where the federated completion takes its identity from *)

Lemma portfolioDoc_avatar u1 u2 :
  orElse (photoURL u1) "" = orElse (photoURL u2) "" ->
  FinishProfile.portfolioDoc (Some u1) = FinishProfile.portfolioDoc (Some u2).
Proof. intros H. unfold FinishProfile.portfolioDoc. rewrite H. reflexivity. Qed.

(** The account identifier and the e-mail of the federated completion's
    writes are the [uid] and [email] query parameters of the page; of
    the session only the avatar is used.  Two submissions with the same
    query parameters and username, from sessions with the same avatar,
    run identically, whatever the sessions' own identifiers and e-mails;
    and a completed submission has written the Account with the [email]
    parameter, and the registry entry and the profile, under the [uid]
    parameter. *)
Lemma federated_identity_comes_from_query
    (ctx1 ctx2 : AuthContext.AuthContextType) (uid email : option string)
    (username : string) (s : State) :
  AuthContext.loading ctx1 = false ->
  AuthContext.loading ctx2 = false ->
  AuthContext.user ctx1 <> None ->
  AuthContext.user ctx2 <> None ->
  sessionAvatar ctx1 = sessionAvatar ctx2 ->
  FinishProfile.submit ctx1 uid email username s
  = FinishProfile.submit ctx2 uid email username s
  /\ (completed (eventsOf (FinishProfile.submit ctx1 uid email username s)) ->
      federatedDocs ctx1 uid email username s
        (stateAfter (FinishProfile.submit ctx1 uid email username s))).
Proof.
  intros Hl1 Hl2 Hu1 Hu2 Hav. split.
  - unfold FinishProfile.submit, sessionAvatar in *. rewrite Hl1, Hl2.
    destruct (AuthContext.user ctx1) as [u1|]; [|congruence].
    destruct (AuthContext.user ctx2) as [u2|]; [|congruence].
    unfold handleSubmit, FinishProfile.onSubmit.
    rewrite (portfolioDoc_avatar u1 u2 Hav). reflexivity.
  - exact (federated_docs ctx1 uid email username s).
Qed.

(** C6 fails on the code: the completion page takes the account
    identifier and the e-mail of its writes from the URL's query
    parameters and never compares them with the session's user.  With
    the session of [acct-1] and a link that names [acct-9], the
    submission completes, registers the username for [acct-9] with the
    e-mail of the link and writes nothing under [acct-1]; with the same
    session and username and the link of [acct-1] the written records
    are others.  The direct registration writes under the identifier of
    the authenticated user. *)
Lemma C6_query_parameters_decide_the_writes :
  option_map uid (AuthContext.user newUserSession) = Some "acct-1"
  /\ completed (eventsOf newUserCompletionRun)
  /\ completed (eventsOf forgedCompletionRun)
  /\ db (stateAfter newUserCompletionRun) <> db (stateAfter forgedCompletionRun)
  /\ db (stateAfter newUserCompletionRun) !! ("usernames", "new_user_1")
     = Some [("uid", VStr "acct-1")]
  /\ db (stateAfter forgedCompletionRun) !! ("usernames", "new_user_1")
     = Some [("uid", VStr "acct-9")]
  /\ fieldOf "email" (db (stateAfter forgedCompletionRun) !! ("users", "acct-9"))
     = Some (VStr "v@example.com")
  /\ writes (eventsOf forgedCompletionRun)
     = [("users", "acct-9"); ("usernames", "new_user_1"); ("portfolios", "acct-9")]
  /\ db (stateAfter forgedCompletionRun) !! ("users", "acct-1") = None
  /\ writes (eventsOf newUserRegistrationRun)
     = [("users", "acct-1"); ("usernames", "new_user_1"); ("portfolios", "acct-1")].
Proof.
  split; [reflexivity|].
  split; [vm_compute; tauto|]. split; [vm_compute; tauto|].
  split.
  - intros E.
    apply (f_equal (fun m : gmap Path Doc => m !! ("usernames", "new_user_1"))) in E.
    vm_compute in E. discriminate E.
  - repeat split.
Qed.

(** ** Session checks *)

Lemma onAuthStateChanged_answered prev usr s :
  nextFault s = None ->
  AuthContext.onAuthStateChanged prev (Some usr) s
  = ({| AuthContext.user := Some usr;
        AuthContext.userData :=
          match db s !! ("users", uid usr) with
          | Some data => Some (spread [("uid", VStr (uid usr))] data)
          | None => None
          end;
        AuthContext.loading := false |},
     consumed s, [EvGetDoc ("users", uid usr)]).
Proof.
  intros H. unfold AuthContext.onAuthStateChanged.
  rewrite (getDoc_answered _ _ H). reflexivity.
Qed.

Lemma dashboard_after_completion isEmail w s usr prev s2 :
  completed (eventsOf (run isEmail w s)) ->
  accountId w = Some (uid usr) ->
  db s2 = db (stateAfter (run isEmail w s)) ->
  nextFault s2 = None ->
  Dashboard.DashboardPage
    (resultOf (AuthContext.onAuthStateChanged prev (Some usr) s2))
  = (Dashboard.Welcome (Some (VStr (toLowerCase (candidate w)))), []).
Proof.
  intros Hc Hid Hdb Hf. rewrite (onAuthStateChanged_answered prev usr s2 Hf).
  cbn [resultOf fst]. rewrite Hdb.
  destruct w as [reply values | ctx uid email username].
  - destruct (direct_docs isEmail reply values s Hc) as (u & -> & Ha & _).
    cbn [accountId] in Hid. injection Hid as Hid. cbn [run].
    rewrite <- Hid, Ha. reflexivity.
  - destruct (federated_docs ctx uid email username s Hc)
      as (given & id & e & -> & Hdoc & -> & Ha & _).
    cbn [accountId] in Hid. rewrite Hdoc in Hid. injection Hid as Hid. cbn [run].
    rewrite <- Hid, Ha. reflexivity.
Qed.

Lemma handleGoogleSignIn_routes usr s :
  nextFault s = None ->
  eventsOf (AuthForm.handleGoogleSignIn (inr usr) s)
  = [EvSignInPopup; EvGetDoc ("users", uid usr);
     EvPush (match db s !! ("users", uid usr) with
             | None => RFinishProfile (uid usr) (interpolate (userEmail usr))
             | Some _ => RDashboard
             end)].
Proof.
  intros Hf. unfold AuthForm.handleGoogleSignIn, tryCatch, bind, AuthForm.signInWithPopup.
  destruct (existsb _ _);
    (rewrite getDoc_answered by exact Hf);
    cbn [db withPrincipals]; destruct (db s !! ("users", uid usr)); reflexivity.
Qed.









(** ** Valid submissions do complete *)

Lemma valid_registration_completes isEmail w s :
  usernameIssues (candidate w) = [] ->
  otherFieldsValid isEmail w ->
  accepted w ->
  is_Some (accountId w) ->
  answered 4 s ->
  db s !! registryKey (candidate w) = None ->
  completed (eventsOf (run isEmail w s)).
Proof.
  intros Hu Hv Hacc [i Hdoc] (H1 & H2 & H3 & H4 & _) Hfree.
  unfold registryKey in Hfree.
  destruct w as [reply values | ctx uid email username];
    cbn [candidate otherFieldsValid run accepted accountId] in *.
  - destruct Hv as [He Hp]. destruct Hacc as [usr ->].
    unfold AuthForm.submit, handleSubmit, AuthForm.formSchema.
    rewrite (registerSchema_valid _ _ Hu He Hp).
    change (wp (AuthForm.onSubmit AuthForm.Register (inr usr) values) s
              (fun _ _ evs => completed evs)).
    unfold AuthForm.onSubmit. wp_run. unfold completed. cbn [In]. tauto.
  - destruct Hv as (Hl & Husr & Huid & Hemail).
    unfold FinishProfile.submit, handleSubmit, FinishProfile.profileSchema.
    rewrite Hl, Hu. destruct (AuthContext.user ctx) as [usr|]; [|congruence].
    destruct uid as [uid|]; [|discriminate Huid].
    destruct email as [email|]; [|discriminate Hemail].
    cbn [fieldError].
    change (wp (FinishProfile.onSubmit (Some uid) (Some email) (Some usr) username)
              s (fun _ _ evs => completed evs)).
    unfold FinishProfile.onSubmit. rewrite Huid, Hemail. cbn [negb orb].
    wp_run. unfold completed. cbn [In]. tauto.
Qed.

(** ** Valid input: completion and the records written *)

Lemma plainIdentifier_accountId w :
  plainIdentifier w -> accepted w -> is_Some (accountId w).
Proof.
  destruct w as [reply values | ctx given email username];
    cbn [plainIdentifier accepted accountId].
  - intros _ [usr ->]. eexists. reflexivity.
  - intros (id & -> & Hid) _. rewrite (docId_documentId id Hid).
    eexists. reflexivity.
Qed.

(** C2: for every valid registration input (a well-formed username that
    is not in the registry, the other fields of the form valid, an
    account identifier of one segment), a run of either workflow
    completes when the identity provider accepts the sign-up and the
    store answers its four calls; and a completed run has written exactly
    one Account, one registry entry and one profile, all under the same
    account identifier: the Account holds the normalized username, the
    registry entry at that normalized username holds the account
    identifier, and the profile is keyed by it. *)
Theorem C2_completed_run_yields_cross_referenced_records
    (isEmail : string -> bool) (w : Workflow) (s : State) :
  usernameIssues (candidate w) = [] ->
  otherFieldsValid isEmail w ->
  plainIdentifier w ->
  db s !! registryKey (candidate w) = None ->
  (accepted w -> answered 4 s -> completed (eventsOf (run isEmail w s)))
  /\ (completed (eventsOf (run isEmail w s)) ->
      exists id account profile,
        accountId w = Some id
        /\ writes (eventsOf (run isEmail w s))
           = [("users", id); registryKey (candidate w); ("portfolios", id)]
        /\ db (stateAfter (run isEmail w s)) !! ("users", id) = Some account
        /\ doc_get "username" account = Some (VStr (toLowerCase (candidate w)))
        /\ db (stateAfter (run isEmail w s)) !! registryKey (candidate w)
           = Some [("uid", VStr id)]
        /\ db (stateAfter (run isEmail w s)) !! ("portfolios", id) = Some profile).
Proof.
  intros Hu Hv Hplain Hfree. split.
  - intros Hacc Hans.
    exact (valid_registration_completes isEmail w s Hu Hv Hacc
             (plainIdentifier_accountId w Hplain Hacc) Hans Hfree).
  - intros Hc.
    destruct (run_completed isEmail w s Hc)
      as (id & given & account & profile & Hid & Hgiven & Hsame & Hw & Ha & Hn
          & Hreg & Hp & _).
    assert (E : given = id).
    { destruct w as [[e|usr] values | ctx uid email username];
        cbn [accountId registeredUid plainIdentifier] in *; try congruence.
      destruct Hplain as (i & -> & Hi). apply Hsame. congruence. }
    subst given. exists id, account, profile. repeat split; assumption.
Qed.

(** ** Worked instances *)

(** C1 on the empty store: "Alice" claimed for acct-1, then for acct-2. *)
Lemma C1_witness :
  "acct-2" <> "acct-1"
  /\ outcomeOf (FinishProfile.claimUsername "Alice" "acct-1" emptyState)
     = Returned tt
  /\ outcomeOf
       (FinishProfile.checkUsernameUnique "Alice"
          (stateAfter (FinishProfile.claimUsername "Alice" "acct-1" emptyState)))
     = Returned false.
Proof.
  assert (H1 : "acct-2" <> "acct-1") by discriminate.
  assert (H2 : outcomeOf (FinishProfile.claimUsername "Alice" "acct-1" emptyState)
               = Returned tt) by reflexivity.
  assert (H3 : answered 2
                 (stateAfter
                    (FinishProfile.claimUsername "Alice" "acct-1" emptyState)))
    by (repeat split).
  split; [exact H1|]. split; [exact H2|].
  exact (proj1 (proj2
    (C1_claim_is_unconditional_overwrite "Alice" "acct-1" "acct-2" emptyState
       H1 H2 H3))).
Defined.

(** C2 on the end-to-end scenario, in both workflows: new_user_1
    registers as acct-1 with a password, and completes the profile of
    acct-1 after a federated sign-in. *)
Lemma C2_witness :
  completed (eventsOf (run sampleIsEmail newUserRegistration emptyState))
  /\ completed (eventsOf (run sampleIsEmail newUserCompletion emptyState))
  /\ exists account profile,
       db (stateAfter (run sampleIsEmail newUserCompletion emptyState))
         !! ("users", "acct-1") = Some account
       /\ doc_get "username" account = Some (VStr "new_user_1")
       /\ db (stateAfter (run sampleIsEmail newUserCompletion emptyState))
            !! ("usernames", "new_user_1") = Some [("uid", VStr "acct-1")]
       /\ db (stateAfter (run sampleIsEmail newUserCompletion emptyState))
            !! ("portfolios", "acct-1") = Some profile.
Proof.
  assert (Hans : answered 4 emptyState) by (repeat split).
  assert (Hd : otherFieldsValid sampleIsEmail newUserRegistration).
  { split; [reflexivity | cbn; repeat constructor]. }
  assert (Hf : otherFieldsValid sampleIsEmail newUserCompletion).
  { repeat split. discriminate. }
  assert (Hp : plainIdentifier newUserCompletion).
  { exists "acct-1". split; reflexivity. }
  destruct (C2_completed_run_yields_cross_referenced_records sampleIsEmail
              newUserRegistration emptyState eq_refl Hd eq_refl eq_refl)
    as [Hlive _].
  destruct (C2_completed_run_yields_cross_referenced_records sampleIsEmail
              newUserCompletion emptyState eq_refl Hf Hp eq_refl)
    as [Hlive' Hrec].
  split; [exact (Hlive (ex_intro _ newUser eq_refl) Hans)|].
  split; [exact (Hlive' I Hans)|].
  destruct (Hrec (Hlive' I Hans))
    as (id & account & profile & Hid & _ & Ha & Hn & Hreg & Hpr).
  injection Hid as <-. exists account, profile.
  split; [exact Ha|]. split; [exact Hn|]. split; [exact Hreg | exact Hpr].
Defined.

(** C3 on a store where "alice" is taken. *)
Lemma C3_witness :
  AuthForm.registerSchema sampleIsEmail aliceForm = []
  /\ nextFault aliceTaken = None
  /\ is_Some (db aliceTaken !! registryKey (AuthForm.username aliceForm))
  /\ writes (eventsOf (run sampleIsEmail aliceRegistration aliceTaken)) = []
  /\ principals (stateAfter (run sampleIsEmail aliceRegistration aliceTaken))
     = principals aliceTaken.
Proof.
  assert (H1 : AuthForm.registerSchema sampleIsEmail aliceForm = [])
    by reflexivity.
  assert (H2 : nextFault aliceTaken = None) by reflexivity.
  assert (H3 : is_Some (db aliceTaken !! registryKey (AuthForm.username aliceForm)))
    by (eexists; reflexivity).
  split; [exact H1|]. split; [exact H2|]. split; [exact H3|].
  destruct (proj2 (C3_check_precedes_principal_creation sampleIsEmail
                     (inr newUser) aliceForm aliceTaken H1) H2 H3)
    as (_ & Hw & _ & Hp).
  split; [exact Hw | exact Hp].
Defined.

(** The end-to-end scenario, run through both workflows. *)
Lemma flows_agree_on_new_user :
  userEmail newUser = Some "u@example.com"
  /\ truthy (Some (uid newUser)) = true
  /\ truthy (Some "u@example.com") = true
  /\ sameRegistration (uid newUser)
       (AuthForm.onSubmit AuthForm.Register (inr newUser) newUserForm emptyState)
       (FinishProfile.onSubmit (Some (uid newUser)) (Some "u@example.com")
          (Some newUser) (AuthForm.username newUserForm) emptyState).
Proof.
  split; [reflexivity|]. split; [reflexivity|]. split; [reflexivity|].
  exact (proj2 (proj2 (proj2
    (flows_agree_on_account_and_registry newUser "u@example.com"
       (Some newUser) newUserForm emptyState eq_refl eq_refl eq_refl)))).
Defined.

(** C5 on the federated completion of acct-1. *)
Lemma C5_witness :
  completed (eventsOf (run sampleIsEmail newUserCompletion emptyState))
  /\ exists id profile,
       accountId newUserCompletion = Some id
       /\ db (stateAfter (run sampleIsEmail newUserCompletion emptyState))
            !! ("portfolios", id) = Some profile
       /\ seededDefaults (avatarOf newUserCompletion) profile
       /\ emptyCollections profile.
Proof.
  assert (H : completed
                (eventsOf (run sampleIsEmail newUserCompletion emptyState)))
    by (vm_compute; tauto).
  split; [exact H|].
  exact (C5_seeded_profile_defaults sampleIsEmail newUserCompletion emptyState H).
Defined.

Lemma caseVariant_Alice_alice : caseVariant "Alice" "alice".
Proof.
  apply (cv_lower "A" "lice" "lice"); [reflexivity|].
  repeat apply cv_same. apply cv_empty.
Defined.

(** C7: "Alice" registers, then "alice" is submitted on the completion
    page of another account. *)
Lemma C7_witness :
  caseVariant (candidate aliceRegistration) (candidate aliceLowercase)
  /\ completed (eventsOf (run sampleIsEmail aliceRegistration emptyState))
  /\ nextFault (stateAfter (run sampleIsEmail aliceRegistration emptyState)) = None
  /\ otherFieldsValid sampleIsEmail aliceLowercase
  /\ run sampleIsEmail aliceLowercase
       (stateAfter (run sampleIsEmail aliceRegistration emptyState))
     = (Returned tt,
        consumed (stateAfter (run sampleIsEmail aliceRegistration emptyState)),
        [EvGetDoc (registryKey (candidate aliceLowercase));
         EvFieldError "username" "This username is already taken."]).
Proof.
  assert (H2 : completed
                 (eventsOf (run sampleIsEmail aliceRegistration emptyState)))
    by (vm_compute; tauto).
  assert (H5 : otherFieldsValid sampleIsEmail aliceLowercase).
  { split; [reflexivity|]. split; [discriminate|]. split; reflexivity. }
  split; [exact caseVariant_Alice_alice|]. split; [exact H2|].
  split; [reflexivity|]. split; [exact H5|].
  exact (proj1 (proj2 (proj2 (proj2 (proj2 (proj2
    (C7_case_variants_share_registry_key sampleIsEmail aliceRegistration
       aliceLowercase emptyState
       (stateAfter (run sampleIsEmail aliceRegistration emptyState))
       caseVariant_Alice_alice H2 eq_refl eq_refl H5))))))).
Defined.



(** C9: a two-letter username. *)
Lemma C9_witness :
  malformed (candidate (Direct (inr newUser) shortForm))
  /\ rejectedByValidation (Direct (inr newUser) shortForm) emptyState
       (run sampleIsEmail (Direct (inr newUser) shortForm) emptyState).
Proof.
  assert (H : malformed (candidate (Direct (inr newUser) shortForm))).
  { left. cbn. lia. }
  split; [exact H|].
  exact (C9_malformed_username_rejected_before_store sampleIsEmail
           (Direct (inr newUser) shortForm) emptyState H).
Defined.

(** C10: registering new_user_1 leaves the registry entry of "alice"
    as it was. *)
Lemma C10_witness :
  ~ In ("usernames", "alice") (writtenKeys (Direct (inr newUser) newUserForm))
  /\ is_Some (db aliceTaken !! ("usernames", "alice"))
  /\ db (stateAfter
           (run sampleIsEmail (Direct (inr newUser) newUserForm) aliceTaken))
       !! ("usernames", "alice")
     = db aliceTaken !! ("usernames", "alice")
  /\ is_Some
       (db (stateAfter
              (run sampleIsEmail (Direct (inr newUser) newUserForm) aliceTaken))
          !! ("usernames", "alice")).
Proof.
  assert (H1 : ~ In ("usernames", "alice")
                 (writtenKeys (Direct (inr newUser) newUserForm))).
  { intros [H | [H | [H | []]]]; discriminate H. }
  assert (H2 : is_Some (db aliceTaken !! ("usernames", "alice")))
    by (eexists; reflexivity).
  split; [exact H1|]. split; [exact H2|]. split.
  - exact (proj1 (C10_workflow_frame sampleIsEmail
                    (Direct (inr newUser) newUserForm) aliceTaken) _ H1).
  - exact (proj2 (C10_workflow_frame sampleIsEmail
                    (Direct (inr newUser) newUserForm) aliceTaken) _ H2).
Defined.

(** * Properties of the other pages *)

(** ** The skills input of the editor *)

Lemma splitComma_nonempty s : Editor.splitComma s <> [].
Proof.
  destruct s as [|c r]; cbn [Editor.splitComma]; [discriminate|].
  destruct (Ascii.eqb c ","); [discriminate|].
  destruct (Editor.splitComma r); discriminate.
Qed.

Lemma noComma_cons c r : noComma (String c r) -> Ascii.eqb c "," = false /\ noComma r.
Proof.
  unfold noComma. cbn [list_ascii_of_string In]. intros H. split.
  - apply Ascii.eqb_neq. intros ->. apply H. left. reflexivity.
  - intros Hin. apply H. right. exact Hin.
Qed.

Lemma splitComma_single x : noComma x -> Editor.splitComma x = [x].
Proof.
  induction x as [|c r IH]; intros H; [reflexivity|].
  apply noComma_cons in H as [Hc Hr]. cbn [Editor.splitComma]. rewrite Hc, (IH Hr).
  reflexivity.
Qed.

Lemma append_cons c r x : String c r +:+ x = String c (r +:+ x).
Proof. reflexivity. Qed.

Lemma splitComma_sep x rest :
  noComma x -> Editor.splitComma (x +:+ String "," rest) = x :: Editor.splitComma rest.
Proof.
  induction x as [|c r IH]; intros H; [reflexivity|].
  apply noComma_cons in H as [Hc Hr]. rewrite append_cons. cbn [Editor.splitComma].
  rewrite Hc, (IH Hr). reflexivity.
Qed.

Lemma trim_white_prefix c p : Editor.isWhiteSpace c = true -> Editor.trim (String c p) = Editor.trim p.
Proof. intros H. unfold Editor.trim. cbn [Editor.trimStart]. rewrite H. reflexivity. Qed.

Lemma map_trim_white_prefix c r :
  Editor.isWhiteSpace c = true ->
  map Editor.trim (Editor.splitComma (String c r)) = map Editor.trim (Editor.splitComma r).
Proof.
  intros H. cbn [Editor.splitComma].
  destruct (Ascii.eqb_spec c ",") as [->|_]; [discriminate H|].
  destruct (Editor.splitComma r) as [|p ps] eqn:E; [destruct (splitComma_nonempty r E)|].
  cbn [map]. rewrite (trim_white_prefix c p H). reflexivity.
Qed.

Lemma skills_round_trip skills :
  Forall cleanSkill skills -> Editor.skillsOnChange (Editor.skillsInputValue skills) = skills.
Proof.
  unfold Editor.skillsOnChange, Editor.skillsInputValue.
  induction 1 as [|x l (Hne & Htrim & Hcomma) Hl IH]; [reflexivity|].
  destruct l as [|y l].
  - cbn [String.concat]. rewrite (splitComma_single x Hcomma). cbn [map List.filter].
    rewrite Htrim. destruct x; [contradiction|]. reflexivity.
  - change (String.concat ", " (x :: y :: l))
      with (x +:+ String "," (String " " (String.concat ", " (y :: l)))).
    rewrite (splitComma_sep x _ Hcomma). cbn [map List.filter].
    rewrite Htrim. rewrite map_trim_white_prefix by reflexivity. rewrite IH.
    destruct x; [contradiction|]. reflexivity.
Qed.

Lemma trimStart_head s :
  Editor.trimStart s = EmptyString
  \/ exists c r, Editor.trimStart s = String c r /\ Editor.isWhiteSpace c = false.
Proof.
  induction s as [|c r IH]; [left; reflexivity|].
  cbn [Editor.trimStart]. destruct (Editor.isWhiteSpace c) eqn:E; [exact IH|].
  right. eauto.
Qed.

Lemma trimEnd_head c r :
  Editor.isWhiteSpace c = false -> exists r', Editor.trimEnd (String c r) = String c r'.
Proof.
  intros H. cbn [Editor.trimEnd]. destruct (Editor.trimEnd r); rewrite ?H; eauto.
Qed.

Lemma trimEnd_idem s : Editor.trimEnd (Editor.trimEnd s) = Editor.trimEnd s.
Proof.
  induction s as [|c r IH]; [reflexivity|].
  cbn [Editor.trimEnd]. destruct (Editor.trimEnd r) as [|k ks] eqn:E.
  - destruct (Editor.isWhiteSpace c) eqn:W; [reflexivity|].
    cbn [Editor.trimEnd]. rewrite W. reflexivity.
  - rewrite <- E in IH |- *. cbn [Editor.trimEnd]. rewrite IH, E. reflexivity.
Qed.

Lemma trim_idem s : Editor.trim (Editor.trim s) = Editor.trim s.
Proof.
  unfold Editor.trim. destruct (trimStart_head s) as [E | (c & r & E & W)]; rewrite E.
  - reflexivity.
  - destruct (trimEnd_head c r W) as [r' E']. rewrite E'.
    cbn [Editor.trimStart]. rewrite W. rewrite <- E'. apply trimEnd_idem.
Qed.

Lemma In_trimStart a s :
  In a (list_ascii_of_string (Editor.trimStart s)) -> In a (list_ascii_of_string s).
Proof.
  induction s as [|c r IH]; [exact (fun H => H)|].
  cbn [Editor.trimStart]. destruct (Editor.isWhiteSpace c); [|exact (fun H => H)].
  intros H. right. exact (IH H).
Qed.

Lemma In_trimEnd a s :
  In a (list_ascii_of_string (Editor.trimEnd s)) -> In a (list_ascii_of_string s).
Proof.
  induction s as [|c r IH]; [exact (fun H => H)|].
  cbn [Editor.trimEnd]. destruct (Editor.trimEnd r) as [|k ks].
  - destruct (Editor.isWhiteSpace c); cbn [list_ascii_of_string In]; tauto.
  - cbn [list_ascii_of_string In] in *. tauto.
Qed.

Lemma noComma_trim s : noComma s -> noComma (Editor.trim s).
Proof.
  unfold noComma, Editor.trim. intros H Hin. apply H.
  apply In_trimStart, In_trimEnd. exact Hin.
Qed.

Lemma splitComma_pieces s p : In p (Editor.splitComma s) -> noComma p.
Proof.
  revert p. induction s as [|c r IH]; intros p.
  - intros [<- | []]. intros [].
  - cbn [Editor.splitComma]. destruct (Ascii.eqb_spec c ",") as [->|Hc].
    + intros [<- | Hin]; [intros [] | exact (IH p Hin)].
    + destruct (Editor.splitComma r) as [|q qs] eqn:E;
        [destruct (splitComma_nonempty r E)|].
      intros [<- | Hin].
      * unfold noComma. cbn [list_ascii_of_string In]. intros [Hx | Hx].
        -- apply Hc. exact Hx.
        -- exact (IH q (or_introl eq_refl) Hx).
      * apply IH. right. exact Hin.
Qed.

Lemma skills_parsed_clean text s :
  In s (Editor.skillsOnChange text) -> cleanSkill s.
Proof.
  unfold Editor.skillsOnChange. intros H. apply filter_In in H as [Hin Hne].
  apply in_map_iff in Hin as (p & <- & Hp).
  split; [|split].
  - intros E. rewrite E in Hne. discriminate Hne.
  - apply trim_idem.
  - apply noComma_trim, (splitComma_pieces text p Hp).
Qed.

Lemma splitComma_snoc_comma s :
  Editor.splitComma (s +:+ ",") = Editor.splitComma s ++ [EmptyString].
Proof.
  induction s as [|c r IH]; [reflexivity|].
  rewrite append_cons. cbn [Editor.splitComma]. rewrite IH.
  destruct (Ascii.eqb c ","); [reflexivity|].
  destruct (Editor.splitComma r) as [|q qs] eqn:E; [destruct (splitComma_nonempty r E)|].
  reflexivity.
Qed.

Lemma splitComma_snoc_other c s :
  Ascii.eqb c "," = false ->
  exists init last,
    Editor.splitComma s = init ++ [last]
    /\ Editor.splitComma (s +:+ String c EmptyString)
       = init ++ [last +:+ String c EmptyString].
Proof.
  intros Hc. induction s as [|a r (init & last & E1 & E2)].
  - exists [], EmptyString. split; [reflexivity|].
    change (EmptyString +:+ String c EmptyString) with (String c EmptyString).
    cbn [Editor.splitComma]. rewrite Hc. reflexivity.
  - rewrite append_cons. cbn [Editor.splitComma]. rewrite E1, E2.
    destruct (Ascii.eqb a ",").
    + exists (EmptyString :: init), last. split; reflexivity.
    + destruct init as [|i init]; cbn [app].
      * exists [], (String a last). split; reflexivity.
      * exists (String a i :: init), last. split; reflexivity.
Qed.

Lemma trimEnd_snoc_white c s :
  Editor.isWhiteSpace c = true -> Editor.trimEnd (s +:+ String c EmptyString) = Editor.trimEnd s.
Proof.
  intros W. induction s as [|a r IH].
  - change (EmptyString +:+ String c EmptyString) with (String c EmptyString).
    cbn [Editor.trimEnd]. rewrite W. reflexivity.
  - rewrite append_cons. cbn [Editor.trimEnd]. rewrite IH. reflexivity.
Qed.

Lemma trimStart_snoc c s :
  Editor.isWhiteSpace c = true ->
  Editor.trimStart (s +:+ String c EmptyString)
  = match Editor.trimStart s with
    | EmptyString => EmptyString
    | kept => kept +:+ String c EmptyString
    end.
Proof.
  intros W. induction s as [|a r IH].
  - change (EmptyString +:+ String c EmptyString) with (String c EmptyString).
    cbn [Editor.trimStart]. rewrite W. reflexivity.
  - rewrite append_cons. cbn [Editor.trimStart]. destruct (Editor.isWhiteSpace a); [exact IH|].
    reflexivity.
Qed.

Lemma trim_snoc_white c s :
  Editor.isWhiteSpace c = true -> Editor.trim (s +:+ String c EmptyString) = Editor.trim s.
Proof.
  intros W. unfold Editor.trim. rewrite (trimStart_snoc c s W).
  destruct (Editor.trimStart s); [reflexivity|]. apply trimEnd_snoc_white. exact W.
Qed.

Lemma skills_trailing_separator text c :
  c = ","%char \/ Editor.isWhiteSpace c = true ->
  Editor.skillsOnChange (text +:+ String c EmptyString) = Editor.skillsOnChange text.
Proof.
  unfold Editor.skillsOnChange. intros [-> | W].
  - rewrite splitComma_snoc_comma, List.map_app, List.filter_app. cbn. apply app_nil_r.
  - assert (Hc : Ascii.eqb c "," = false).
    { apply Ascii.eqb_neq. intros ->. discriminate W. }
    destruct (splitComma_snoc_other c text Hc) as (init & last & E1 & E2).
    rewrite E1, E2, !List.map_app, !List.filter_app. cbn [map].
    rewrite (trim_snoc_white c last W). reflexivity.
Qed.

(** ** Equality queries *)

Lemma ascii_compare_lt_trans a b c :
  Ascii.compare a b = Lt -> Ascii.compare b c = Lt -> Ascii.compare a c = Lt.
Proof.
  unfold Ascii.compare. rewrite !N.compare_lt_iff. apply N.lt_trans.
Qed.

Lemma ascii_compare_refl a : Ascii.compare a a = Eq.
Proof. unfold Ascii.compare. apply N.compare_refl. Qed.

Lemma string_compare_refl a : String.compare a a = Eq.
Proof.
  induction a as [|x a IH]; [reflexivity|].
  cbn [String.compare]. rewrite ascii_compare_refl. exact IH.
Qed.

Lemma string_compare_lt_trans a : forall b c,
  String.compare a b = Lt -> String.compare b c = Lt -> String.compare a c = Lt.
Proof.
  induction a as [|x a IH]; intros [|y b] [|z c]; cbn [String.compare];
    try discriminate; try reflexivity.
  destruct (Ascii.compare x y) eqn:Exy; try discriminate;
    destruct (Ascii.compare y z) eqn:Eyz; try discriminate.
  - apply Ascii.compare_eq_iff in Exy, Eyz. subst.
    rewrite ascii_compare_refl. apply IH.
  - apply Ascii.compare_eq_iff in Exy. subst. rewrite Eyz. reflexivity.
  - apply Ascii.compare_eq_iff in Eyz. subst. rewrite Exy. reflexivity.
  - rewrite (ascii_compare_lt_trans _ _ _ Exy Eyz). reflexivity.
Qed.

Lemma string_leb_trans a b c :
  String.leb a b = true -> String.leb b c = true -> String.leb a c = true.
Proof.
  unfold String.leb.
  destruct (String.compare a b) eqn:Eab; try discriminate;
    destruct (String.compare b c) eqn:Ebc; try discriminate; intros _ _.
  - apply String.compare_eq_iff in Eab, Ebc. subst.
    rewrite string_compare_refl. reflexivity.
  - apply String.compare_eq_iff in Eab. subst. rewrite Ebc. reflexivity.
  - apply String.compare_eq_iff in Ebc. subst. rewrite Eab. reflexivity.
  - rewrite (string_compare_lt_trans _ _ _ Eab Ebc). reflexivity.
Qed.

Lemma string_leb_refl a : String.leb a a = true.
Proof.
  unfold String.leb. rewrite string_compare_refl. reflexivity.
Qed.

Lemma In_insertById x y l : In y (insertById x l) <-> y = x \/ In y l.
Proof.
  induction l as [|z l IH]; cbn [insertById In]; [intuition congruence|].
  destruct (String.leb (fst x) (fst z)); cbn [In]; [intuition congruence|].
  rewrite IH. intuition congruence.
Qed.

Lemma In_sortById y l : In y (sortById l) <-> In y l.
Proof.
  induction l as [|x l IH]; [reflexivity|].
  cbn [sortById fold_right In]. rewrite In_insertById.
  fold (sortById l). rewrite IH. intuition congruence.
Qed.

Lemma insertById_headLeast x l :
  headLeast l -> headLeast (insertById x l).
Proof.
  destruct l as [|a rest]; cbn [insertById headLeast]; [intros _ y []|].
  intros H. destruct (String.leb (fst x) (fst a)) eqn:E; cbn [headLeast].
  - intros y [<- | Hy]; [exact E|].
    apply (string_leb_trans _ _ _ E). apply H. exact Hy.
  - intros y Hy. apply In_insertById in Hy as [-> | Hy]; [|apply H; exact Hy].
    destruct (String.leb_total (fst x) (fst a)) as [C | C]; [congruence | exact C].
Qed.

Lemma sortById_headLeast l : headLeast (sortById l).
Proof.
  induction l as [|x l IH]; [exact I|].
  cbn [sortById fold_right]. apply insertById_headLeast. exact IH.
Qed.

Lemma In_collectionDocs (c id : string) (d : Doc) (m : gmap Path Doc) :
  In (id, d) (collectionDocs c m)
  <-> isDocumentId id = true /\ m !! (c, id) = Some d.
Proof.
  unfold collectionDocs. rewrite in_flat_map. split.
  - intros ([[c' id'] d'] & Hin & Hx). cbn [fst snd] in Hx.
    destruct (String.eqb_spec c' c) as [->|]; [|destruct Hx].
    destruct (isDocumentId id') eqn:Hid; [|destruct Hx].
    destruct Hx as [Hx | []]. injection Hx as -> ->.
    apply list_elem_of_In, elem_of_map_to_list in Hin. split; assumption.
  - intros [Hid H]. exists ((c, id), d). split.
    + apply list_elem_of_In, elem_of_map_to_list. exact H.
    + cbn [fst snd]. rewrite String.eqb_refl, Hid. left. reflexivity.
Qed.

Lemma In_queryDocs (c f v id : string) (d : Doc) (m : gmap Path Doc) :
  In (id, d) (queryDocs c f v m)
  <-> isDocumentId id = true /\ m !! (c, id) = Some d /\ fieldIs f v d = true.
Proof.
  unfold queryDocs. rewrite In_sortById, filter_In, In_collectionDocs.
  cbn [snd]. tauto.
Qed.

Lemma queryDocs_head (c f v : string) (m : gmap Path Doc) :
  match queryDocs c f v m with
  | [] =>
      forall (id : string) (d : Doc),
        isDocumentId id = true -> m !! (c, id) = Some d -> fieldIs f v d = false
  | (id, d) :: _ =>
      isDocumentId id = true /\ m !! (c, id) = Some d /\ fieldIs f v d = true
      /\ forall (id' : string) (d' : Doc),
           isDocumentId id' = true -> m !! (c, id') = Some d' ->
           fieldIs f v d' = true -> String.leb id id' = true
  end.
Proof.
  pose proof (fun id d => In_queryDocs c f v id d m) as Hin.
  pose proof (sortById_headLeast
                (List.filter (fun kv => fieldIs f v (snd kv)) (collectionDocs c m)))
    as Hleast.
  fold (queryDocs c f v m) in Hleast.
  destruct (queryDocs c f v m) as [|[id d] rest].
  - intros id d Hid Hd. destruct (fieldIs f v d) eqn:E; [|reflexivity].
    exfalso. exact (proj2 (Hin id d) (conj Hid (conj Hd E))).
  - destruct (proj1 (Hin id d) (or_introl eq_refl)) as (Hid & Hd & Hf).
    split; [exact Hid|]. split; [exact Hd|]. split; [exact Hf|].
    intros id' d' Hid' Hd' Hf'.
    destruct (proj2 (Hin id' d') (conj Hid' (conj Hd' Hf'))) as [E | Hr].
    + injection E as -> _. apply string_leb_refl.
    + exact (Hleast _ Hr).
Qed.

(** ** The public portfolio page *)

Lemma pgGetDocs_answered c f v s :
  nextFault s = None ->
  pgGetDocs c f v s
  = (Returned (queryDocs c f v (db s)), consumed s, [PgGetDocs c f v]).
Proof. intros H. unfold pgGetDocs. rewrite H. reflexivity. Qed.

Lemma pgGetDoc_answered p s :
  nextFault s = None ->
  pgGetDoc p s = (Returned (db s !! p), consumed s, [PgGetDoc p]).
Proof. intros H. unfold pgGetDoc. rewrite H. reflexivity. Qed.

Lemma getPortfolioData_answered username s :
  answered 2 s ->
  PortfolioPage.getPortfolioData username s
  = match queryDocs "users" "username" (toLowerCase username) (db s) with
    | [] => (Returned None, consumed s,
             [PgGetDocs "users" "username" (toLowerCase username)])
    | userDoc :: _ =>
        (Returned (db s !! ("portfolios", fst userDoc)), consumed (consumed s),
         [PgGetDocs "users" "username" (toLowerCase username);
          PgGetDoc ("portfolios", fst userDoc)])
    end.
Proof.
  intros (H1 & H2 & _). unfold PortfolioPage.getPortfolioData, pgBind.
  rewrite (pgGetDocs_answered _ _ _ _ H1).
  destruct (queryDocs _ _ _ _) as [|userDoc rest]; [reflexivity|].
  rewrite (pgGetDoc_answered _ _ H2). reflexivity.
Qed.

Lemma getPortfolioData_resolves (username : string) (s : State) :
  answered 2 s ->
  db (pgState (PortfolioPage.getPortfolioData username s)) = db s
  /\ (((forall id, ~ accountNamed username s id)
       /\ pgOutcome (PortfolioPage.getPortfolioData username s) = Returned None
       /\ pgEvents (PortfolioPage.getPortfolioData username s)
          = [PgGetDocs "users" "username" (toLowerCase username)])
      \/ exists id,
           accountNamed username s id
           /\ (forall id', accountNamed username s id' -> String.leb id id' = true)
           /\ pgOutcome (PortfolioPage.getPortfolioData username s)
              = Returned (db s !! ("portfolios", id))
           /\ pgEvents (PortfolioPage.getPortfolioData username s)
              = [PgGetDocs "users" "username" (toLowerCase username);
                 PgGetDoc ("portfolios", id)]).
Proof.
  intros Hans. rewrite (getPortfolioData_answered username s Hans).
  pose proof (queryDocs_head "users" "username" (toLowerCase username) (db s)) as Hq.
  destruct (queryDocs _ _ _ _) as [|[id d] rest].
  - split; [reflexivity|]. left. split; [|split; reflexivity].
    intros id (d & Hid & Hd & Hf). rewrite (Hq id d Hid Hd) in Hf. discriminate Hf.
  - destruct Hq as (Hid & Hd & Hf & Hmin). split; [reflexivity|]. right.
    exists id. split; [exists d; auto|]. split; [|split; reflexivity].
    intros id' (d' & Hid' & Hd' & Hf'). exact (Hmin id' d' Hid' Hd' Hf').
Qed.

Lemma run_framed isEmail w s : framed w s (stateAfter (run isEmail w s)).
Proof.
  destruct w as [reply values | ctx uid email username].
  - exact (direct_frame isEmail reply values s).
  - exact (federated_frame ctx uid email username s).
Qed.

Lemma fieldIs_caseVariant u v d :
  toLowerCase u = toLowerCase v ->
  fieldIs "username" (toLowerCase u) d = fieldIs "username" (toLowerCase v) d.
Proof. intros ->. reflexivity. Qed.

Lemma run_completed_profile isEmail w s :
  completed (eventsOf (run isEmail w s)) ->
  exists id account profile,
    accountId w = Some id
    /\ db (stateAfter (run isEmail w s)) !! ("users", id) = Some account
    /\ fieldIs "username" (toLowerCase (candidate w)) account = true
    /\ db (stateAfter (run isEmail w s)) !! ("portfolios", id) = Some profile
    /\ seededDefaults (avatarOf w) profile.
Proof.
  intros Hc. destruct w as [reply values | ctx uid email username].
  - destruct (direct_docs isEmail reply values s Hc) as (usr & -> & Ha & _ & Hp).
    eexists (uid usr), _, AuthForm.portfolioDoc. split; [reflexivity|].
    split; [exact Ha|]. split.
    { unfold fieldIs. cbn. apply String.eqb_refl. }
    split; [exact Hp|].
    unfold seededDefaults. repeat split. eexists. split; reflexivity.
  - destruct (federated_docs ctx uid email username s Hc)
      as (given & id & e & -> & Hdoc & -> & Ha & _ & Hp).
    eexists id, _, (FinishProfile.portfolioDoc (AuthContext.user ctx)).
    split; [exact Hdoc|]. split; [exact Ha|]. split.
    { unfold fieldIs. cbn. apply String.eqb_refl. }
    split; [exact Hp|].
    unfold seededDefaults. repeat split. eexists. split; reflexivity.
Qed.

Lemma registered_name_resolves
    (isEmail : string -> bool) (w : Workflow) (s s2 : State) (visited : string) :
  completed (eventsOf (run isEmail w s)) ->
  (forall id, accountId w = Some id -> isDocumentId id = true) ->
  (forall id, accountNamed (candidate w) s id -> accountId w = Some id) ->
  caseVariant (candidate w) visited ->
  db s2 = db (stateAfter (run isEmail w s)) ->
  answered 2 s2 ->
  exists profile,
    pgOutcome (PortfolioPage.getPortfolioData visited s2)
    = Returned (Some profile)
    /\ seededDefaults (avatarOf w) profile
    /\ db (pgState (PortfolioPage.getPortfolioData visited s2)) = db s2.
Proof.
  intros Hc Hplain Honly Hcv Hdb Hans.
  destruct (run_completed_profile isEmail w s Hc)
    as (id & account & profile & Hid & Ha & Hf & Hp & Hseed).
  pose proof (caseVariant_toLowerCase _ _ Hcv) as Hkey.
  destruct (getPortfolioData_resolves visited s2 Hans)
    as [Hsame [(Hnone & _) | (id0 & (d0 & Hplain0 & Hd0 & Hf0) & _ & Hout & _)]].
  - exfalso. apply (Hnone id). exists account. rewrite Hdb, <- Hkey. auto.
  - assert (Hid0 : id0 = id).
    { destruct (String.eqb_spec id0 id) as [E | Hne]; [exact E|].
      exfalso. rewrite Hdb in Hd0.
      destruct (run_framed isEmail w s) as [Hframe _].
      rewrite Hframe in Hd0.
      - assert (Hx : accountId w = Some id0).
        { apply Honly. exists d0. rewrite Hkey. auto. }
        congruence.
      - unfold writtenKeys. rewrite Hid. cbn [In].
        intros [E | [E | [E | []]]]; try discriminate E.
        injection E as E. congruence. }
    subst id0. exists profile.
    split; [rewrite Hout, Hdb, Hp; reflexivity|]. split; [exact Hseed|].
    exact Hsame.
Qed.

(** ** Documents as objects *)

Lemma doc_get_set_eq k v d : doc_get k (doc_set k v d) = Some v.
Proof.
  induction d as [|[k' v'] d IH]; cbn [doc_set doc_get].
  - rewrite String.eqb_refl. reflexivity.
  - destruct (String.eqb k k') eqn:E; cbn [doc_get]; rewrite E; [reflexivity | exact IH].
Qed.

Lemma doc_get_set_ne k k' v d : k <> k' -> doc_get k (doc_set k' v d) = doc_get k d.
Proof.
  intros Hne. induction d as [|[k2 v2] d IH]; cbn [doc_set doc_get].
  - apply String.eqb_neq in Hne. rewrite Hne. reflexivity.
  - destruct (String.eqb k' k2) eqn:E; cbn [doc_get].
    + apply String.eqb_eq in E. subst k2.
      apply String.eqb_neq in Hne. rewrite Hne. reflexivity.
    + destruct (String.eqb k k2); [reflexivity | exact IH].
Qed.

Lemma doc_get_None k (d : Doc) : doc_get k d = None <-> ~ In k (map fst d).
Proof.
  induction d as [|[k' v'] d IH]; cbn [doc_get map fst In]; [tauto|].
  destruct (String.eqb_spec k k') as [->|Hne].
  - split; [discriminate | intros H; exfalso; apply H; left; reflexivity].
  - rewrite IH. split; [intros H [E|E]; [congruence | exact (H E)] | tauto].
Qed.

Lemma mergeDoc_absent k (new old : Doc) :
  doc_get k new = None -> doc_get k (mergeDoc old new) = doc_get k old.
Proof.
  revert old. induction new as [|[k' v'] new IH]; intros old; [reflexivity|].
  cbn [doc_get mergeDoc]. destruct (String.eqb_spec k k') as [->|Hne]; [discriminate|].
  intros H. rewrite (IH _ H). apply doc_get_set_ne. exact Hne.
Qed.

Lemma mergeDoc_given k v (new old : Doc) :
  NoDup (map fst new) ->
  doc_get k new = Some v ->
  doc_get k (mergeDoc old new) = Some (mergeValue (doc_get k old) v).
Proof.
  revert old. induction new as [|[k' v'] new IH]; intros old Hnd; [discriminate|].
  cbn [map fst] in Hnd. apply NoDup_cons in Hnd as [Hk' Hnd]. rewrite list_elem_of_In in Hk'.
  cbn [doc_get mergeDoc]. destruct (String.eqb_spec k k') as [->|Hne].
  - intros [= ->]. rewrite mergeDoc_absent by (apply doc_get_None; exact Hk').
    apply doc_get_set_eq.
  - intros H. rewrite (IH _ Hnd H). rewrite doc_get_set_ne by exact Hne. reflexivity.
Qed.

Lemma mergeValue_plain old v : plainValue v = true -> mergeValue old v = v.
Proof. destruct v as [| | | | |[|f fs]]; try reflexivity. discriminate. Qed.

Lemma resolveTimestamps_get k now (d : Doc) v :
  doc_get k d = Some v -> plainValue v = true ->
  doc_get k (resolveTimestamps now d) = Some v.
Proof.
  induction d as [|[k' v'] d IH]; [discriminate|].
  cbn [doc_get resolveTimestamps map fst snd].
  destruct (String.eqb k k'); [|exact IH].
  intros [= ->] Hp. destruct v; try reflexivity. discriminate Hp.
Qed.

Lemma resolveTimestamps_keys now (d : Doc) :
  map fst (resolveTimestamps now d) = map fst d.
Proof. unfold resolveTimestamps. rewrite map_map. reflexivity. Qed.

Lemma pgSetDocMerge_answered p data s :
  nextFault s = None ->
  pgSetDocMerge p data s
  = (Returned tt,
     withDb (consumed s)
       (<[p := mergeDoc (stored (db s !! p)) (resolveTimestamps (clock s) data)]>
          (db s)),
     [PgSetDocMerge p data]).
Proof. intros H. unfold pgSetDocMerge. rewrite H. reflexivity. Qed.

(** ** Saving in the editor *)

Lemma editor_save usr (data : Doc) s :
  nextFault s = None ->
  NoDup (map fst data) ->
  exists saved,
    db (pgState (Editor.onSubmit (Some usr) data s)) !! ("portfolios", uid usr)
    = Some saved
    /\ (forall k v, doc_get k data = Some v -> plainValue v = true ->
                    doc_get k saved = Some v)
    /\ (forall k, doc_get k data = None ->
                  doc_get k saved
                  = doc_get k (stored (db s !! ("portfolios", uid usr))))
    /\ (forall p : Path, p <> ("portfolios", uid usr) ->
          db (pgState (Editor.onSubmit (Some usr) data s)) !! p = db s !! p)
    /\ pgEvents (Editor.onSubmit (Some usr) data s)
       = [PgSetDocMerge ("portfolios", uid usr) data;
          PgToast Default "Portfolio Saved!"
            (Some "Your changes have been successfully saved.")].
Proof.
  intros Hf Hnd. unfold Editor.onSubmit, pgTryCatch, pgBind.
  rewrite (pgSetDocMerge_answered _ _ _ Hf). cbn [pgEmit pgState pgEvents fst snd app db withDb].
  eexists. split; [apply lookup_insert_eq|]. split; [|split; [|split]].
  - intros k v Hk Hp.
    rewrite (mergeDoc_given k v).
    + rewrite mergeValue_plain by exact Hp. reflexivity.
    + rewrite resolveTimestamps_keys. exact Hnd.
    + apply resolveTimestamps_get; assumption.
  - intros k Hk. apply mergeDoc_absent.
    apply doc_get_None. rewrite resolveTimestamps_keys. apply doc_get_None. exact Hk.
  - intros p Hp. apply lookup_insert_ne. congruence.
  - reflexivity.
Qed.

Lemma editor_save_then_fetch usr (data values : Doc) s :
  answered 2 s ->
  NoDup (map fst data) ->
  exists fetched,
    pgOutcome (Editor.fetchPortfolio usr values
                 (pgState (Editor.onSubmit (Some usr) data s)))
    = Returned (fetched, false)
    /\ (forall k v, doc_get k data = Some v -> plainValue v = true ->
                    doc_get k fetched = Some v)
    /\ (forall k, doc_get k data = None ->
                  doc_get k fetched
                  = doc_get k (stored (db s !! ("portfolios", uid usr)))).
Proof.
  intros (H1 & H2 & _) Hnd.
  destruct (editor_save usr data s H1 Hnd) as (saved & Hs & Hgiven & Hkept & _).
  assert (Hf2 : nextFault (pgState (Editor.onSubmit (Some usr) data s)) = None).
  { unfold Editor.onSubmit, pgTryCatch, pgBind.
    rewrite (pgSetDocMerge_answered _ _ _ H1). exact H2. }
  unfold Editor.fetchPortfolio. rewrite (pgGetDoc_answered _ _ Hf2), Hs.
  exists saved. split; [reflexivity|]. split; assumption.
Qed.

Lemma editor_save_refused (user : option User) (data : Doc) s :
  user = None \/ nextFault s <> None ->
  db (pgState (Editor.onSubmit user data s)) = db s
  /\ exists title description,
       last (pgEvents (Editor.onSubmit user data s))
       = Some (PgToast Destructive title description).
Proof.
  intros [-> | Hf].
  - split; [reflexivity|]. eexists _, _. reflexivity.
  - destruct user as [usr|]; [|split; [reflexivity|]; eexists _, _; reflexivity].
    unfold Editor.onSubmit, pgTryCatch, pgBind, pgSetDocMerge.
    destruct (nextFault s) as [e|]; [|congruence].
    split; [reflexivity|]. eexists _, _. reflexivity.
Qed.

(** ** Object spread *)

Lemma spread_get k (extra base : Doc) :
  NoDup (map fst extra) ->
  doc_get k (spread base extra)
  = match doc_get k extra with
    | Some v => Some v
    | None => doc_get k base
    end.
Proof.
  unfold spread. revert base.
  induction extra as [|[k' v'] extra IH]; intros base Hnd; [reflexivity|].
  cbn [map fst] in Hnd. apply NoDup_cons in Hnd as [Hk' Hnd]. rewrite list_elem_of_In in Hk'.
  cbn [fold_left fst snd doc_get]. rewrite (IH _ Hnd).
  destruct (String.eqb_spec k k') as [->|Hne].
  - assert (E : doc_get k' extra = None) by (apply doc_get_None; exact Hk').
    rewrite E. apply doc_get_set_eq.
  - rewrite doc_get_set_ne by exact Hne. reflexivity.
Qed.

(** ** What a submission shows the user *)

Lemma feedback_fieldErrors e errs :
  forallb isFieldError (e :: errs) = true -> feedback (e :: errs).
Proof.
  intros H. unfold feedback.
  assert (Hl : exists f m, last (e :: errs) = Some (EvFieldError f m)).
  { revert e H. induction errs as [|e' errs IH]; intros e H.
    - destruct e; try discriminate H. eauto.
    - cbn [forallb] in H. apply andb_true_iff in H as [_ H].
      destruct (IH e' H) as (f & m & E). exists f, m. rewrite <- E. reflexivity. }
  destruct Hl as (f & m & ->). split.
  - apply not_completed_fieldErrors. exact H.
  - clear -H. induction (e :: errs) as [|x l IH]; [reflexivity|].
    cbn [forallb] in H. apply andb_true_iff in H as [Hx Hl].
    destruct x; try discriminate Hx. exact (IH Hl).
Qed.

Ltac feedback_tac :=
  unfold feedback; cbn [last];
  first [ reflexivity
        | split; [not_completed | reflexivity]
        | not_completed ].

Lemma direct_feedback isEmail reply values s :
  wp (AuthForm.submit isEmail AuthForm.Register reply values) s
     (fun _ _ evs => feedback evs).
Proof.
  unfold AuthForm.submit, AuthForm.onSubmit. wp_step.
  destruct (AuthForm.formSchema _ _ _) eqn:Hschema.
  2:{ apply feedback_fieldErrors. rewrite <- Hschema. apply registerSchema_only. }
  wp_run; feedback_tac.
Qed.

Lemma federated_feedback ctx uid email username s :
  AuthContext.loading ctx = false -> AuthContext.user ctx <> None ->
  wp (FinishProfile.submit ctx uid email username) s
     (fun _ _ evs => feedback evs).
Proof.
  intros Hl Husr. unfold FinishProfile.submit. rewrite Hl.
  destruct (AuthContext.user ctx) as [usr|]; [|congruence].
  wp_step. unfold FinishProfile.profileSchema.
  destruct (usernameIssues username) as [|msg rest] eqn:Hu;
    cbn [fieldError]; [|feedback_tac].
  unfold FinishProfile.onSubmit.
  destruct uid as [uid|], email as [email|]; try (wp_run; feedback_tac).
  destruct (negb (truthy (Some uid)) || negb (truthy (Some email)));
    wp_run; feedback_tac.
Qed.

Lemma run_feedback isEmail w s :
  formShown w -> feedback (eventsOf (run isEmail w s)).
Proof.
  destruct w as [reply values | ctx uid email username]; cbn [formShown run].
  - intros _. exact (direct_feedback isEmail reply values s).
  - intros [Hl Hu]. exact (federated_feedback ctx uid email username s Hl Hu).
Qed.

(** An accepted sign-up is not undone when a write is rejected. *)
Lemma direct_accepted isEmail usr values s :
  AuthForm.registerSchema isEmail values = [] ->
  nextFault s = None ->
  db s !! registryKey (AuthForm.username values) = None ->
  wp (AuthForm.submit isEmail AuthForm.Register (inr usr) values) s
     (fun _ s' evs =>
        principals s' = usr :: principals s
        /\ (completed evs <-> answered 3 (consumed s))
        /\ (~ completed evs ->
            exists e, last evs
              = Some (EvToast Destructive "Authentication Error"
                        (orElse (Some (message e)) "An unknown error occurred.")))).
Proof.
  intros Hschema H1 Hfree. unfold registryKey in Hfree.
  unfold AuthForm.submit, handleSubmit, AuthForm.formSchema. rewrite Hschema.
  change (wp (AuthForm.onSubmit AuthForm.Register (inr usr) values) s
    (fun _ s' evs =>
        principals s' = usr :: principals s
        /\ (completed evs <-> answered 3 (consumed s))
        /\ (~ completed evs ->
            exists e, last evs
              = Some (EvToast Destructive "Authentication Error"
                        (orElse (Some (message e)) "An unknown error occurred."))))).
  unfold AuthForm.onSubmit. wp_run.
  all: split; [reflexivity|]; cbn [answered].
  all: split; [split; [try not_completed | ] | ].
  all: try (intros (Ha & Hb & Hc & _); congruence).
  all: try (intros _; eexists; reflexivity).
  - intros _. repeat split; assumption.
  - intros _. unfold completed. cbn [In]. tauto.
  - intros Hn. exfalso. apply Hn. unfold completed. cbn [In]. tauto.
Qed.

(** ** A registration whose first write is rejected *)

Lemma direct_orphan isEmail usr values s e :
  AuthForm.registerSchema isEmail values = [] ->
  nextFault s = None ->
  db s !! registryKey (AuthForm.username values) = None ->
  nextFault (consumed s) = Some e ->
  AuthForm.submit isEmail AuthForm.Register (inr usr) values s
  = (Returned tt,
     withPrincipals (consumed (consumed s)) (usr :: principals s),
     [EvGetDoc (registryKey (AuthForm.username values));
      EvCreateUser (AuthForm.email values) (AuthForm.password values);
      EvSetDoc ("users", uid usr) (AuthForm.accountDoc (AuthForm.username values) usr);
      EvToast Destructive "Authentication Error"
        (orElse (Some (message e)) "An unknown error occurred.")]).
Proof.
  intros Hschema H1 Hfree H2. unfold registryKey in Hfree.
  unfold AuthForm.submit, handleSubmit, AuthForm.formSchema. rewrite Hschema.
  apply wp_eq. unfold AuthForm.onSubmit. wp_run. reflexivity.
Qed.

Lemma orphan_routed_to_completion isEmail usr values s e prev :
  AuthForm.registerSchema isEmail values = [] ->
  nextFault s = None ->
  db s !! registryKey (AuthForm.username values) = None ->
  nextFault (consumed s) = Some e ->
  nextFault (consumed (consumed s)) = None ->
  db s !! ("users", uid usr) = None ->
  db (stateAfter (AuthForm.submit isEmail AuthForm.Register (inr usr) values s)) = db s
  /\ In usr (principals
               (stateAfter (AuthForm.submit isEmail AuthForm.Register (inr usr) values s)))
  /\ Dashboard.DashboardPage
       (resultOf (AuthContext.onAuthStateChanged prev (Some usr)
          (stateAfter (AuthForm.submit isEmail AuthForm.Register (inr usr) values s))))
     = (Dashboard.Spinner, [toCompletion usr]).
Proof.
  intros Hschema H1 Hfree H2 H3 Hnone.
  rewrite (direct_orphan isEmail usr values s e Hschema H1 Hfree H2).
  unfold stateAfter. cbn [fst snd]. autorewrite with state.
  split; [reflexivity|]. split; [left; reflexivity|].
  rewrite onAuthStateChanged_answered by (autorewrite with state; exact H3).
  autorewrite with state. rewrite Hnone. reflexivity.
Qed.

(** ** Valid submissions and rejected store calls *)

Ltac outcome_tac Hfree :=
  unfold validOutcome, registryKey; cbn [answered candidate db withDb accountId];
  try match goal with E : docId _ = _ |- _ => rewrite E end;
  autorewrite with state;
  split; [split; [try not_completed; intros _; repeat split; assumption
                 | first [ intros (? & ? & ? & ? & _); congruence
                         | intros _; unfold completed; cbn [In]; tauto ] ]|];
  split;
  [ first [ intros Hn; exfalso; apply Hn; repeat split; assumption
          | intros _; repeat (rewrite lookup_insert_ne by (intros [=])); exact Hfree ]
  | ];
  split;
  [ first [ intros (? & ? & ? & _); congruence
          | intros _;
            repeat first [ rewrite lookup_insert_eq
                         | rewrite lookup_insert_ne by (intros [=]) ];
            eexists; reflexivity ]
  | first [ intros Hn; exfalso; apply Hn; repeat split; assumption
          | intros _ id [= <-];
            repeat (rewrite lookup_insert_ne by (intros [=])); reflexivity ] ].

Lemma run_valid_outcome isEmail w s :
  usernameIssues (candidate w) = [] ->
  otherFieldsValid isEmail w ->
  accepted w ->
  is_Some (accountId w) ->
  db s !! registryKey (candidate w) = None ->
  wp (run isEmail w) s (fun _ s' evs => validOutcome w s s' evs).
Proof.
  intros Hu Hv Hacc [i Hdoc] Hfree. unfold registryKey in Hfree.
  destruct w as [reply values | ctx uid email username];
    cbn [candidate otherFieldsValid run accepted accountId] in *.
  - destruct Hv as [He Hp]. destruct Hacc as [usr ->].
    unfold AuthForm.submit, handleSubmit, AuthForm.formSchema.
    rewrite (registerSchema_valid _ _ Hu He Hp).
    change (wp (AuthForm.onSubmit AuthForm.Register (inr usr) values) s
              (fun _ s' evs => validOutcome (Direct (inr usr) values) s s' evs)).
    unfold AuthForm.onSubmit. wp_run; outcome_tac Hfree.
  - destruct Hv as (Hl & Husr & Huid & Hemail).
    unfold FinishProfile.submit, handleSubmit, FinishProfile.profileSchema.
    rewrite Hl, Hu. destruct (AuthContext.user ctx) as [usr|]; [|congruence].
    destruct uid as [uid|]; [|discriminate Huid].
    destruct email as [email|]; [|discriminate Hemail].
    cbn [fieldError].
    change (wp (FinishProfile.onSubmit (Some uid) (Some email) (Some usr) username)
              s (fun _ s' evs =>
                   validOutcome (Federated ctx (Some uid) (Some email) username)
                     s s' evs)).
    unfold FinishProfile.onSubmit. rewrite Huid, Hemail. cbn [negb orb].
    wp_run; outcome_tac Hfree.
Qed.

(** ** Missing query parameters *)

Lemma guard_home ctx uid email :
  In (EvReplace RHome) (FinishProfile.guard ctx uid email)
  <-> truthy uid = false \/ truthy email = false.
Proof.
  unfold FinishProfile.guard.
  destruct (negb (AuthContext.loading ctx) && _);
    destruct (truthy uid), (truthy email); cbn; split; intros H;
    repeat match goal with
           | H : _ \/ _ |- _ => destruct H
           | H : False |- _ => destruct H
           end; try discriminate; auto.
Qed.

Lemma missing_parameters_onSubmit uid email user username s :
  truthy uid = false \/ truthy email = false ->
  FinishProfile.onSubmit uid email user username s
  = (Returned tt, s, [EvToast Destructive "Error" "Missing user information."]).
Proof.
  intros H. unfold FinishProfile.onSubmit.
  destruct uid as [uid|], email as [email|]; try reflexivity.
  destruct H as [-> | ->]; cbn [negb orb]; try reflexivity.
  destruct (negb (truthy (Some uid))); reflexivity.
Qed.

Lemma missing_parameters_submit ctx uid email username s :
  truthy uid = false \/ truthy email = false ->
  stateAfter (FinishProfile.submit ctx uid email username s) = s
  /\ storeCalls (eventsOf (FinishProfile.submit ctx uid email username s)) = []
  /\ ~ completed (eventsOf (FinishProfile.submit ctx uid email username s))
  /\ (AuthContext.loading ctx = false -> AuthContext.user ctx <> None ->
      usernameIssues username = [] ->
      eventsOf (FinishProfile.submit ctx uid email username s)
      = [EvToast Destructive "Error" "Missing user information."]).
Proof.
  intros H. unfold FinishProfile.submit.
  destruct (AuthContext.loading ctx).
  { repeat split; try reflexivity; [not_completed | discriminate]. }
  destruct (AuthContext.user ctx) as [usr|].
  2:{ repeat split; try reflexivity; [not_completed | congruence]. }
  unfold handleSubmit, FinishProfile.profileSchema.
  destruct (usernameIssues username) as [|msg rest]; cbn [fieldError].
  - rewrite (missing_parameters_onSubmit _ _ _ _ _ H).
    repeat split; try reflexivity. not_completed.
  - repeat split; try reflexivity; [not_completed | discriminate].
Qed.

(** ** Signing in *)

Lemma loginSchema_only isEmail values :
  forallb isFieldError (AuthForm.loginSchema isEmail values) = true.
Proof.
  unfold AuthForm.loginSchema.
  destruct (AuthForm.emailIssues _ _), (_ <? _)%nat; reflexivity.
Qed.

Lemma login_run isEmail reply values s :
  wp (AuthForm.submit isEmail AuthForm.Login reply values) s
     (fun _ s' evs =>
        s' = s
        /\ storeCalls evs = []
        /\ (completed evs
            <-> AuthForm.loginSchema isEmail values = []
                /\ exists usr, reply = inr usr)).
Proof.
  unfold AuthForm.submit, AuthForm.formSchema. wp_step.
  pose proof (loginSchema_only isEmail values) as Honly.
  destruct (AuthForm.loginSchema isEmail values) as [|e errs].
  - unfold AuthForm.onSubmit, wp, tryCatch, bind, signInWithEmailAndPassword, emit.
    destruct reply as [err|usr]; cbn.
    + split; [reflexivity|]. split; [reflexivity|]. split.
      * not_completed.
      * intros [_ [usr [=]]].
    + split; [reflexivity|]. split; [reflexivity|]. split; [eauto|].
      intros _. tauto.
  - split; [reflexivity|]. split; [exact (storeCalls_fieldErrors _ Honly)|].
    split; [|intros [[=] _]]. intros Hc. exfalso. revert Hc.
    exact (not_completed_fieldErrors _ Honly).
Qed.

(** ** Google sign-in *)

Lemma handleGoogleSignIn_readonly reply s :
  wp (AuthForm.handleGoogleSignIn reply) s
     (fun _ s' evs => db s' = db s /\ writes evs = [] /\ clock s' = clock s).
Proof.
  unfold AuthForm.handleGoogleSignIn, wp, tryCatch, bind, AuthForm.signInWithPopup,
    getDoc, emit.
  destruct reply as [err|usr]; cbn; [auto|].
  destruct (existsb _ _); cbn; unfold nextFault; cbn;
    destruct (faults s) as [|[e|] rest]; cbn;
    try destruct (db s !! _); cbn; auto.
Qed.

(** ** Google sign-in and the dashboard *)

Lemma handleGoogleSignIn_answered usr s :
  nextFault s = None ->
  db (stateAfter (AuthForm.handleGoogleSignIn (inr usr) s)) = db s
  /\ nextFault (stateAfter (AuthForm.handleGoogleSignIn (inr usr) s))
     = nextFault (consumed s)
  /\ existsb (fun p => String.eqb (uid p) (uid usr))
       (principals (stateAfter (AuthForm.handleGoogleSignIn (inr usr) s))) = true.
Proof.
  intros H.
  unfold AuthForm.handleGoogleSignIn, tryCatch, bind, AuthForm.signInWithPopup,
    getDoc, emit, stateAfter.
  destruct (existsb _ (principals s)) eqn:Hex; cbn [fst snd];
    autorewrite with state; rewrite H; cbn [fst snd].
  - destruct (db s !! _); cbn; autorewrite with state; auto.
  - destruct (db s !! _); cbn; autorewrite with state; cbn [existsb];
      rewrite String.eqb_refl; auto.
Qed.

Lemma google_route_agrees_with_dashboard usr s prev :
  answered 2 s ->
  db (stateAfter (AuthForm.handleGoogleSignIn (inr usr) s)) = db s
  /\ ((db s !! ("users", uid usr) = None
       /\ last (eventsOf (AuthForm.handleGoogleSignIn (inr usr) s))
          = Some (EvPush (RFinishProfile (uid usr) (interpolate (userEmail usr))))
       /\ Dashboard.DashboardPage
            (resultOf (AuthContext.onAuthStateChanged prev (Some usr)
               (stateAfter (AuthForm.handleGoogleSignIn (inr usr) s))))
          = (Dashboard.Spinner,
             [EvReplace (RFinishProfile (uid usr) (interpolate (userEmail usr)))]))
      \/ (exists account,
            db s !! ("users", uid usr) = Some account
            /\ last (eventsOf (AuthForm.handleGoogleSignIn (inr usr) s))
               = Some (EvPush RDashboard)
            /\ exists name,
                 Dashboard.DashboardPage
                   (resultOf (AuthContext.onAuthStateChanged prev (Some usr)
                      (stateAfter (AuthForm.handleGoogleSignIn (inr usr) s))))
                 = (Dashboard.Welcome name, []))).
Proof.
  intros (H1 & H2 & _).
  destruct (handleGoogleSignIn_answered usr s H1) as (Hdb & Hf & _).
  split; [exact Hdb|].
  rewrite onAuthStateChanged_answered by (rewrite Hf; exact H2).
  rewrite Hdb, (handleGoogleSignIn_routes usr s H1).
  unfold resultOf. cbn [fst last].
  destruct (db s !! ("users", uid usr)) as [account|].
  - right. exists account. split; [reflexivity|]. split; [reflexivity|].
    eexists. reflexivity.
  - left. split; [reflexivity|]. split; reflexivity.
Qed.

(** ** A session whose Account lookup is rejected, and no session *)

Lemma rejected_lookup_keeps_loading
    (A : Type) (children : AuthContext.AuthContextType -> A)
    (prev : AuthContext.AuthContextType) (usr : User) (s : State) (e : Error) :
  nextFault s = Some e ->
  AuthContext.AuthProvider
    (resultOf (AuthContext.onAuthStateChanged prev (Some usr) s)) children
  = AuthContext.Skeleton
  /\ eventsOf (AuthContext.onAuthStateChanged prev (Some usr) s)
     = [EvGetDoc ("users", uid usr)]
  /\ db (stateAfter (AuthContext.onAuthStateChanged prev (Some usr) s)) = db s.
Proof.
  intros H. unfold AuthContext.onAuthStateChanged, getDoc. rewrite H.
  repeat split.
Qed.

Lemma signed_out_pages prev s uid email username values ld data s' :
  Dashboard.DashboardPage (resultOf (AuthContext.onAuthStateChanged prev None s))
  = (Dashboard.Blank, [EvReplace RLogin])
  /\ In (EvReplace RLogin)
       (FinishProfile.guard
          (resultOf (AuthContext.onAuthStateChanged prev None s)) uid email)
  /\ FinishProfile.submit
       (resultOf (AuthContext.onAuthStateChanged prev None s))
       uid email username s'
     = (Returned tt, s', [])
  /\ Editor.effect
       (resultOf (AuthContext.onAuthStateChanged prev None s)) values ld s'
     = (Returned (values, ld), s', [PgReplace RLogin])
  /\ Editor.onSubmit
       (AuthContext.user (resultOf (AuthContext.onAuthStateChanged prev None s)))
       data s'
     = (Returned tt, s', [PgToast Destructive "Not authenticated" None])
  /\ stateAfter (AuthContext.onAuthStateChanged prev None s) = s.
Proof.
  unfold AuthContext.onAuthStateChanged, resultOf, stateAfter. cbn [fst snd].
  unfold Dashboard.DashboardPage, FinishProfile.guard, FinishProfile.submit,
    Editor.effect, Editor.onSubmit, pgBind, pgRet, pgEmit, ret.
  cbn [AuthContext.loading AuthContext.user negb andb app].
  repeat split. left. reflexivity.
Qed.

Lemma handleLogout_outcome signOut s :
  pgState (Header.handleLogout signOut s) = s
  /\ (In (PgPush RHome) (pgEvents (Header.handleLogout signOut s))
      <-> signOut = None).
Proof.
  unfold Header.handleLogout, pgBind, pgEmit, pgState, pgEvents.
  destruct signOut as [e|]; cbn; split; try reflexivity; split; intros H;
    try discriminate; auto.
  destruct H as [E | []]. discriminate E.
Qed.

(** ** Normalized usernames *)

Lemma In_allAscii c : In c allAscii.
Proof.
  unfold allAscii. rewrite <- (ascii_nat_embedding c).
  apply in_map. apply in_seq. pose proof (nat_ascii_bounded c). lia.
Qed.

Lemma toLowerCaseChar_inj_check :
  forallb (fun a =>
    forallb (fun b =>
      implb (Ascii.eqb (toLowerCaseChar a) (toLowerCaseChar b)) (sameLetter a b))
      allAscii) allAscii = true.
Proof. vm_compute. reflexivity. Qed.

Lemma toLowerCaseChar_same a b :
  toLowerCaseChar a = toLowerCaseChar b ->
  a = b
  \/ (isUpperCase a = true /\ b = lowerOf a)
  \/ (isUpperCase b = true /\ a = lowerOf b).
Proof.
  intros E. pose proof toLowerCaseChar_inj_check as H.
  rewrite forallb_forall in H. specialize (H a (In_allAscii a)).
  rewrite forallb_forall in H. specialize (H b (In_allAscii b)).
  rewrite E, Ascii.eqb_refl in H. cbn [implb] in H. unfold sameLetter in H.
  apply orb_true_iff in H as [H | H]; [apply orb_true_iff in H as [H | H]|].
  - left. apply Ascii.eqb_eq. exact H.
  - apply andb_true_iff in H as [Hu Hb]. right. left.
    split; [exact Hu|]. apply Ascii.eqb_eq. exact Hb.
  - apply andb_true_iff in H as [Hu Hb]. right. right.
    split; [exact Hu|]. apply Ascii.eqb_eq. exact Hb.
Qed.

Lemma toLowerCase_caseVariant u : forall v,
  toLowerCase u = toLowerCase v -> caseVariant u v.
Proof.
  induction u as [|a u IH]; intros [|b v] E; cbn [toLowerCase] in E;
    try discriminate E; [constructor|].
  injection E as Ec Es. specialize (IH v Es).
  destruct (toLowerCaseChar_same a b Ec) as [-> | [[Hu ->] | [Hu ->]]].
  - apply cv_same. exact IH.
  - apply cv_lower; assumption.
  - apply cv_upper; assumption.
Qed.

Lemma registryKey_caseVariant u v :
  registryKey u = registryKey v <-> caseVariant u v.
Proof.
  unfold registryKey. split.
  - intros [= E]. apply toLowerCase_caseVariant. exact E.
  - intros H. rewrite (caseVariant_toLowerCase _ _ H). reflexivity.
Qed.

Lemma isUpperCase_toLowerCaseChar c : isUpperCase (toLowerCaseChar c) = false.
Proof. destruct c as [[] [] [] [] [] [] [] []]; reflexivity. Qed.

Lemma toLowerCase_idem u : toLowerCase (toLowerCase u) = toLowerCase u.
Proof.
  induction u as [|c u IH]; [reflexivity|]. cbn [toLowerCase]. rewrite IH.
  unfold toLowerCaseChar at 1. rewrite isUpperCase_toLowerCaseChar. reflexivity.
Qed.

Lemma toLowerCase_no_upper u c :
  In c (list_ascii_of_string (toLowerCase u)) -> isUpperCase c = false.
Proof.
  induction u as [|a u IH]; cbn; [tauto|].
  intros [<- | H]; [apply isUpperCase_toLowerCaseChar | exact (IH H)].
Qed.

Lemma usernameIssues_nil u :
  usernameIssues u = []
  <-> (3 <= String.length u <= 20)%nat /\ allWordChars u = true.
Proof.
  unfold usernameIssues, usernamePattern.
  destruct (Nat.ltb_spec (String.length u) 3),
           (Nat.ltb_spec 20 (String.length u)); cbn [app].
  1-3: split; [discriminate | intros [? _]; lia].
  destruct u as [|c u]; [cbn in *; lia|].
  destruct (allWordChars (String c u)); split; try discriminate; auto.
  intros [_ [=]].
Qed.

Lemma stored_username_normal isEmail w s :
  completed (eventsOf (run isEmail w s)) ->
  usernameIssues (toLowerCase (candidate w)) = []
  /\ toLowerCase (toLowerCase (candidate w)) = toLowerCase (candidate w)
  /\ (forall c, In c (list_ascii_of_string (toLowerCase (candidate w))) ->
        isUpperCase c = false /\ wordChar c = true)
  /\ is_Some (db (stateAfter (run isEmail w s))
                !! registryKey (toLowerCase (candidate w))).
Proof.
  intros Hc.
  destruct (run_completed isEmail w s Hc)
    as (id & given & account & profile & _ & _ & _ & _ & _ & _ & Hreg & _ & Hu & _).
  assert (Hcv : caseVariant (candidate w) (toLowerCase (candidate w))).
  { apply toLowerCase_caseVariant. symmetry. apply toLowerCase_idem. }
  assert (Hu' : usernameIssues (toLowerCase (candidate w)) = []).
  { rewrite <- (caseVariant_usernameIssues _ _ Hcv). exact Hu. }
  split; [exact Hu'|]. split; [apply toLowerCase_idem|]. split.
  - intros c Hin. split; [exact (toLowerCase_no_upper _ _ Hin)|].
    apply usernameIssues_nil in Hu' as [_ Hw]. revert Hin Hw.
    generalize (toLowerCase (candidate w)). intros n.
    induction n as [|a n IH]; cbn [list_ascii_of_string In allWordChars];
      [tauto|].
    intros [<- | Hin] Hw; apply andb_true_iff in Hw as [Ha Hn]; auto.
  - unfold registryKey in *. rewrite toLowerCase_idem, Hreg. eexists. reflexivity.
Qed.

(** ** The skills input of the file's second version *)

Lemma append_empty_r s : s +:+ EmptyString = s.
Proof. induction s as [|c r IH]; [reflexivity|]. rewrite append_cons, IH. reflexivity. Qed.

Lemma append_assoc_string a b c : (a +:+ b) +:+ c = a +:+ (b +:+ c).
Proof.
  induction a as [|x a IH]; [reflexivity|]. rewrite !append_cons, IH. reflexivity.
Qed.

Lemma concat_snoc_empty sep l :
  l <> [] -> String.concat sep (l ++ [EmptyString]) = String.concat sep l +:+ sep.
Proof.
  induction l as [|x l IH]; [congruence|]. intros _.
  destruct l as [|y l].
  - cbn [app String.concat]. rewrite append_empty_r. reflexivity.
  - change (String.concat sep ((x :: y :: l) ++ [EmptyString]))
      with (x +:+ sep +:+ String.concat sep ((y :: l) ++ [EmptyString])).
    rewrite IH by discriminate.
    change (String.concat sep (x :: y :: l))
      with (x +:+ sep +:+ String.concat sep (y :: l)).
    rewrite !append_assoc_string. reflexivity.
Qed.

Lemma unfiltered_trailing_comma text :
  Editor.skillsOnChangeUnfiltered text <> []
  /\ Editor.skillsOnChangeUnfiltered (text +:+ ",")
     = Editor.skillsOnChangeUnfiltered text ++ [EmptyString]
  /\ Editor.skillsInputValue (Editor.skillsOnChangeUnfiltered (text +:+ ","))
     = Editor.skillsInputValue (Editor.skillsOnChangeUnfiltered text) +:+ ", "
  /\ Editor.skillsInputValue (Editor.skillsOnChange (text +:+ ","))
     = Editor.skillsInputValue (Editor.skillsOnChange text).
Proof.
  assert (Hne : Editor.skillsOnChangeUnfiltered text <> []).
  { unfold Editor.skillsOnChangeUnfiltered.
    destruct (Editor.splitComma text) eqn:E; [destruct (splitComma_nonempty _ E)|].
    discriminate. }
  assert (Hsnoc : Editor.skillsOnChangeUnfiltered (text +:+ ",")
                  = Editor.skillsOnChangeUnfiltered text ++ [EmptyString]).
  { unfold Editor.skillsOnChangeUnfiltered.
    rewrite splitComma_snoc_comma, List.map_app. reflexivity. }
  split; [exact Hne|]. split; [exact Hsnoc|]. split.
  - rewrite Hsnoc. unfold Editor.skillsInputValue.
    apply concat_snoc_empty. exact Hne.
  - rewrite (skills_trailing_separator text ","%char) by (left; reflexivity).
    reflexivity.
Qed.

(** ** The session's user data *)

Lemma userData_fields prev usr s data :
  nextFault s = None ->
  db s !! ("users", uid usr) = Some data ->
  NoDup (map fst data) ->
  exists userData,
    AuthContext.userData
      (resultOf (AuthContext.onAuthStateChanged prev (Some usr) s))
    = Some userData
    /\ (forall k v, doc_get k data = Some v -> doc_get k userData = Some v)
    /\ (doc_get "uid" data = None -> doc_get "uid" userData = Some (VStr (uid usr)))
    /\ (forall k, k <> "uid" -> doc_get k data = None -> doc_get k userData = None).
Proof.
  intros H Hd Hnd. rewrite (onAuthStateChanged_answered prev usr s H), Hd.
  unfold resultOf. cbn [fst AuthContext.userData]. eexists. split; [reflexivity|].
  split; [|split].
  - intros k v Hk. rewrite (spread_get k data _ Hnd), Hk. reflexivity.
  - intros Hk. rewrite (spread_get "uid" data _ Hnd), Hk. reflexivity.
  - intros k Hne Hk. rewrite (spread_get k data _ Hnd), Hk.
    cbn [doc_get]. destruct (String.eqb_spec k "uid"); [contradiction|reflexivity].
Qed.

(** ** The editor after a registration *)

Lemma editor_loads_seeded_profile isEmail w s usr ctx values ld s2 :
  completed (eventsOf (run isEmail w s)) ->
  accountId w = Some (uid usr) ->
  AuthContext.loading ctx = false ->
  AuthContext.user ctx = Some usr ->
  db s2 = db (stateAfter (run isEmail w s)) ->
  nextFault s2 = None ->
  exists profile,
    Editor.effect ctx values ld s2
    = (Returned (profile, false), consumed s2,
       [PgGetDoc ("portfolios", uid usr); PgReset profile])
    /\ seededDefaults (avatarOf w) profile.
Proof.
  intros Hc Hid Hl Hu Hdb H.
  destruct (run_completed_profile isEmail w s Hc)
    as (id & account & profile & Hid' & _ & _ & Hp & Hseed).
  assert (id = uid usr) by congruence. subst id.
  exists profile. split; [|exact Hseed].
  unfold Editor.effect, pgBind, pgRet, Editor.fetchPortfolio.
  rewrite Hl, Hu. cbn [negb andb].
  rewrite (pgGetDoc_answered _ _ H), Hdb, Hp. reflexivity.
Qed.

(** * Main results on the registration workflows and the other pages *)

(** X1: a submission with a well-formed, free username whose other
    fields are valid, whose sign-up the identity provider accepts and
    whose account identifier is an identifier of one segment reaches the
    dashboard exactly when the store answers its four calls (the
    registry read and the three writes). *)
Theorem X1_valid_submission_completes_iff_store_answers
    (isEmail : string -> bool) (w : Workflow) (s : State) :
  usernameIssues (candidate w) = [] ->
  otherFieldsValid isEmail w ->
  accepted w ->
  plainIdentifier w ->
  db s !! registryKey (candidate w) = None ->
  (completed (eventsOf (run isEmail w s)) <-> answered 4 s).
Proof.
  intros Hu Hv Hacc Hplain Hfree.
  exact (proj1 (run_valid_outcome isEmail w s Hu Hv Hacc
                  (plainIdentifier_accountId w Hplain Hacc) Hfree)).
Qed.

Lemma X1_witness :
  completed (eventsOf (run sampleIsEmail newUserCompletion emptyState))
  <-> answered 4 emptyState.
Proof.
  apply X1_valid_submission_completes_iff_store_answers.
  - reflexivity.
  - repeat split. discriminate.
  - exact I.
  - exists "acct-1". split; reflexivity.
  - reflexivity.
Defined.

(** X2: whatever the store and the identity provider answer, a
    submission of a form that is on screen ends in exactly one of three
    ways: the navigation to the dashboard, with no error shown before
    it; an error under a field, with nothing written and no navigation;
    or an error toast, with no navigation. *)
Theorem X2_submission_ends_in_navigation_or_error
    (isEmail : string -> bool) (w : Workflow) (s : State) :
  formShown w -> feedback (eventsOf (run isEmail w s)).
Proof. exact (run_feedback isEmail w s). Qed.

Lemma X2_witness :
  feedback (eventsOf (run sampleIsEmail aliceRegistration aliceTaken)).
Proof.
  apply X2_submission_ends_in_navigation_or_error. exact I.
Defined.

(** X3: in the direct registration, when the identity provider has
    accepted the sign-up and the store rejects the first write, the
    principal stays (nothing undoes the sign-up) while the store is as
    before: the next session check of that user finds no Account and the
    dashboard sends them to the completion page. *)
Theorem X3_rejected_write_leaves_principal_without_account
    (isEmail : string -> bool) (usr : User) (values : AuthForm.FormValues)
    (s : State) (e : Error) (prev : AuthContext.AuthContextType) :
  AuthForm.registerSchema isEmail values = [] ->
  nextFault s = None ->
  db s !! registryKey (AuthForm.username values) = None ->
  nextFault (consumed s) = Some e ->
  nextFault (consumed (consumed s)) = None ->
  db s !! ("users", uid usr) = None ->
  db (stateAfter (AuthForm.submit isEmail AuthForm.Register (inr usr) values s))
  = db s
  /\ In usr
       (principals
          (stateAfter
             (AuthForm.submit isEmail AuthForm.Register (inr usr) values s)))
  /\ Dashboard.DashboardPage
       (resultOf
          (AuthContext.onAuthStateChanged prev (Some usr)
             (stateAfter
                (AuthForm.submit isEmail AuthForm.Register (inr usr) values s))))
     = (Dashboard.Spinner, [toCompletion usr]).
Proof. exact (orphan_routed_to_completion isEmail usr values s e prev). Qed.

Lemma X3_witness :
  In newUser
    (principals
       (stateAfter
          (AuthForm.submit sampleIsEmail AuthForm.Register (inr newUser)
             newUserForm (storeFailingAt 1 emptyState))))
  /\ Dashboard.DashboardPage
       (resultOf
          (AuthContext.onAuthStateChanged AuthContext.initial (Some newUser)
             (stateAfter
                (AuthForm.submit sampleIsEmail AuthForm.Register (inr newUser)
                   newUserForm (storeFailingAt 1 emptyState)))))
     = (Dashboard.Spinner, [toCompletion newUser]).
Proof.
  exact (proj2
    (X3_rejected_write_leaves_principal_without_account sampleIsEmail newUser
       newUserForm (storeFailingAt 1 emptyState) unavailable AuthContext.initial
       eq_refl eq_refl eq_refl eq_refl eq_refl eq_refl)).
Defined.

(** X4: in the federated completion, which makes no call to the
    identity provider: when the store rejects the registry read, the
    Account write or the registry write of a valid submission, the run
    does not complete and the username is still free; the same
    submission made again completes once the store answers. *)
Theorem X4_failure_before_registry_write_can_be_retried
    (isEmail : string -> bool) (ctx : AuthContext.AuthContextType)
    (given email : option string) (username : string) (s : State) :
  usernameIssues username = [] ->
  otherFieldsValid isEmail (Federated ctx given email username) ->
  is_Some (accountId (Federated ctx given email username)) ->
  db s !! registryKey username = None ->
  ~ answered 3 s ->
  ~ completed (eventsOf (FinishProfile.submit ctx given email username s))
  /\ db (stateAfter (FinishProfile.submit ctx given email username s))
       !! registryKey username = None
  /\ forall s2,
       db s2 = db (stateAfter (FinishProfile.submit ctx given email username s)) ->
       answered 4 s2 ->
       completed (eventsOf (FinishProfile.submit ctx given email username s2)).
Proof.
  intros Hu Hv Hid Hfree Hn.
  destruct (run_valid_outcome isEmail (Federated ctx given email username) s
              Hu Hv I Hid Hfree) as (Hiff & Hkeep & _).
  split; [|split].
  - intros Hc. apply Hn. apply Hiff in Hc. destruct Hc as (H1 & H2 & H3 & _).
    repeat split; assumption.
  - exact (Hkeep Hn).
  - intros s2 Hdb Hans.
    apply (valid_registration_completes isEmail
             (Federated ctx given email username) s2 Hu Hv I Hid Hans).
    cbn [candidate]. rewrite Hdb. exact (Hkeep Hn).
Qed.

Lemma X4_witness :
  ~ completed
      (eventsOf
         (FinishProfile.submit newUserSession (Some "acct-1")
            (Some "u@example.com") "new_user_1" (storeFailingAt 2 emptyState)))
  /\ completed
       (eventsOf
          (FinishProfile.submit newUserSession (Some "acct-1")
             (Some "u@example.com") "new_user_1"
             (withDb emptyState
                (db (stateAfter
                       (FinishProfile.submit newUserSession (Some "acct-1")
                          (Some "u@example.com") "new_user_1"
                          (storeFailingAt 2 emptyState))))))).
Proof.
  assert (Hn : ~ answered 3 (storeFailingAt 2 emptyState)).
  { intros (_ & _ & H & _). discriminate H. }
  assert (Hv : otherFieldsValid sampleIsEmail newUserCompletion).
  { repeat split. discriminate. }
  assert (Hid : is_Some (accountId newUserCompletion)).
  { eexists. reflexivity. }
  destruct (X4_failure_before_registry_write_can_be_retried sampleIsEmail
              newUserSession (Some "acct-1") (Some "u@example.com") "new_user_1"
              (storeFailingAt 2 emptyState) eq_refl Hv Hid eq_refl Hn)
    as (H1 & _ & H3).
  split; [exact H1|].
  apply H3; [reflexivity|]. repeat split.
Defined.

(** X5: when the store has answered the registry read and the Account
    and registry writes of a valid submission (with an account
    identifier of one segment) and rejects the profile write, the run
    does not complete and no profile is written, but the username stays
    reserved: every later submission of that username or of a case
    variant of it, in either workflow, is refused as taken, before any
    call to the identity provider. *)
Theorem X5_failure_at_profile_write_keeps_username_reserved
    (isEmail : string -> bool) (w w2 : Workflow) (s s2 : State) (e : Error) :
  usernameIssues (candidate w) = [] ->
  otherFieldsValid isEmail w ->
  accepted w ->
  plainIdentifier w ->
  db s !! registryKey (candidate w) = None ->
  answered 3 s ->
  nextFault (consumed (consumed (consumed s))) = Some e ->
  otherFieldsValid isEmail w2 ->
  caseVariant (candidate w) (candidate w2) ->
  db s2 = db (stateAfter (run isEmail w s)) ->
  nextFault s2 = None ->
  ~ completed (eventsOf (run isEmail w s))
  /\ (forall id, accountId w = Some id ->
        db (stateAfter (run isEmail w s)) !! ("portfolios", id)
        = db s !! ("portfolios", id))
  /\ run isEmail w2 s2
     = (Returned tt, consumed s2,
        [EvGetDoc (registryKey (candidate w2)); usernameTaken]).
Proof.
  intros Hu Hv Hacc Hplain Hfree Hans He Hv2 Hcv Hdb Hf2.
  destruct (run_valid_outcome isEmail w s Hu Hv Hacc
              (plainIdentifier_accountId w Hplain Hacc) Hfree)
    as (Hiff & _ & Hres & Hprofile).
  assert (Hn : ~ answered 4 s).
  { intros (_ & _ & _ & H4 & _). congruence. }
  split; [|split].
  - intros Hc. apply Hn. apply Hiff. exact Hc.
  - exact (Hprofile Hn).
  - apply run_taken; [| exact Hv2 | exact Hf2 |].
    + rewrite <- (caseVariant_usernameIssues _ _ Hcv). exact Hu.
    + unfold registryKey in *.
      rewrite <- (caseVariant_toLowerCase _ _ Hcv), Hdb. exact (Hres Hans).
Qed.

Lemma X5_witness :
  ~ completed
      (eventsOf (run sampleIsEmail aliceRegistration (storeFailingAt 3 emptyState)))
  /\ run sampleIsEmail aliceLowercase
       (withDb emptyState
          (db (stateAfter
                 (run sampleIsEmail aliceRegistration
                    (storeFailingAt 3 emptyState)))))
     = (Returned tt,
        consumed
          (withDb emptyState
             (db (stateAfter
                    (run sampleIsEmail aliceRegistration
                       (storeFailingAt 3 emptyState))))),
        [EvGetDoc (registryKey (candidate aliceLowercase)); usernameTaken]).
Proof.
  assert (Hans : answered 3 (storeFailingAt 3 emptyState)) by (repeat split).
  assert (Hv2 : otherFieldsValid sampleIsEmail aliceLowercase).
  { repeat split. discriminate. }
  assert (Hv : otherFieldsValid sampleIsEmail aliceRegistration).
  { split; [reflexivity | cbn; repeat constructor]. }
  destruct (X5_failure_at_profile_write_keeps_username_reserved sampleIsEmail
              aliceRegistration aliceLowercase (storeFailingAt 3 emptyState)
              (withDb emptyState
                 (db (stateAfter
                        (run sampleIsEmail aliceRegistration
                           (storeFailingAt 3 emptyState)))))
              unavailable eq_refl
              Hv
              (ex_intro _ newUser eq_refl) eq_refl
              eq_refl Hans eq_refl Hv2
              caseVariant_Alice_alice eq_refl eq_refl) as (H1 & _ & H3).
  split; [exact H1 | exact H3].
Defined.

(** X6: the completion page redirects to the home page exactly when the
    [uid] or the [email] query parameter is missing or empty; a
    submission made on such a page calls neither the store nor the
    router and leaves the state as it is, and when the form is on screen
    and the username is well formed it shows the single toast
    "Missing user information.". *)
Theorem X6_missing_query_parameters
    (ctx : AuthContext.AuthContextType) (uid email : option string)
    (username : string) (s : State) :
  (In (EvReplace RHome) (FinishProfile.guard ctx uid email)
   <-> truthy uid = false \/ truthy email = false)
  /\ (truthy uid = false \/ truthy email = false ->
      stateAfter (FinishProfile.submit ctx uid email username s) = s
      /\ storeCalls (eventsOf (FinishProfile.submit ctx uid email username s)) = []
      /\ ~ completed (eventsOf (FinishProfile.submit ctx uid email username s))
      /\ (AuthContext.loading ctx = false ->
          AuthContext.user ctx <> None ->
          usernameIssues username = [] ->
          eventsOf (FinishProfile.submit ctx uid email username s)
          = [EvToast Destructive "Error" "Missing user information."])).
Proof.
  split.
  - exact (guard_home ctx uid email).
  - exact (missing_parameters_submit ctx uid email username s).
Qed.

(** X7: signing in with e-mail and password never reads or writes the
    store and leaves the state as it is (no principal is created); the
    run reaches the dashboard exactly when the form is valid and the
    identity provider accepts the credentials, whether or not an Account
    exists. *)
Theorem X7_login_leaves_the_store_alone
    (isEmail : string -> bool) (reply : Error + User)
    (values : AuthForm.FormValues) (s : State) :
  stateAfter (AuthForm.submit isEmail AuthForm.Login reply values s) = s
  /\ storeCalls (eventsOf (AuthForm.submit isEmail AuthForm.Login reply values s))
     = []
  /\ (completed (eventsOf (AuthForm.submit isEmail AuthForm.Login reply values s))
      <-> AuthForm.loginSchema isEmail values = []
          /\ exists usr, reply = inr usr).
Proof. exact (login_run isEmail reply values s). Qed.

(** X8: after a Google sign-in whose Account lookup is answered, the
    route the sign-in handler pushes and the route the dashboard takes
    at the next session check agree: without an Account both lead to the
    completion page with the user's identifier and e-mail, with an
    Account the handler pushes the dashboard and the dashboard is
    shown.  The handler leaves the store as it is. *)
Theorem X8_google_route_agrees_with_dashboard
    (usr : User) (s : State) (prev : AuthContext.AuthContextType) :
  answered 2 s ->
  db (stateAfter (AuthForm.handleGoogleSignIn (inr usr) s)) = db s
  /\ ((db s !! ("users", uid usr) = None
       /\ last (eventsOf (AuthForm.handleGoogleSignIn (inr usr) s))
          = Some (EvPush (RFinishProfile (uid usr) (interpolate (userEmail usr))))
       /\ Dashboard.DashboardPage
            (resultOf (AuthContext.onAuthStateChanged prev (Some usr)
               (stateAfter (AuthForm.handleGoogleSignIn (inr usr) s))))
          = (Dashboard.Spinner,
             [EvReplace (RFinishProfile (uid usr) (interpolate (userEmail usr)))]))
      \/ (exists account,
            db s !! ("users", uid usr) = Some account
            /\ last (eventsOf (AuthForm.handleGoogleSignIn (inr usr) s))
               = Some (EvPush RDashboard)
            /\ exists name,
                 Dashboard.DashboardPage
                   (resultOf (AuthContext.onAuthStateChanged prev (Some usr)
                      (stateAfter (AuthForm.handleGoogleSignIn (inr usr) s))))
                 = (Dashboard.Welcome name, []))).
Proof. exact (google_route_agrees_with_dashboard usr s prev). Qed.

Lemma X8_witness :
  db (stateAfter (AuthForm.handleGoogleSignIn (inr newUser) emptyState))
  = db emptyState.
Proof.
  assert (Hans : answered 2 emptyState) by (repeat split).
  exact (proj1 (X8_google_route_agrees_with_dashboard newUser emptyState
                  AuthContext.initial Hans)).
Defined.

(** X9: whatever the identity provider and the store answer, the Google
    sign-in handler writes nothing: the store is as before. *)
Theorem X9_google_sign_in_writes_nothing (reply : Error + User) (s : State) :
  db (stateAfter (AuthForm.handleGoogleSignIn reply s)) = db s
  /\ writes (eventsOf (AuthForm.handleGoogleSignIn reply s)) = []
  /\ clock (stateAfter (AuthForm.handleGoogleSignIn reply s)) = clock s.
Proof. exact (handleGoogleSignIn_readonly reply s). Qed.

(** X10: when the store rejects the Account lookup of the session
    provider's callback, the store is as before and the provider stays in
    its loading state: whatever page is its child, it renders its own
    skeleton and mounts no page, so that no page redirects, fetches or
    can be submitted, and it does so whatever the context was before. *)
Theorem X10_rejected_lookup_keeps_session_loading
    (A : Type) (children : AuthContext.AuthContextType -> A)
    (prev : AuthContext.AuthContextType) (usr : User) (s : State) (e : Error) :
  nextFault s = Some e ->
  AuthContext.AuthProvider
    (resultOf (AuthContext.onAuthStateChanged prev (Some usr) s)) children
  = AuthContext.Skeleton
  /\ eventsOf (AuthContext.onAuthStateChanged prev (Some usr) s)
     = [EvGetDoc ("users", uid usr)]
  /\ db (stateAfter (AuthContext.onAuthStateChanged prev (Some usr) s)) = db s.
Proof. exact (rejected_lookup_keeps_loading A children prev usr s e). Qed.

Lemma X10_witness :
  AuthContext.AuthProvider
    (resultOf
       (AuthContext.onAuthStateChanged AuthContext.initial (Some newUser)
          (storeFailingAt 0 emptyState)))
    Dashboard.DashboardPage
  = AuthContext.Skeleton.
Proof.
  exact (proj1
    (X10_rejected_lookup_keeps_session_loading _ Dashboard.DashboardPage
       AuthContext.initial newUser (storeFailingAt 0 emptyState) unavailable
       eq_refl)).
Defined.

(** X11: once the session provider has seen the session end, every
    protected page sends the visitor to the login page and touches no
    store: the dashboard renders nothing and redirects, the completion
    page redirects and its form cannot be submitted, the editor
    redirects without fetching, and a save in the editor only shows
    "Not authenticated". *)
Theorem X11_signed_out_pages_redirect_to_login
    (prev : AuthContext.AuthContextType) (s : State)
    (uid email : option string) (username : string) (values : Doc) (ld : bool)
    (data : Doc) (s' : State) :
  Dashboard.DashboardPage (resultOf (AuthContext.onAuthStateChanged prev None s))
  = (Dashboard.Blank, [EvReplace RLogin])
  /\ In (EvReplace RLogin)
       (FinishProfile.guard
          (resultOf (AuthContext.onAuthStateChanged prev None s)) uid email)
  /\ FinishProfile.submit
       (resultOf (AuthContext.onAuthStateChanged prev None s))
       uid email username s'
     = (Returned tt, s', [])
  /\ Editor.effect
       (resultOf (AuthContext.onAuthStateChanged prev None s)) values ld s'
     = (Returned (values, ld), s', [PgReplace RLogin])
  /\ Editor.onSubmit
       (AuthContext.user (resultOf (AuthContext.onAuthStateChanged prev None s)))
       data s'
     = (Returned tt, s', [PgToast Destructive "Not authenticated" None])
  /\ stateAfter (AuthContext.onAuthStateChanged prev None s) = s.
Proof. exact (signed_out_pages prev s uid email username values ld data s'). Qed.

(** X12: the header's logout navigates to the home page exactly when the
    identity provider's sign-out succeeds (a rejected sign-out leaves
    the visitor where they are), and it never touches the store. *)
Theorem X12_logout_navigates_home_after_sign_out
    (signOut : option Error) (s : State) :
  pgState (Header.handleLogout signOut s) = s
  /\ (In (PgPush RHome) (pgEvents (Header.handleLogout signOut s))
      <-> signOut = None).
Proof. exact (handleLogout_outcome signOut s). Qed.

(** X13: two usernames get the same registry key exactly when they
    differ only in the case of their letters: the registry identifies
    case variants and nothing else. *)
Theorem X13_registry_key_identifies_exactly_case_variants (u v : string) :
  registryKey u = registryKey v <-> caseVariant u v.
Proof. exact (registryKey_caseVariant u v). Qed.

(** X14: the username a completed registration stores is in normal
    form: it passes the format checks of the form itself, lower-casing
    it again changes nothing, it holds no upper-case letter and only
    characters of [a-z0-9_], and looking it up as it is stored finds the
    registry entry. *)
Theorem X14_stored_username_is_normal
    (isEmail : string -> bool) (w : Workflow) (s : State) :
  completed (eventsOf (run isEmail w s)) ->
  usernameIssues (toLowerCase (candidate w)) = []
  /\ toLowerCase (toLowerCase (candidate w)) = toLowerCase (candidate w)
  /\ (forall c, In c (list_ascii_of_string (toLowerCase (candidate w))) ->
        isUpperCase c = false /\ wordChar c = true)
  /\ is_Some (db (stateAfter (run isEmail w s))
                !! registryKey (toLowerCase (candidate w))).
Proof. exact (stored_username_normal isEmail w s). Qed.

Lemma X14_witness :
  usernameIssues (toLowerCase (candidate aliceRegistration)) = []
  /\ is_Some (db (stateAfter (run sampleIsEmail aliceRegistration emptyState))
                !! registryKey (toLowerCase (candidate aliceRegistration))).
Proof.
  assert (Hc : completed (eventsOf (run sampleIsEmail aliceRegistration emptyState)))
    by (vm_compute; tauto).
  destruct (X14_stored_username_is_normal sampleIsEmail aliceRegistration
              emptyState Hc) as (H1 & _ & _ & H4).
  split; [exact H1 | exact H4].
Defined.

(** X15: when the store answers, the public page's lookup of a username
    leaves the store as it is and either finds no Account with the
    lower-cased username and returns nothing after the single query, or
    reads the profile of the Account with the least identifier among
    those carrying that username. *)
Theorem X15_public_lookup_resolves_by_normalized_username
    (username : string) (s : State) :
  answered 2 s ->
  db (pgState (PortfolioPage.getPortfolioData username s)) = db s
  /\ (((forall id, ~ accountNamed username s id)
       /\ pgOutcome (PortfolioPage.getPortfolioData username s) = Returned None
       /\ pgEvents (PortfolioPage.getPortfolioData username s)
          = [PgGetDocs "users" "username" (toLowerCase username)])
      \/ exists id,
           accountNamed username s id
           /\ (forall id', accountNamed username s id' -> String.leb id id' = true)
           /\ pgOutcome (PortfolioPage.getPortfolioData username s)
              = Returned (db s !! ("portfolios", id))
           /\ pgEvents (PortfolioPage.getPortfolioData username s)
              = [PgGetDocs "users" "username" (toLowerCase username);
                 PgGetDoc ("portfolios", id)]).
Proof. exact (getPortfolioData_resolves username s). Qed.

Lemma X15_witness :
  db (pgState (PortfolioPage.getPortfolioData "New_User_1" newUserRegistered))
  = db newUserRegistered.
Proof.
  assert (Hans : answered 2 newUserRegistered) by (repeat split).
  exact (proj1 (X15_public_lookup_resolves_by_normalized_username "New_User_1"
                  newUserRegistered Hans)).
Defined.

(** X16: after a completed registration of a username that no other
    Account carried, under an account identifier of one segment, the
    public page's lookup of that username, in any spelling of its
    letters' case, returns the profile the registration seeded, and
    leaves the store as it is. *)
Theorem X16_registered_username_resolves_to_seeded_profile
    (isEmail : string -> bool) (w : Workflow) (s s2 : State) (visited : string) :
  completed (eventsOf (run isEmail w s)) ->
  (forall id, accountId w = Some id -> isDocumentId id = true) ->
  (forall id, accountNamed (candidate w) s id -> accountId w = Some id) ->
  caseVariant (candidate w) visited ->
  db s2 = db (stateAfter (run isEmail w s)) ->
  answered 2 s2 ->
  exists profile,
    pgOutcome (PortfolioPage.getPortfolioData visited s2)
    = Returned (Some profile)
    /\ seededDefaults (avatarOf w) profile
    /\ db (pgState (PortfolioPage.getPortfolioData visited s2)) = db s2.
Proof. exact (registered_name_resolves isEmail w s s2 visited). Qed.

Lemma X16_witness :
  exists profile,
    pgOutcome
      (PortfolioPage.getPortfolioData "alice"
         (stateAfter (run sampleIsEmail aliceRegistration emptyState)))
    = Returned (Some profile)
    /\ seededDefaults (avatarOf aliceRegistration) profile
    /\ db (pgState
             (PortfolioPage.getPortfolioData "alice"
                (stateAfter (run sampleIsEmail aliceRegistration emptyState))))
       = db (stateAfter (run sampleIsEmail aliceRegistration emptyState)).
Proof.
  assert (Hc : completed (eventsOf (run sampleIsEmail aliceRegistration emptyState)))
    by (vm_compute; tauto).
  assert (Hplain : forall id,
             accountId aliceRegistration = Some id -> isDocumentId id = true).
  { intros id [= <-]. reflexivity. }
  assert (Hnone : forall id,
             accountNamed (candidate aliceRegistration) emptyState id ->
             accountId aliceRegistration = Some id).
  { intros id (d & _ & Hd & _). cbn [db emptyState] in Hd.
    rewrite lookup_empty in Hd. discriminate Hd. }
  assert (Hans : answered 2
                   (stateAfter (run sampleIsEmail aliceRegistration emptyState)))
    by (repeat split).
  exact (X16_registered_username_resolves_to_seeded_profile sampleIsEmail
           aliceRegistration emptyState _ "alice" Hc Hplain Hnone
           caseVariant_Alice_alice eq_refl Hans).
Defined.

(** X17: the skills input round-trips: for skills that are not empty,
    carry no comma and no white space at either end, parsing the text
    the input shows for them gives the same skills back. *)
Theorem X17_skills_input_round_trip (skills : list string) :
  Forall cleanSkill skills ->
  Editor.skillsOnChange (Editor.skillsInputValue skills) = skills.
Proof. exact (skills_round_trip skills). Qed.

Lemma X17_witness :
  Editor.skillsOnChange (Editor.skillsInputValue ["React"; "Next.js"])
  = ["React"; "Next.js"].
Proof.
  apply X17_skills_input_round_trip.
  repeat constructor; try discriminate;
    intros H; cbn in H; intuition discriminate.
Defined.

(** X18: whatever text is typed, every skill the input's handler keeps
    is not empty, has no white space at either end and holds no comma. *)
Theorem X18_parsed_skills_are_clean (text s : string) :
  In s (Editor.skillsOnChange text) -> cleanSkill s.
Proof. exact (skills_parsed_clean text s). Qed.

Lemma X18_witness : cleanSkill "Next.js".
Proof.
  apply (X18_parsed_skills_are_clean " React , ,Next.js,").
  vm_compute. right. left. reflexivity.
Defined.

(** X19: in the editor's first version a comma or a white space typed at
    the end of the skills input is lost: the handler stores the same
    skills as before the keystroke (so the text shown, which is computed
    from the skills, does not change). *)
Theorem X19_trailing_separator_is_dropped (text : string) (c : ascii) :
  c = ","%char \/ Editor.isWhiteSpace c = true ->
  Editor.skillsOnChange (text +:+ String c EmptyString)
  = Editor.skillsOnChange text.
Proof. exact (skills_trailing_separator text c). Qed.

Lemma X19_witness :
  Editor.skillsOnChange ("React" +:+ String "," EmptyString)
  = Editor.skillsOnChange "React".
Proof.
  apply X19_trailing_separator_is_dropped. left. reflexivity.
Defined.

(** X20: in the editor's second version, whose handler does not filter,
    the skills are never the empty list, and a comma typed at the end
    adds an empty skill, so that the text shown afterwards ends in the
    separator. *)
Theorem X20_unfiltered_input_keeps_trailing_comma (text : string) :
  Editor.skillsOnChangeUnfiltered text <> []
  /\ Editor.skillsOnChangeUnfiltered (text +:+ ",")
     = Editor.skillsOnChangeUnfiltered text ++ [EmptyString]
  /\ Editor.skillsInputValue (Editor.skillsOnChangeUnfiltered (text +:+ ","))
     = Editor.skillsInputValue (Editor.skillsOnChangeUnfiltered text) +:+ ", ".
Proof.
  destruct (unfiltered_trailing_comma text) as (H1 & H2 & H3 & _).
  split; [exact H1|]. split; [exact H2 | exact H3].
Qed.

(** X21: a save in the editor that the store answers merges the form
    data into the user's profile: every field given with a plain value
    (a string, an array) holds that value afterwards, every field the
    data does not give keeps the value it had, no other document
    changes, and the user sees "Portfolio Saved!". *)
Theorem X21_editor_save_merges (usr : User) (data : Doc) (s : State) :
  nextFault s = None ->
  NoDup (map fst data) ->
  exists saved,
    db (pgState (Editor.onSubmit (Some usr) data s)) !! ("portfolios", uid usr)
    = Some saved
    /\ (forall k v, doc_get k data = Some v -> plainValue v = true ->
                    doc_get k saved = Some v)
    /\ (forall k, doc_get k data = None ->
                  doc_get k saved
                  = doc_get k (stored (db s !! ("portfolios", uid usr))))
    /\ (forall p : Path, p <> ("portfolios", uid usr) ->
          db (pgState (Editor.onSubmit (Some usr) data s)) !! p = db s !! p)
    /\ pgEvents (Editor.onSubmit (Some usr) data s)
       = [PgSetDocMerge ("portfolios", uid usr) data;
          PgToast Default "Portfolio Saved!"
            (Some "Your changes have been successfully saved.")].
Proof. exact (editor_save usr data s). Qed.

Lemma sampleEdit_keys : NoDup (map fst sampleEdit).
Proof.
  repeat (apply NoDup_cons; split; [rewrite list_elem_of_In; cbn; intuition discriminate|]).
  apply NoDup_nil. exact I.
Defined.

Lemma X21_witness :
  exists saved,
    db (pgState (Editor.onSubmit (Some newUser) sampleEdit newUserRegistered))
      !! ("portfolios", uid newUser)
    = Some saved
    /\ doc_get "fullName" saved = Some (VStr "Ada L.")
    /\ doc_get "theme" saved = Some (VStr "default").
Proof.
  destruct (X21_editor_save_merges newUser sampleEdit newUserRegistered eq_refl
              sampleEdit_keys) as (saved & Hs & Hgiven & Hkept & _).
  exists saved. split; [exact Hs|]. split.
  - exact (Hgiven "fullName" _ eq_refl eq_refl).
  - rewrite (Hkept "theme" eq_refl). reflexivity.
Defined.

(** X22: the editor reads back what it saved: after an answered save,
    the page's fetch returns a document with the saved fields and the
    kept ones, and ends the loading state. *)
Theorem X22_editor_fetch_after_save
    (usr : User) (data values : Doc) (s : State) :
  answered 2 s ->
  NoDup (map fst data) ->
  exists fetched,
    pgOutcome (Editor.fetchPortfolio usr values
                 (pgState (Editor.onSubmit (Some usr) data s)))
    = Returned (fetched, false)
    /\ (forall k v, doc_get k data = Some v -> plainValue v = true ->
                    doc_get k fetched = Some v)
    /\ (forall k, doc_get k data = None ->
                  doc_get k fetched
                  = doc_get k (stored (db s !! ("portfolios", uid usr)))).
Proof. exact (editor_save_then_fetch usr data values s). Qed.

Lemma X22_witness :
  exists fetched,
    pgOutcome (Editor.fetchPortfolio newUser []
                 (pgState (Editor.onSubmit (Some newUser) sampleEdit emptyState)))
    = Returned (fetched, false)
    /\ doc_get "fullName" fetched = Some (VStr "Ada L.").
Proof.
  assert (Hans : answered 2 emptyState) by (repeat split).
  destruct (X22_editor_fetch_after_save newUser sampleEdit [] emptyState Hans
              sampleEdit_keys) as (fetched & Hf & Hgiven & _).
  exists fetched. split; [exact Hf|].
  exact (Hgiven "fullName" _ eq_refl eq_refl).
Defined.

(** X23: a save without a signed-in user, or one that the store
    rejects, leaves the store as it is and ends with an error toast. *)
Theorem X23_refused_save_changes_nothing
    (user : option User) (data : Doc) (s : State) :
  user = None \/ nextFault s <> None ->
  db (pgState (Editor.onSubmit user data s)) = db s
  /\ exists title description,
       last (pgEvents (Editor.onSubmit user data s))
       = Some (PgToast Destructive title description).
Proof. exact (editor_save_refused user data s). Qed.

Lemma X23_witness :
  db (pgState (Editor.onSubmit None sampleEdit newUserRegistered))
  = db newUserRegistered.
Proof.
  exact (proj1 (X23_refused_save_changes_nothing None sampleEdit
                  newUserRegistered (or_introl eq_refl))).
Defined.

(** X24: the session's user data is the Account document with the
    user's identifier added under [uid]: every field of the Account is
    in it with its value, [uid] is the session user's identifier unless
    the Account has a [uid] field of its own, and it has no other
    field. *)
Theorem X24_user_data_is_account_with_uid
    (prev : AuthContext.AuthContextType) (usr : User) (s : State) (data : Doc) :
  nextFault s = None ->
  db s !! ("users", uid usr) = Some data ->
  NoDup (map fst data) ->
  exists userData,
    AuthContext.userData
      (resultOf (AuthContext.onAuthStateChanged prev (Some usr) s))
    = Some userData
    /\ (forall k v, doc_get k data = Some v -> doc_get k userData = Some v)
    /\ (doc_get "uid" data = None -> doc_get "uid" userData = Some (VStr (uid usr)))
    /\ (forall k, k <> "uid" -> doc_get k data = None -> doc_get k userData = None).
Proof. exact (userData_fields prev usr s data). Qed.

Lemma X24_witness :
  exists userData,
    AuthContext.userData
      (resultOf
         (AuthContext.onAuthStateChanged AuthContext.initial (Some newUser)
            newUserRegistered))
    = Some userData
    /\ doc_get "username" userData = Some (VStr "new_user_1")
    /\ doc_get "uid" userData = Some (VStr "acct-1").
Proof.
  assert (Hnd : NoDup (map fst (resolveTimestamps 0
                   (AuthForm.accountDoc "new_user_1" newUser)))).
  { repeat (apply NoDup_cons; split;
            [rewrite list_elem_of_In; cbn; intuition discriminate|]).
    apply NoDup_nil. exact I. }
  destruct (X24_user_data_is_account_with_uid AuthContext.initial newUser
              newUserRegistered _ eq_refl eq_refl Hnd)
    as (userData & Hu & Hfields & Huid & _).
  exists userData. split; [exact Hu|]. split.
  - exact (Hfields "username" _ eq_refl).
  - exact (Huid eq_refl).
Defined.

(** X25: after a completed registration, the editor opened by the user
    whose identifier the registration wrote under fetches the seeded
    profile, resets its form to it and ends its loading state. *)
Theorem X25_editor_loads_seeded_profile
    (isEmail : string -> bool) (w : Workflow) (s : State) (usr : User)
    (ctx : AuthContext.AuthContextType) (values : Doc) (ld : bool) (s2 : State) :
  completed (eventsOf (run isEmail w s)) ->
  accountId w = Some (uid usr) ->
  AuthContext.loading ctx = false ->
  AuthContext.user ctx = Some usr ->
  db s2 = db (stateAfter (run isEmail w s)) ->
  nextFault s2 = None ->
  exists profile,
    Editor.effect ctx values ld s2
    = (Returned (profile, false), consumed s2,
       [PgGetDoc ("portfolios", uid usr); PgReset profile])
    /\ seededDefaults (avatarOf w) profile.
Proof. exact (editor_loads_seeded_profile isEmail w s usr ctx values ld s2). Qed.

Lemma X25_witness :
  exists profile,
    Editor.effect newUserSession [] true newUserRegistered
    = (Returned (profile, false), consumed newUserRegistered,
       [PgGetDoc ("portfolios", uid newUser); PgReset profile])
    /\ seededDefaults (avatarOf newUserRegistration) profile.
Proof.
  assert (Hc : completed (eventsOf (run sampleIsEmail newUserRegistration emptyState)))
    by (vm_compute; tauto).
  exact (X25_editor_loads_seeded_profile sampleIsEmail newUserRegistration
           emptyState newUser newUserSession [] true newUserRegistered
           Hc eq_refl eq_refl eq_refl eq_refl eq_refl).
Defined.
